(** * draw_rectangles: the ImageLabeler of [main.py]

    A shallow embedding of the parts of [main.py] that carry the
    rectangle-drawing logic: the coordinate mapping between the label and
    the original image, the drag state machine driven by the three mouse
    handlers, undo, the two export formats, the image-load pipeline and
    the overlay [paintEvent] draws.

    Conventions of the embedding.
    - Python [int] is [Z].  A Python [float] and a NumPy [float64] are
      binary64 numbers, here the primitive floats of the kernel: sums,
      differences, products and quotients round as the program's do, and
      [nan] and the infinities are values.
    - A [QPoint] holds two C ints.  The positions, sizes and scroll values
      Qt hands to the program are taken as it gives them, and so are the
      points the program builds from their coordinates.  Where the program
      builds a point from two floats (lines 329, 335 and 344) the outcome is
      PyQt5's and depends on the interpreter: that constructor is a
      variable of [Section Labeler], and it may raise.
    - A Python exception is a constructor of [exn].  A method of the class
      is a function from the object's fields to an [outcome]: the fields as
      the method left them, the exception that left it (if any), and the
      files it wrote.
    - What Qt and the Python runtime decide is input.  The size of the
      label and the values of the scroll bars travel with each mouse event;
      the size of a rescaled pixmap, the float a token denotes and the
      point two floats give are the three variables of [Section Labeler].
    - [initUI] builds the widgets; it writes none of the attributes below
      and is left out. *)

From Stdlib Require Import Floats.
From Stdlib Require Import String Ascii DecimalString DecimalPos DecimalZ.
From Stdlib Require Import ZArith List Bool Lia.
Import ListNotations.

Open Scope string_scope.
Open Scope list_scope.
Open Scope Z_scope.

(** ** Python values and exceptions *)

Inductive exn : Type :=
| AttributeError
| ValueError
| ZeroDivisionError
| TypeError
| OverflowError.

Inductive result (A : Type) : Type :=
| Ok (a : A)
| Raise (e : exn).

Arguments Ok {A} a.
Arguments Raise {A} e.

Definition bind {A B : Type} (r : result A) (k : A -> result B) : result B :=
  match r with
  | Ok a => k a
  | Raise e => Raise e
  end.

Notation "x <- r ;; k" := (bind r (fun x => k))
  (at level 61, r at next level, right associativity).

(** A Python [float] and a NumPy [float64] are IEEE 754 binary64 numbers,
    and so are the primitive floats: their operations round as the
    program's do. *)
Abbreviation float64 := PrimFloat.float.

(** The float nearest to an int (ties to even), the conversion Python
    applies to the int operand of a mixed operation.  Exact up to 2^53; an
    int beyond the range of binary64, which Python refuses, cannot come out
    of a coordinate or a size, both C ints. *)
Definition float_of_Z (z : Z) : float64 := SF2Prim (binary_normalize prec emax z 0 false).

(** [int(f)]: truncation towards zero, refused for [nan] and the
    infinities. *)
Definition py_int (f : float64) : result Z :=
  match Prim2SF f with
  | S754_nan => Raise ValueError
  | S754_infinity _ => Raise OverflowError
  | S754_zero _ => Ok 0
  | S754_finite s m e =>
      let magnitude := Z.shiftl (Zpos m) e in
      Ok (if s then - magnitude else magnitude)
  end.

(** [a / b] on two ints: true division, the quotient rounded once (as the
    division of the two floats is, the ints being exact as floats). *)
Definition truediv (a b : Z) : result float64 :=
  if b =? 0 then Raise ZeroDivisionError else Ok (float_of_Z a / float_of_Z b)%float.

(** [str(z)] as an f-string prints an int. *)
Definition str (z : Z) : string := NilZero.string_of_int (Z.to_int z).

(** The characters [str.split()] separates on (ASCII range). *)
Definition isspace (c : ascii) : bool :=
  let n := nat_of_ascii c in
  (Nat.leb 9 n && Nat.leb n 13) || (Nat.leb 28 n && Nat.leb n 32).

Fixpoint split_from (cur s : string) : list string :=
  match s with
  | EmptyString => if (String.length cur =? 0)%nat then [] else [cur]
  | String c rest =>
      if isspace c then
        if (String.length cur =? 0)%nat then split_from "" rest
        else cur :: split_from "" rest
      else split_from (String.append cur (String c "")) rest
  end.

(** [s.split()] *)
Definition split (s : string) : list string := split_from "" s.

(** [s.endswith(suffix)] *)
Definition endswith (s suffix : string) : bool :=
  let n := String.length s in
  let m := String.length suffix in
  Nat.leb m n && String.eqb (substring (n - m) m s) suffix.

(** [enumerate(l, start)] *)
Fixpoint enumerate {A : Type} (start : Z) (l : list A) : list (Z * A) :=
  match l with
  | [] => []
  | x :: rest => (start, x) :: enumerate (start + 1) rest
  end.

(** [l.pop()] seen as the list it leaves. *)
Definition pop {A : Type} (l : list A) : list A := removelast l.

(** ** NumPy arrays of rank one to three *)

(** One step of the reductions behind [m.min()] and [m.max()]: NumPy keeps
    the accumulator when it compares as wanted or is [nan], and takes the
    element otherwise, so a [nan] anywhere comes out. *)
Definition minimum (acc v : float64) : float64 :=
  if (acc <=? v)%float || is_nan acc then acc else v.

Definition maximum (acc v : float64) : float64 :=
  if (v <=? acc)%float || is_nan acc then acc else v.

Inductive ndarray : Type :=
| Array1 (a : list float64)
| Array2 (a : list (list float64))
| Array3 (a : list (list (list float64))).

(** The elements in row-major order. *)
Definition ravel (m : ndarray) : list float64 :=
  match m with
  | Array1 a => a
  | Array2 a => concat a
  | Array3 a => concat (concat a)
  end.

(** [m.shape] *)
Definition shape (m : ndarray) : list nat :=
  match m with
  | Array1 a => [length a]
  | Array2 a => [length a; length (hd [] a)]
  | Array3 a => [length a; length (hd [] a); length (hd [] (hd [] a))]
  end.

(** [np.array(matrix)] on a list of lists of floats: an empty list gives
    the rank-one array of shape (0,), rows of one length a rank-two array;
    rows of different lengths are refused (by NumPy 1.24 and later; before,
    the subtraction that follows was). *)
Definition np_array (matrix : list (list float64)) : result ndarray :=
  match matrix with
  | [] => Ok (Array1 [])
  | row :: rest =>
      if forallb (fun r => (length r =? length row)%nat) rest
      then Ok (Array2 matrix)
      else Raise ValueError
  end.

(** [m.min()] and [m.max()]: a reduction over all elements, refused on an
    array without elements. *)
Definition reduce (f : float64 -> float64 -> float64) (m : ndarray) : result float64 :=
  match ravel m with
  | [] => Raise ValueError
  | x :: rest => Ok (fold_left f rest x)
  end.

Definition np_min : ndarray -> result float64 := reduce minimum.
Definition np_max : ndarray -> result float64 := reduce maximum.

(** An elementwise operation. *)
Definition np_map (f : float64 -> float64) (m : ndarray) : ndarray :=
  match m with
  | Array1 a => Array1 (map f a)
  | Array2 a => Array2 (map (map f) a)
  | Array3 a => Array3 (map (map (map f)) a)
  end.

(** [a[:, :, np.newaxis]] *)
Definition newaxis (a : list (list float64)) : list (list (list float64)) :=
  map (map (fun v => [v])) a.

(** [np.repeat(a, n, axis=2)]: every element of the last axis n times. *)
Definition repeat_axis2 (n : nat) (a : list (list (list float64))) : list (list (list float64)) :=
  map (map (flat_map (fun v => repeat v n))) a.

(** [a[:, :, 1:] = 0] *)
Definition zero_from_1 (a : list (list (list float64))) : list (list (list float64)) :=
  map (map (fun px => firstn 1 px ++ map (fun _ => 0%float) (skipn 1 px))) a.

(** [v.astype(np.uint8)] on one element: the C conversion, which drops the
    fraction; C defines it for values between -1 and 256 only.  Beyond
    them the integer part is cut to eight bits here, and [nan] and the
    infinities give 0, as on x86-64. *)
Definition astype_uint8 (v : float64) : Z :=
  match py_int v with
  | Ok z => z mod 256
  | Raise _ => 0
  end.

(** ** Qt value types *)

Record QPoint : Type := mkQPoint { x : Z; y : Z }.

Record QSize : Type := mkQSize { size_width : Z; size_height : Z }.

(** A pixmap as far as the program looks at it: its dimensions.  In a
    condition ([if self.scaled_img]) a pixmap object counts as true, the
    null pixmap too; only [None] counts as false. *)
Record QPixmap : Type := mkQPixmap { width : Z; height : Z }.

Definition size (p : QPixmap) : QSize := mkQSize (width p) (height p).

(** [QRect(0, 0, w, h).contains(p)], the test behind
    [self.imageLabel.rect().contains(event.pos())]. *)
Definition rect_contains (w h : Z) (p : QPoint) : bool :=
  (0 <=? x p) && (x p <? w) && (0 <=? y p) && (y p <? h).

Inductive MouseButton : Type :=
| LeftButton
| RightButton
| MiddleButton.

Definition is_left (b : MouseButton) : bool :=
  match b with
  | LeftButton => true
  | _ => false
  end.

(** What the widgets report while a mouse event is handled: the size of
    [imageLabel] and the values of the two scroll bars of [scrollArea]. *)
Record Viewport : Type := mkViewport {
  label_width : Z;
  label_height : Z;
  h_scroll : Z;
  v_scroll : Z
}.

(** ** Written files *)

(** One entry of the list under the key ['rects']:
    [{'id': idx, 'tlbw': [t, l, b, w]}]. *)
Record rect_dict : Type := mk_rect_dict { id : Z; tlbw : list Z }.

(** What a file receives: [json.dump({'rects': rects_data}, f)], or the
    text written line by line. *)
Inductive content : Type :=
| JsonDump (rects : list rect_dict)
| Text (s : string).

(** ** The attributes of an [ImageLabeler]

    The attributes [__init__] sets that some method reads or writes, and the
    texts of the four widgets the methods write to.  [original_ratio],
    [current_img] and [last_rect] stay [None] for ever and are left out. *)

Record ImageLabeler : Type := mkImageLabeler {
  meta_img : option (list (list (list Z)));
  original_img_size : option QSize;
  original_img : option QPixmap;
  scaled_img : option QPixmap;
  current_scale : float64;
  start_point : QPoint;
  end_point : QPoint;
  is_drawing : bool;
  rectangles : list (QPoint * QPoint);
  min_rect_area : Z;
  messageText : list string;
  recordText : string;
  mousePosLabel : string;
  scaleValueLabel : string
}.

Definition set_meta_img v (s : ImageLabeler) : ImageLabeler :=
  mkImageLabeler v (original_img_size s) (original_img s) (scaled_img s)
    (current_scale s) (start_point s) (end_point s) (is_drawing s)
    (rectangles s) (min_rect_area s) (messageText s) (recordText s)
    (mousePosLabel s) (scaleValueLabel s).

Definition set_original_img_size v (s : ImageLabeler) : ImageLabeler :=
  mkImageLabeler (meta_img s) v (original_img s) (scaled_img s)
    (current_scale s) (start_point s) (end_point s) (is_drawing s)
    (rectangles s) (min_rect_area s) (messageText s) (recordText s)
    (mousePosLabel s) (scaleValueLabel s).

Definition set_original_img v (s : ImageLabeler) : ImageLabeler :=
  mkImageLabeler (meta_img s) (original_img_size s) v (scaled_img s)
    (current_scale s) (start_point s) (end_point s) (is_drawing s)
    (rectangles s) (min_rect_area s) (messageText s) (recordText s)
    (mousePosLabel s) (scaleValueLabel s).

Definition set_scaled_img v (s : ImageLabeler) : ImageLabeler :=
  mkImageLabeler (meta_img s) (original_img_size s) (original_img s) v
    (current_scale s) (start_point s) (end_point s) (is_drawing s)
    (rectangles s) (min_rect_area s) (messageText s) (recordText s)
    (mousePosLabel s) (scaleValueLabel s).

Definition set_current_scale v (s : ImageLabeler) : ImageLabeler :=
  mkImageLabeler (meta_img s) (original_img_size s) (original_img s) (scaled_img s)
    v (start_point s) (end_point s) (is_drawing s)
    (rectangles s) (min_rect_area s) (messageText s) (recordText s)
    (mousePosLabel s) (scaleValueLabel s).

Definition set_start_point v (s : ImageLabeler) : ImageLabeler :=
  mkImageLabeler (meta_img s) (original_img_size s) (original_img s) (scaled_img s)
    (current_scale s) v (end_point s) (is_drawing s)
    (rectangles s) (min_rect_area s) (messageText s) (recordText s)
    (mousePosLabel s) (scaleValueLabel s).

Definition set_end_point v (s : ImageLabeler) : ImageLabeler :=
  mkImageLabeler (meta_img s) (original_img_size s) (original_img s) (scaled_img s)
    (current_scale s) (start_point s) v (is_drawing s)
    (rectangles s) (min_rect_area s) (messageText s) (recordText s)
    (mousePosLabel s) (scaleValueLabel s).

Definition set_is_drawing v (s : ImageLabeler) : ImageLabeler :=
  mkImageLabeler (meta_img s) (original_img_size s) (original_img s) (scaled_img s)
    (current_scale s) (start_point s) (end_point s) v
    (rectangles s) (min_rect_area s) (messageText s) (recordText s)
    (mousePosLabel s) (scaleValueLabel s).

Definition set_rectangles v (s : ImageLabeler) : ImageLabeler :=
  mkImageLabeler (meta_img s) (original_img_size s) (original_img s) (scaled_img s)
    (current_scale s) (start_point s) (end_point s) (is_drawing s)
    v (min_rect_area s) (messageText s) (recordText s)
    (mousePosLabel s) (scaleValueLabel s).

Definition set_messageText v (s : ImageLabeler) : ImageLabeler :=
  mkImageLabeler (meta_img s) (original_img_size s) (original_img s) (scaled_img s)
    (current_scale s) (start_point s) (end_point s) (is_drawing s)
    (rectangles s) (min_rect_area s) v (recordText s)
    (mousePosLabel s) (scaleValueLabel s).

Definition set_recordText v (s : ImageLabeler) : ImageLabeler :=
  mkImageLabeler (meta_img s) (original_img_size s) (original_img s) (scaled_img s)
    (current_scale s) (start_point s) (end_point s) (is_drawing s)
    (rectangles s) (min_rect_area s) (messageText s) v
    (mousePosLabel s) (scaleValueLabel s).

Definition set_mousePosLabel v (s : ImageLabeler) : ImageLabeler :=
  mkImageLabeler (meta_img s) (original_img_size s) (original_img s) (scaled_img s)
    (current_scale s) (start_point s) (end_point s) (is_drawing s)
    (rectangles s) (min_rect_area s) (messageText s) (recordText s)
    v (scaleValueLabel s).

Definition set_scaleValueLabel v (s : ImageLabeler) : ImageLabeler :=
  mkImageLabeler (meta_img s) (original_img_size s) (original_img s) (scaled_img s)
    (current_scale s) (start_point s) (end_point s) (is_drawing s)
    (rectangles s) (min_rect_area s) (messageText s) (recordText s)
    (mousePosLabel s) v.

(** [__init__]; [QPoint()] is the origin and the widgets show their initial
    texts. *)
Definition init : ImageLabeler :=
  mkImageLabeler None None None None 1%float (mkQPoint 0 0) (mkQPoint 0 0) false []
    10 [] "" "Mouse Pos:" "100%".

(** How a method ends. *)
Record outcome : Type := mkOutcome {
  post : ImageLabeler;
  raised : option exn;
  written : list (string * content)
}.

Definition returning (self : ImageLabeler) : outcome := mkOutcome self None [].

Definition raising (e : exn) (self : ImageLabeler) : outcome := mkOutcome self (Some e) [].

(** ** Methods that need none of the three variables *)

Definition updateMessage (message : string) (self : ImageLabeler) : ImageLabeler :=
  set_messageText (messageText self ++ [message]) self.

Definition updateRecord (message : string) (self : ImageLabeler) : ImageLabeler :=
  set_recordText message self.

Definition rect2Text (rects : list (QPoint * QPoint)) : string :=
  fold_left
    (fun text ir =>
       let i := fst ir in
       let rect := snd ir in
       String.append text
         ("Area " ++ str (i + 1) ++ ": " ++ str (x (fst rect)) ++ ", "
          ++ str (y (fst rect)) ++ ", " ++ str (x (snd rect)) ++ ", "
          ++ str (y (snd rect)) ++ String "010" "")%string)
    (enumerate 0 rects) "".

Definition toTLBR (p1 p2 : QPoint) : QPoint * QPoint :=
  let '(x1, y1, x2, y2) := (x p1, y p1, x p2, y p2) in
  let '(t, l, b, r) := (Z.min y1 y2, Z.min x1 x2, Z.max y1 y2, Z.max x1 x2) in
  (mkQPoint l t, mkQPoint r b).

Definition cropPoint (self : ImageLabeler) (pos : QPoint) : result QPoint :=
  match original_img self with
  | None => Raise AttributeError
  | Some img =>
      let x' := Z.max 0 (Z.min (x pos) (width img)) in
      let y' := Z.max 0 (Z.min (y pos) (height img)) in
      Ok (mkQPoint x' y')
  end.

Definition undoLastRectangle (self : ImageLabeler) : outcome :=
  if (0 <? length (rectangles self))%nat then
    let self := set_rectangles (pop (rectangles self)) self in
    let self := updateRecord (rect2Text (rectangles self)) self in
    returning self
  else returning self.

(** The entries [saveRectangles] collects for the JSON file. *)
Definition rects_data (rects : list (QPoint * QPoint)) : list rect_dict :=
  map
    (fun ir =>
       let idx := fst ir in
       let rect := snd ir in
       let top_left := fst rect in
       let bottom_right := snd rect in
       let t := Z.min (y top_left) (y bottom_right) in
       let l := Z.min (x top_left) (x bottom_right) in
       let b := Z.max (y top_left) (y bottom_right) in
       let w := Z.max (x top_left) (x bottom_right) in
       mk_rect_dict idx [t; l; b; w])
    (enumerate 1 rects).

(** The four integers [saveRectangles] formats into one line of the text
    file, in the order it formats them. *)
Definition txt_fields (rect : QPoint * QPoint) : list Z :=
  [x (fst rect); y (fst rect); x (snd rect); y (snd rect)].

(** [f'{a} {b} {c} {d}\n'] *)
Definition txt_line (rect : QPoint * QPoint) : string :=
  String.append (String.concat " " (map str (txt_fields rect))) (String "010" "").

(** [fileName] is what the save dialog returned: the empty string when it
    was cancelled. *)
Definition saveRectangles (fileName : string) (self : ImageLabeler) : outcome :=
  let '(self, files) :=
    if endswith fileName ".json" then
      (updateMessage ("Rectangles saved to " ++ fileName)%string self,
       [(fileName, JsonDump (rects_data (rectangles self)))])
    else (self, []) in
  let '(self, files) :=
    if endswith fileName ".txt" then
      (updateMessage ("Rectangles saved to " ++ fileName)%string self,
       files ++ [(fileName, Text (String.concat "" (map txt_line (rectangles self))))])
    else (self, files) in
  mkOutcome self None files.

(** [self.statusLabel]: no method assigns an attribute of this name and
    [QMainWindow] has none, so reading it raises. *)
Definition statusLabel (self : ImageLabeler) : result unit := Raise AttributeError.

(** The four branches of [loadImage] on the shape of the normalized
    matrix. *)
Inductive shape_branch : Type :=
| Rank2
| Rank3Single
| Rank3Colour
| InvalidShape.

Definition branch_of (mat : ndarray) : shape_branch :=
  match shape mat with
  | [_; _] => Rank2
  | [_; _; c] =>
      if (c =? 1)%nat then Rank3Single
      else if (c =? 3)%nat then Rank3Colour
      else InvalidShape
  | _ => InvalidShape
  end.

(** [(mat - mat.min()) / (mat.max() - mat.min())] *)
Definition normalize (mat : ndarray) : result ndarray :=
  mn <- np_min mat ;;
  mx <- np_max mat ;;
  mn' <- np_min mat ;;
  Ok (np_map (fun v => ((v - mn) / (mx - mn'))%float) mat).

(** [(mat * 255).astype(np.uint8)] *)
Definition to_uint8 (a : list (list (list float64))) : list (list (list Z)) :=
  map (map (map (fun v => astype_uint8 (v * 255)%float))) a.

(** Python's [float] on the tokens made of decimal digits only; every other
    token is refused here (Python accepts more).  An instance of the parser
    for the examples. *)
Definition float_decimal (token : string) : result float64 :=
  match token with
  | EmptyString => Raise ValueError
  | _ =>
      match NilZero.uint_of_string token with
      | Some u => Ok (float_of_Z (Z.of_uint u))
      | None => Raise ValueError
      end
  end.

(** [qRound(d)] for a [d] that is not negative. *)
Definition qRound (d : float64) : Z :=
  match py_int (d + 0.5)%float with
  | Ok z => z
  | Raise _ => 0
  end.

(** A rescaled pixmap whose sides are those of the requested size times the
    factor, rounded to the nearest pixel; when a side rounds to zero the
    result is the null pixmap, of width and height 0.  An instance of the
    scaler for the examples. *)
Definition scaled_nearest (p : QPixmap) (s : QSize) (factor : float64) : QPixmap :=
  let w := qRound (float_of_Z (size_width s) * factor)%float in
  let h := qRound (float_of_Z (size_height s) * factor)%float in
  if (w <? 1) || (h <? 1) then mkQPixmap 0 0 else mkQPixmap w h.

(** [int(a)] within the range of a C int. *)
Definition c_int (a : float64) : result Z :=
  z <- py_int a ;;
  if (- 2 ^ 31 <=? z) && (z <? 2 ^ 31) then Ok z else Raise OverflowError.

(** [QPoint] on two floats as PyQt5 runs it up to Python 3.9.  An instance
    of the constructor for the examples. *)
Definition QPoint_converting (a b : float64) : result QPoint :=
  xp <- c_int a ;;
  yp <- c_int b ;;
  Ok (mkQPoint xp yp).

(** ... and from Python 3.10 on: [TypeError], whatever the floats. *)
Definition QPoint_refusing (a b : float64) : result QPoint := Raise TypeError.

(** ** Methods that need the parser, the scaler or the constructor *)

Section Labeler.

(** Python's [float] on one token of a line. *)
Variable float : string -> result float64.

(** [pixmap.scaled(size * factor, Qt.KeepAspectRatio, Qt.SmoothTransformation)]
    as far as the program looks at the result: its dimensions. *)
Variable scaled : QPixmap -> QSize -> float64 -> QPixmap.

(** [QPoint(a, b)] on two floats.  [QPoint] holds C ints; what PyQt5 does
    with a float argument is the interpreter's choice: up to Python 3.9 it
    takes [int(a)] (with a deprecation warning) and refuses a value out of
    the range of a C int, from 3.10 on it refuses every float. *)
Variable QPoint_of_floats : float64 -> float64 -> result QPoint.

(** ** The coordinate mapping and the mouse handlers *)

Definition convertToOriginalImageCoords (vp : Viewport) (self : ImageLabeler)
    (pos : QPoint) : result QPoint :=
  corrected_pos <-
    match scaled_img self with
    | Some s =>
        let offsetX := (float_of_Z (label_width vp - width s) / 2)%float in
        let offsetY := (float_of_Z (label_height vp - height s) / 2)%float in
        QPoint_of_floats
          (float_of_Z (x pos) - offsetX + float_of_Z (h_scroll vp))%float
          (float_of_Z (y pos) - offsetY + float_of_Z (v_scroll vp))%float
    | None => Ok (mkQPoint (x pos - 0 + h_scroll vp) (y pos - 0 + v_scroll vp))
    end ;;
  match original_img self with
  | Some o =>
      match scaled_img self with
      | None => Raise AttributeError
      | Some s =>
          scale_w <- truediv (width o) (width s) ;;
          scale_h <- truediv (height o) (height s) ;;
          QPoint_of_floats (float_of_Z (x corrected_pos) * scale_w)%float
                           (float_of_Z (y corrected_pos) * scale_h)%float
      end
  | None => Ok corrected_pos
  end.

(** The mapping from a label position to an image position, as each mouse
    handler composes it. *)
Definition toOriginal (vp : Viewport) (self : ImageLabeler) (pos : QPoint) : result QPoint :=
  p <- convertToOriginalImageCoords vp self pos ;; cropPoint self p.

Definition mouseMoveEvent (vp : Viewport) (pos : QPoint) (self : ImageLabeler) : outcome :=
  match scaled_img self with
  | Some _ =>
      if rect_contains (label_width vp) (label_height vp) pos then
        let offset_cursor_pos := mkQPoint (x pos - 10) (y pos - 10) in
        match convertToOriginalImageCoords vp self offset_cursor_pos with
        | Raise e => raising e self
        | Ok original_pos =>
            match cropPoint self original_pos with
            | Raise e => raising e self
            | Ok original_pos =>
                let self :=
                  set_mousePosLabel
                    ("Mouse Pos: " ++ str (x original_pos) ++ ", " ++ str (y original_pos))%string
                    self in
                if is_drawing self
                then returning (set_end_point original_pos self)
                else returning self
            end
        end
      else returning (set_mousePosLabel "Mouse Pos:" self)
  | None => returning (set_mousePosLabel "Mouse Pos:" self)
  end.

Definition mousePressEvent (vp : Viewport) (button : MouseButton) (pos : QPoint)
    (self : ImageLabeler) : outcome :=
  match is_left button, scaled_img self with
  | true, Some _ =>
      if rect_contains (label_width vp) (label_height vp) pos then
        let self := set_is_drawing true self in
        let offset_cursor_pos := mkQPoint (x pos - 10) (y pos - 10) in
        match convertToOriginalImageCoords vp self offset_cursor_pos with
        | Raise e => raising e self
        | Ok p =>
            let self := set_start_point p self in
            match cropPoint self (start_point self) with
            | Raise e => raising e self
            | Ok p =>
                let self := set_start_point p self in
                let self := set_end_point (start_point self) self in
                let self :=
                  updateMessage
                    ("Start: x=" ++ str (x (start_point self)) ++ ", y="
                     ++ str (y (start_point self)))%string
                    self in
                returning self
            end
        end
      else returning self
  | _, _ => returning self
  end.

Definition mouseReleaseEvent (vp : Viewport) (button : MouseButton) (pos : QPoint)
    (self : ImageLabeler) : outcome :=
  if is_left button && is_drawing self then
    let self := set_is_drawing false self in
    let offset_cursor_pos := mkQPoint (x pos - 10) (y pos - 10) in
    match convertToOriginalImageCoords vp self offset_cursor_pos with
    | Raise e => raising e self
    | Ok p =>
        let self := set_end_point p self in
        match cropPoint self (end_point self) with
        | Raise e => raising e self
        | Ok p =>
            let self := set_end_point p self in
            let self :=
              if Z.abs (x (end_point self) - x (start_point self))
                 * Z.abs (y (end_point self) - y (start_point self))
                 >? min_rect_area self
              then
                set_rectangles
                  (rectangles self ++ [toTLBR (start_point self) (end_point self)])
                  self
              else self in
            let self :=
              updateMessage
                ("End: x=" ++ str (x (end_point self)) ++ ", y="
                 ++ str (y (end_point self)))%string
                self in
            let self := updateRecord (rect2Text (rectangles self)) self in
            returning self
        end
    end
  else returning self.

(** ** Loading and scaling *)

Fixpoint traverse {A B : Type} (f : A -> result B) (l : list A) : result (list B) :=
  match l with
  | [] => Ok []
  | a :: rest =>
      b <- f a ;;
      bs <- traverse f rest ;;
      Ok (b :: bs)
  end.

(** [lines] is what [f.readlines()] returned. *)
Definition load_matrix_from_txt (lines : list string) : result ndarray :=
  matrix <- traverse (fun line => traverse float (split line)) lines ;;
  np_array matrix.

Definition displayImage (self : ImageLabeler) : outcome :=
  match scaled_img self with
  | Some _ =>
      match original_img self, original_img_size self with
      | Some o, Some sz =>
          returning (set_scaled_img (Some (scaled o sz (current_scale self))) self)
      | None, _ => raising AttributeError self
      | Some _, None => raising TypeError self
      end
  | None => returning self
  end.

(** [value] is what the slider reports. *)
Definition scaleImage (value : Z) (self : ImageLabeler) : outcome :=
  let self := set_current_scale (float_of_Z value / 100)%float self in
  let self := set_scaleValueLabel (str value ++ "%")%string self in
  match original_img self with
  | Some _ => displayImage self
  | None => returning self
  end.

(** [loadImage] from the normalization on, for the matrix
    [load_matrix_from_txt] returned. *)
Definition loadImage_matrix (mat : ndarray) (self : ImageLabeler) : outcome :=
  match normalize mat with
  | Raise e => raising e self
  | Ok mat =>
      let promoted :=
        match branch_of mat, mat with
        | Rank2, Array2 a => Some (zero_from_1 (repeat_axis2 3 (newaxis a)))
        | Rank3Single, Array3 a => Some (zero_from_1 (repeat_axis2 3 a))
        | Rank3Colour, Array3 a => Some a
        | _, _ => None
        end in
      match promoted with
      | None =>
          match statusLabel self with
          | Raise e => raising e self
          | Ok _ => returning self
          end
      | Some mat =>
          let mat := to_uint8 mat in
          let '(h, w, c) :=
            (length mat, length (hd [] mat), length (hd [] (hd [] mat))) in
          let qImg := mkQPixmap (Z.of_nat w) (Z.of_nat h) in
          let self := set_meta_img (Some mat) self in
          let self := set_original_img (Some qImg) self in
          let self :=
            set_original_img_size (option_map size (original_img self)) self in
          let self := set_scaled_img (original_img self) self in
          displayImage self
      end
  end.

(** [filePath] is what the open dialog returned (the empty string when it
    was cancelled) and [lines] the lines of that file. *)
Definition loadImage (filePath : string) (lines : list string) (self : ImageLabeler) : outcome :=
  if (String.length filePath =? 0)%nat then returning self
  else
    match load_matrix_from_txt lines with
    | Raise e => raising e self
    | Ok mat => loadImage_matrix mat self
    end.

(** ** The event loop *)

Inductive event : Type :=
| LoadClicked (filePath : string) (lines : list string)
| UndoClicked
| SaveClicked (fileName : string)
| SliderMoved (value : Z)
| MouseMove (vp : Viewport) (pos : QPoint)
| MousePress (vp : Viewport) (button : MouseButton) (pos : QPoint)
| MouseRelease (vp : Viewport) (button : MouseButton) (pos : QPoint).

Definition handle (ev : event) (self : ImageLabeler) : outcome :=
  match ev with
  | LoadClicked filePath lines => loadImage filePath lines self
  | UndoClicked => undoLastRectangle self
  | SaveClicked fileName => saveRectangles fileName self
  | SliderMoved value => scaleImage value self
  | MouseMove vp pos => mouseMoveEvent vp pos self
  | MousePress vp button pos => mousePressEvent vp button pos self
  | MouseRelease vp button pos => mouseReleaseEvent vp button pos self
  end.

(** The object after a sequence of events.  A handler that raises leaves
    the attributes as they were when it raised; the loop goes on with them.
    (Where PyQt5 ends the process at the first exception that leaves a
    handler, a session is a sequence of which no event but the last
    raises.) *)
Definition run (evs : list event) (self : ImageLabeler) : ImageLabeler :=
  fold_left (fun s ev => post (handle ev s)) evs self.


(** ** Drawing the overlay *)

Definition convertToScaledImageCoords (self : ImageLabeler) (original_pos : QPoint)
    : result QPoint :=
  match original_img self, scaled_img self with
  | Some o, Some s =>
      scale_w <- truediv (width s) (width o) ;;
      scale_h <- truediv (height s) (height o) ;;
      QPoint_of_floats (float_of_Z (x original_pos) * scale_w)%float
                       (float_of_Z (y original_pos) * scale_h)%float
  | _, _ => Ok original_pos
  end.

(** [QRect(scaled_start, scaled_end)] for the two corners of a rectangle. *)
Definition scaled_rect (self : ImageLabeler) (p1 p2 : QPoint) : result (QPoint * QPoint) :=
  scaled_start <- convertToScaledImageCoords self p1 ;;
  scaled_end <- convertToScaledImageCoords self p2 ;;
  Ok (scaled_start, scaled_end).

(** [paintEvent] seen as the rectangles it hands to [painter.drawRect], in
    the order it draws them; [None] when no image is there and the event
    goes to the base class. *)
Definition paintEvent (self : ImageLabeler) : result (option (list (QPoint * QPoint))) :=
  match scaled_img self with
  | Some _ =>
      committed <-
        traverse (fun rect => scaled_rect self (fst rect) (snd rect)) (rectangles self) ;;
      live <-
        (if is_drawing self
         then r <- scaled_rect self (start_point self) (end_point self) ;; Ok [r]
         else Ok []) ;;
      Ok (Some (committed ++ live))
  | None => Ok None
  end.

(** ** Predicates of the statements *)

(** A stored rectangle is normalized: its first point is the top-left
    corner and its second the bottom-right one. *)
Definition normalized (rect : QPoint * QPoint) : Prop :=
  x (fst rect) <= x (snd rect) /\ y (fst rect) <= y (snd rect).

(** An image is loaded and shown: both pixmaps exist, the original has
    non-negative sides and the scaled one has no empty side. *)
Definition displayed (self : ImageLabeler) : Prop :=
  match original_img self, scaled_img self with
  | Some o, Some s =>
      0 <= width o /\ 0 <= height o /\ width s <> 0 /\ height s <> 0
  | _, _ => False
  end.


(** The area the release handler compares with the threshold. *)
Definition drag_area (p q : QPoint) : Z :=
  Z.abs (x q - x p) * Z.abs (y q - y p).

(** The position a mouse handler maps: the event position moved by the
    fixed offset of ten pixels. *)
Definition offset_cursor (pos : QPoint) : QPoint :=
  mkQPoint (x pos - 10) (y pos - 10).

(** Every line is a sequence of tokens [float] accepts, and all lines have
    the same number of tokens. *)
Definition well_formed (lines : list string) : Prop :=
  Forall (fun line => Forall (fun token => exists q, float token = Ok q) (split line)) lines
  /\ (forall l1 l2, In l1 lines -> In l2 lines ->
        length (split l1) = length (split l2)).

(** The order of the four integers of a text line, rearranged to
    top, left, bottom, right. *)
Definition xyxy_to_tlbr (fields : list Z) : list Z :=
  match fields with
  | [x0; y0; x1; y1] => [y0; x0; y1; x1]
  | _ => fields
  end.

(** The integers a line of the text export holds: its tokens read back as
    decimal integers. *)
Definition line_fields (line : string) : list (option Z) :=
  map (fun token => option_map Z.of_int (NilZero.int_of_string token)) (split line).

(** No character of the string is one [split] separates on. *)
Fixpoint spaceless (s : string) : bool :=
  match s with
  | EmptyString => true
  | String c rest => negb (isspace c) && spaceless rest
  end.

(** The 4x4 matrix file of the load scenario. *)
Definition scenario_lines : list string :=
  [String.append "0 0 0 0" (String "010" "");
   String.append "0 5 5 0" (String "010" "");
   String.append "0 5 5 0" (String "010" "");
   String.append "0 0 0 0" (String "010" "")].

(** The matrix those lines hold. *)
Definition scenario_matrix : list (list float64) :=
  map (map float_of_Z)
    [[0; 0; 0; 0]; [0; 5; 5; 0]; [0; 5; 5; 0]; [0; 0; 0; 0]].

(** The image of the load scenario: 255 in channel 0 of the four centre
    pixels, 0 everywhere else. *)
Definition scenario_image : list (list (list Z)) :=
  [[[0; 0; 0]; [0; 0; 0]; [0; 0; 0]; [0; 0; 0]];
   [[0; 0; 0]; [255; 0; 0]; [255; 0; 0]; [0; 0; 0]];
   [[0; 0; 0]; [255; 0; 0]; [255; 0; 0]; [0; 0; 0]];
   [[0; 0; 0]; [0; 0; 0]; [0; 0; 0]; [0; 0; 0]]].

(** The label as the scroll area lays it out in the examples: 44 by 44
    pixels around the 4x4 image, nothing scrolled.  The image then starts
    at label position (20, 20), that is at event position (30, 30). *)
Definition example_viewport : Viewport := mkViewport 44 44 0 0.

(** The scenario file is chosen in the open dialog. *)
Definition scenario_load : event := LoadClicked "m.txt" scenario_lines.

(** ... then the primary button goes down on the top-left pixel, *)
Definition press_events : list event :=
  [scenario_load; MousePress example_viewport LeftButton (mkQPoint 30 30)].

(** ... the pointer moves two pixels right and down, inside the label, *)
Definition drag_events : list event :=
  press_events ++ [MouseMove example_viewport (mkQPoint 32 32)].

(** ... or the button is released on the bottom-right corner of the image. *)
Definition commit_events : list event :=
  press_events ++ [MouseRelease example_viewport LeftButton (mkQPoint 34 34)].

(** The scenario file is loaded and the zoom slider is moved to its
    minimum, 10 per cent: 4 pixels times 0.1 round to none. *)
Definition zoomed_out_events : list event :=
  [scenario_load; SliderMoved 10].

(** A position outside the label. *)
Definition outside_position : QPoint := mkQPoint 50 50.

(** ... or it is released one pixel higher, which commits a rectangle four
    wide and three high. *)
Definition wide_commit_events : list event :=
  press_events ++ [MouseRelease example_viewport LeftButton (mkQPoint 34 33)].

(** The list that session commits. *)
Definition wide_rectangles : list (QPoint * QPoint) :=
  [(mkQPoint 0 0, mkQPoint 4 3)].

(** A matrix whose least value is not the first and whose greatest is not
    the last, and the image it gives: 6 is half way from 2 to 10, 4 a
    quarter of the way. *)
Definition shifted_matrix : list (list float64) :=
  [[6%float; 2%float]; [10%float; 4%float]].

Definition shifted_image : list (list (list Z)) :=
  [[[127; 0; 0]; [0; 0; 0]]; [[255; 0; 0]; [63; 0; 0]]].

(** A matrix on which binary64 shows: the floats nearest to 0.1, 1.3 and
    3.1.  (1.3 - 0.1) / (3.1 - 0.1) * 255 is 102 for the decimal numbers
    and just below it in binary64. *)
Definition rounding_matrix : list (list float64) :=
  [[0x1.999999999999ap-4%float; 0x1.4cccccccccccdp+0%float;
    0x1.8cccccccccccdp+1%float]].

Definition rounding_image : list (list (list Z)) :=
  [[[0; 0; 0]; [101; 0; 0]; [255; 0; 0]]].

(** Two files for the threshold: an image five wide and two high, whose
    full drag has the area 10, and one eleven wide and one high, whose full
    drag has the area 11.  The label leaves ten pixels around each. *)
Definition ten_lines : list string :=
  [String.append "0 1 2 3 4" (String "010" "");
   String.append "5 6 7 8 9" (String "010" "")].

Definition eleven_lines : list string :=
  [String.append "0 1 2 3 4 5 6 7 8 9 10" (String "010" "")].

Definition ten_viewport : Viewport := mkViewport 25 22 0 0.

Definition eleven_viewport : Viewport := mkViewport 31 21 0 0.

(** The button goes down on the top-left pixel and is released far beyond
    the bottom-right corner. *)
Definition ten_events : list event :=
  [LoadClicked "m.txt" ten_lines;
   MousePress ten_viewport LeftButton (mkQPoint 20 20);
   MouseRelease ten_viewport LeftButton (mkQPoint 100 100)].

Definition eleven_events : list event :=
  [LoadClicked "m.txt" eleven_lines;
   MousePress eleven_viewport LeftButton (mkQPoint 20 20);
   MouseRelease eleven_viewport LeftButton (mkQPoint 100 100)].

(** ** Further example sessions *)

(** A press and a release on a new object, before any load. *)
Definition imageless_events : list event :=
  [MousePress example_viewport LeftButton (mkQPoint 30 30);
   MouseRelease example_viewport LeftButton (mkQPoint 34 34)].

(** A matrix of one row whose two values are equal. *)
Definition constant_matrix : list (list float64) :=
  [[7%float; 7%float]].

(** ** Predicates of the further statements *)

Definition is_press (ev : event) : bool :=
  match ev with
  | MousePress _ _ _ => true
  | _ => false
  end.

Definition is_load (ev : event) : bool :=
  match ev with
  | LoadClicked _ _ => true
  | _ => false
  end.

(** What [paintEvent] has to draw: the committed rectangles in order, then
    the rectangle of the drag when one is in progress. *)
Definition overlay (self : ImageLabeler) : list (QPoint * QPoint) :=
  rectangles self
  ++ (if is_drawing self then [(start_point self, end_point self)] else []).

(** The line of the record text for the rectangle at index [i] (from 0). *)
Definition record_line (i : Z) (rect : QPoint * QPoint) : string :=
  ("Area " ++ str (i + 1) ++ ": " ++ str (x (fst rect)) ++ ", "
   ++ str (y (fst rect)) ++ ", " ++ str (x (snd rect)) ++ ", "
   ++ str (y (snd rect)) ++ String "010" "")%string.

(** Neither coordinate is negative. *)
Definition nonneg_point (p : QPoint) : Prop := 0 <= x p /\ 0 <= y p.

(** Width times height of a stored rectangle. *)
Definition rect_area (rect : QPoint * QPoint) : Z :=
  (x (snd rect) - x (fst rect)) * (y (snd rect) - y (fst rect)).

(** All rows have [n] elements. *)
Definition rows_of_length {A : Type} (n : nat) (m : list (list A)) : Prop :=
  Forall (fun row => length row = n) m.

(** The four image attributes are set together and fit each other: none of
    them is set, or the original pixmap has the columns and rows of the
    stored image, which has three channels, the stored size is its size,
    and the scaled pixmap is the original one scaled by the current
    factor. *)
Definition image_attributes_agree (self : ImageLabeler) : Prop :=
  match original_img self with
  | None =>
      meta_img self = None /\ original_img_size self = None /\ scaled_img self = None
  | Some o =>
      1 <= width o /\ 1 <= height o
      /\ original_img_size self = Some (size o)
      /\ scaled_img self = Some (scaled o (size o) (current_scale self))
      /\ exists m,
          meta_img self = Some m
          /\ Z.of_nat (length m) = height o
          /\ rows_of_length (Z.to_nat (width o)) m
          /\ Forall (rows_of_length 3) m
  end.

(** The attributes a handler other than the load and the slider leaves
    alone. *)
Definition same_images (self' self : ImageLabeler) : Prop :=
  meta_img self' = meta_img self
  /\ original_img_size self' = original_img_size self
  /\ original_img self' = original_img self
  /\ scaled_img self' = scaled_img self
  /\ current_scale self' = current_scale self.

(** What a session keeps beside the images: a drag is in progress only
    over an image, no stored coordinate is negative, every committed
    rectangle is larger than the threshold, and the record text shows the
    committed list. *)
Definition session_consistent (self : ImageLabeler) : Prop :=
  (is_drawing self = true -> scaled_img self <> None)
  /\ nonneg_point (start_point self)
  /\ nonneg_point (end_point self)
  /\ Forall (fun rect => nonneg_point (fst rect) /\ nonneg_point (snd rect))
       (rectangles self)
  /\ Forall (fun rect => min_rect_area self < rect_area rect) (rectangles self)
  /\ recordText self = rect2Text (rectangles self).

(** A zero of either sign, or [nan]. *)
Definition zero_or_nan (x : spec_float) : Prop :=
  match x with
  | S754_zero _ | S754_nan => True
  | _ => False
  end.

(** [m] is an element of [l] that compares at most every element ... *)
Definition least (m : float64) (l : list float64) : Prop :=
  In m l /\ Forall (fun v => (m <=? v)%float = true) l.

(** ... at least every element. *)
Definition greatest (m : float64) (l : list float64) : Prop :=
  In m l /\ Forall (fun v => (v <=? m)%float = true) l.

(** What a mouse handler can raise: the division by an empty side of the
    scaled pixmap, or what the constructor of a point raised. *)
Definition mapping_exception (e : exn) : Prop :=
  e = ZeroDivisionError \/ exists a b, QPoint_of_floats a b = Raise e.

(** The parser refuses a token the way Python's [float] does. *)
Definition raises_ValueError_only : Prop :=
  forall token e, float token = Raise e -> e = ValueError.

(** ** The coordinate mapping *)



Lemma truediv_zero (a : Z) : truediv a 0 = Raise ZeroDivisionError.
Proof. reflexivity. Qed.



(** A scaled pixmap with an empty side stops the mapping, whatever the
    constructor of the points does. *)
Lemma convert_empty_side (vp : Viewport) (self : ImageLabeler) (pos : QPoint)
    (o s : QPixmap) :
  original_img self = Some o ->
  scaled_img self = Some s ->
  width s = 0 \/ height s = 0 ->
  exists e, convertToOriginalImageCoords vp self pos = Raise e.
Proof.
  intros Ho Hs Hz. unfold convertToOriginalImageCoords. rewrite Ho, Hs.
  destruct (QPoint_of_floats _ _) as [c | e]; cbn [bind]; [| eexists; reflexivity].
  destruct Hz as [-> | ->].
  - rewrite truediv_zero. eexists. reflexivity.
  - destruct (truediv (width o) (width s)); cbn [bind]; [| eexists; reflexivity].
    rewrite truediv_zero. eexists. reflexivity.
Qed.

(** ** What each handler does to the committed list and to the drag *)

Ltac case_split :=
  repeat match goal with
         | |- context [match ?e with _ => _ end] => destruct e eqn:?
         end.

Lemma displayImage_frame (self : ImageLabeler) :
  let self' := post (displayImage self) in
  rectangles self' = rectangles self
  /\ start_point self' = start_point self
  /\ end_point self' = end_point self
  /\ is_drawing self' = is_drawing self
  /\ min_rect_area self' = min_rect_area self
  /\ meta_img self' = meta_img self
  /\ messageText self' = messageText self.
Proof.
  unfold displayImage. case_split; cbn; repeat split; reflexivity.
Qed.

Lemma loadImage_matrix_frame (mat : ndarray) (self : ImageLabeler) :
  let self' := post (loadImage_matrix mat self) in
  rectangles self' = rectangles self
  /\ start_point self' = start_point self
  /\ end_point self' = end_point self
  /\ is_drawing self' = is_drawing self
  /\ min_rect_area self' = min_rect_area self.
Proof.
  unfold loadImage_matrix.
  destruct (normalize mat) as [m |]; [| cbn; repeat split; reflexivity].
  match goal with
  | |- context [match ?e with Some _ => _ | None => _ end] => destruct e
  end.
  - match goal with
    | |- context [displayImage ?s] =>
        destruct (displayImage_frame s) as (H1 & H2 & H3 & H4 & H5 & _)
    end.
    cbn zeta in *. cbn [fst snd]. rewrite H1, H2, H3, H4, H5. cbn. repeat split; reflexivity.
  - cbn. repeat split; reflexivity.
Qed.

Lemma loadImage_frame (filePath : string) (lines : list string) (self : ImageLabeler) :
  let self' := post (loadImage filePath lines self) in
  rectangles self' = rectangles self
  /\ start_point self' = start_point self
  /\ end_point self' = end_point self
  /\ is_drawing self' = is_drawing self
  /\ min_rect_area self' = min_rect_area self.
Proof.
  unfold loadImage.
  destruct (String.length filePath =? 0)%nat; [cbn; repeat split; reflexivity |].
  destruct (load_matrix_from_txt lines) as [mat |]; [| cbn; repeat split; reflexivity].
  apply loadImage_matrix_frame.
Qed.

Lemma scaleImage_frame (value : Z) (self : ImageLabeler) :
  let self' := post (scaleImage value self) in
  rectangles self' = rectangles self
  /\ start_point self' = start_point self
  /\ end_point self' = end_point self
  /\ is_drawing self' = is_drawing self
  /\ min_rect_area self' = min_rect_area self.
Proof.
  unfold scaleImage. cbn zeta.
  match goal with
  | |- context [match ?e with Some _ => _ | None => _ end] => destruct e
  end; [| cbn; repeat split; reflexivity].
  match goal with
  | |- context [displayImage ?s] =>
      destruct (displayImage_frame s) as (H1 & H2 & H3 & H4 & H5 & _)
  end.
  cbn zeta in *. rewrite H1, H2, H3, H4, H5. cbn. repeat split; reflexivity.
Qed.

Lemma saveRectangles_frame (fileName : string) (self : ImageLabeler) :
  let o := saveRectangles fileName self in
  raised o = None
  /\ rectangles (post o) = rectangles self
  /\ start_point (post o) = start_point self
  /\ end_point (post o) = end_point self
  /\ is_drawing (post o) = is_drawing self
  /\ min_rect_area (post o) = min_rect_area self.
Proof.
  unfold saveRectangles.
  destruct (endswith fileName ".json"); destruct (endswith fileName ".txt");
    cbn; repeat split; reflexivity.
Qed.

Lemma undo_rectangles (self : ImageLabeler) :
  rectangles (post (undoLastRectangle self)) = pop (rectangles self).
Proof.
  unfold undoLastRectangle.
  destruct (rectangles self) as [| r rs] eqn:E; cbn; [rewrite E |]; reflexivity.
Qed.

Lemma mouseMove_frame (vp : Viewport) (pos : QPoint) (self : ImageLabeler) :
  let self' := post (mouseMoveEvent vp pos self) in
  rectangles self' = rectangles self
  /\ start_point self' = start_point self
  /\ is_drawing self' = is_drawing self
  /\ min_rect_area self' = min_rect_area self.
Proof.
  unfold mouseMoveEvent. case_split; cbn; repeat split; reflexivity.
Qed.

Lemma mousePress_frame (vp : Viewport) (button : MouseButton) (pos : QPoint)
    (self : ImageLabeler) :
  let self' := post (mousePressEvent vp button pos self) in
  rectangles self' = rectangles self
  /\ min_rect_area self' = min_rect_area self.
Proof.
  unfold mousePressEvent. case_split; cbn; repeat split; reflexivity.
Qed.

(** The release handler either leaves the list alone or appends one
    rectangle that went through [toTLBR]. *)
Lemma mouseRelease_rectangles (vp : Viewport) (button : MouseButton) (pos : QPoint)
    (self : ImageLabeler) :
  let self' := post (mouseReleaseEvent vp button pos self) in
  min_rect_area self' = min_rect_area self
  /\ (rectangles self' = rectangles self
      \/ exists p1 p2, rectangles self' = rectangles self ++ [toTLBR p1 p2]).
Proof.
  unfold mouseReleaseEvent. case_split; cbn; (split; [reflexivity |]);
    first [left; reflexivity | right; eexists; eexists; reflexivity].
Qed.

Lemma undo_frame (self : ImageLabeler) :
  let o := undoLastRectangle self in
  raised o = None
  /\ start_point (post o) = start_point self
  /\ end_point (post o) = end_point self
  /\ is_drawing (post o) = is_drawing self
  /\ min_rect_area (post o) = min_rect_area self.
Proof.
  unfold undoLastRectangle. case_split; cbn; repeat split; reflexivity.
Qed.

Lemma handle_min_rect_area (ev : event) (self : ImageLabeler) :
  min_rect_area (post (handle ev self)) = min_rect_area self.
Proof.
  destruct ev; cbn [handle].
  - apply loadImage_frame.
  - apply undo_frame.
  - apply saveRectangles_frame.
  - apply scaleImage_frame.
  - apply mouseMove_frame.
  - apply mousePress_frame.
  - apply mouseRelease_rectangles.
Qed.

Lemma handle_rectangles (ev : event) (self : ImageLabeler) :
  let rs := rectangles (post (handle ev self)) in
  rs = rectangles self
  \/ rs = pop (rectangles self)
  \/ exists p1 p2, rs = rectangles self ++ [toTLBR p1 p2].
Proof.
  destruct ev; cbn [handle]; cbn zeta.
  - left. apply loadImage_frame.
  - right. left. apply undo_rectangles.
  - left. apply saveRectangles_frame.
  - left. apply scaleImage_frame.
  - left. apply mouseMove_frame.
  - left. apply mousePress_frame.
  - destruct (mouseRelease_rectangles vp button pos self) as (_ & [H | H]);
      [left | right; right]; exact H.
Qed.

Lemma run_app (evs1 evs2 : list event) (self : ImageLabeler) :
  run (evs1 ++ evs2) self = run evs2 (run evs1 self).
Proof. unfold run. apply fold_left_app. Qed.

Lemma run_min_rect_area (evs : list event) (self : ImageLabeler) :
  min_rect_area (run evs self) = min_rect_area self.
Proof.
  revert self. induction evs as [| ev evs IH]; intros self; [reflexivity |].
  change (run (ev :: evs) self) with (run evs (post (handle ev self))).
  rewrite IH. apply handle_min_rect_area.
Qed.

(** ** Normalized rectangles *)

Lemma toTLBR_normalized (p1 p2 : QPoint) : normalized (toTLBR p1 p2).
Proof. unfold normalized, toTLBR. cbn. lia. Qed.

Lemma pop_Forall {A : Type} (P : A -> Prop) (l : list A) :
  Forall P l -> Forall P (pop l).
Proof.
  unfold pop. induction 1 as [| a l Ha Hl IH]; [constructor |].
  cbn. destruct l; [constructor | constructor; assumption].
Qed.

Lemma handle_keeps_normalized (ev : event) (self : ImageLabeler) :
  Forall normalized (rectangles self) ->
  Forall normalized (rectangles (post (handle ev self))).
Proof.
  intros H. destruct (handle_rectangles ev self) as [E | [E | (p1 & p2 & E)]];
    cbn zeta in E; rewrite E.
  - exact H.
  - apply pop_Forall, H.
  - apply Forall_app. split; [exact H |].
    constructor; [apply toTLBR_normalized | constructor].
Qed.

Lemma run_keeps_normalized (evs : list event) (self : ImageLabeler) :
  Forall normalized (rectangles self) ->
  Forall normalized (rectangles (run evs self)).
Proof.
  revert self. induction evs as [| ev evs IH]; intros self H; [exact H |].
  change (run (ev :: evs) self) with (run evs (post (handle ev self))).
  apply IH, handle_keeps_normalized, H.
Qed.

(** C2.  Every rectangle of the committed list is normalized.  The pair
    [toTLBR] builds at commit time has its first point left of and above
    its second; every handler (load, undo, save, zoom, mouse move, press
    and release, the last being the only one that commits) keeps a list of
    normalized rectangles normalized; hence after any sequence of events,
    started from a new object, every stored rectangle satisfies
    left <= right and top <= bottom. *)
Theorem committed_rectangles_normalized :
  (forall p1 p2 : QPoint,
      x (fst (toTLBR p1 p2)) <= x (snd (toTLBR p1 p2))
      /\ y (fst (toTLBR p1 p2)) <= y (snd (toTLBR p1 p2)))
  /\ (forall (ev : event) (self : ImageLabeler),
        Forall normalized (rectangles self) ->
        Forall normalized (rectangles (post (handle ev self))))
  /\ (forall evs : list event,
        Forall normalized (rectangles (run evs init))).
Proof.
  split; [exact toTLBR_normalized |].
  split; [exact handle_keeps_normalized |].
  intros evs. apply run_keeps_normalized. constructor.
Qed.

(** ** Undo *)

(** C7.  [undoLastRectangle] never raises.  On an empty list it changes
    nothing at all.  On a list [rs ++ [r]] it leaves exactly [rs]: the
    rectangle committed last is gone, the earlier ones are unchanged and in
    order, and the length went down by one.  In both cases the drag in
    progress (start point, end point, drawing flag) is as it was. *)
Theorem undo_removes_most_recent (self : ImageLabeler) :
  let o := undoLastRectangle self in
  raised o = None
  /\ (rectangles self = [] -> post o = self)
  /\ (forall rs r, rectangles self = rs ++ [r] ->
        rectangles (post o) = rs
        /\ length (rectangles (post o)) = (length (rectangles self) - 1)%nat)
  /\ start_point (post o) = start_point self
  /\ end_point (post o) = end_point self
  /\ is_drawing (post o) = is_drawing self.
Proof.
  cbn zeta. destruct (undo_frame self) as (Hr & Hs & He & Hd & _).
  split; [exact Hr |]. split.
  - intros E. unfold undoLastRectangle. rewrite E. reflexivity.
  - split; [| auto].
    intros rs r E. rewrite undo_rectangles, E. unfold pop.
    rewrite removelast_last. split; [reflexivity |].
    rewrite length_app. cbn. lia.
Qed.

(** ** The release that ends a drag *)

Lemma mouseRelease_drag (vp : Viewport) (pos p : QPoint) (self : ImageLabeler) :
  is_drawing self = true ->
  toOriginal vp self (offset_cursor pos) = Ok p ->
  let o := mouseReleaseEvent vp LeftButton pos self in
  raised o = None
  /\ start_point (post o) = start_point self
  /\ end_point (post o) = p
  /\ is_drawing (post o) = false
  /\ rectangles (post o)
     = if drag_area (start_point self) p >? min_rect_area self
       then rectangles self ++ [toTLBR (start_point self) p]
       else rectangles self.
Proof.
  intros Hd Hp. unfold toOriginal, offset_cursor in Hp.
  unfold mouseReleaseEvent. rewrite Hd. cbn [is_left andb].
  change (convertToOriginalImageCoords vp (set_is_drawing false self))
    with (convertToOriginalImageCoords vp self).
  destruct (convertToOriginalImageCoords vp self _) as [q | e]; cbn [bind] in Hp;
    [| discriminate].
  cbn zeta.
  change (cropPoint (set_end_point q (set_is_drawing false self))
            (end_point (set_end_point q (set_is_drawing false self))))
    with (cropPoint self q).
  rewrite Hp. unfold drag_area. cbn.
  destruct (_ >? _); cbn; repeat split; reflexivity.
Qed.

(** A release whose mapping raises ends the drag and commits nothing. *)
Lemma mouseRelease_raises (vp : Viewport) (pos : QPoint) (e : exn) (self : ImageLabeler) :
  is_drawing self = true ->
  toOriginal vp self (offset_cursor pos) = Raise e ->
  let o := mouseReleaseEvent vp LeftButton pos self in
  raised o = Some e
  /\ start_point (post o) = start_point self
  /\ is_drawing (post o) = false
  /\ rectangles (post o) = rectangles self.
Proof.
  intros Hd Hp. unfold toOriginal, offset_cursor in Hp.
  unfold mouseReleaseEvent. rewrite Hd. cbn [is_left andb].
  change (convertToOriginalImageCoords vp (set_is_drawing false self))
    with (convertToOriginalImageCoords vp self).
  destruct (convertToOriginalImageCoords vp self _) as [q | e']; cbn [bind] in Hp.
  - cbn zeta.
    change (cropPoint (set_end_point q (set_is_drawing false self))
              (end_point (set_end_point q (set_is_drawing false self))))
      with (cropPoint self q).
    rewrite Hp. cbn. repeat split; reflexivity.
  - injection Hp as ->. cbn. repeat split; reflexivity.
Qed.

Lemma app_one_neq {A : Type} (l : list A) (a : A) : l ++ [a] <> l.
Proof.
  intros E. apply (f_equal (@length A)) in E.
  rewrite length_app in E. cbn in E. lia.
Qed.

(** C1, as the code has it.  A release of the primary button while a drag
    is in progress ends the drag and first maps the release position into
    the image.  When the mapping raises, the handler raises the same
    exception and the committed list is as it was.  When the mapping
    returns the point end, the end point becomes end, and with
    area = |end.x - start.x| * |end.y - start.y| the rectangle
    [toTLBR start end] is appended to the committed list if and only if
    area is strictly greater than [min_rect_area]; otherwise the list is
    unchanged.  So area = threshold is rejected and area = threshold + 1 is
    accepted.  The threshold is 10 in a new object and no handler changes
    it. *)
Theorem release_commits_iff_area_exceeds (vp : Viewport) (pos : QPoint)
    (self : ImageLabeler) :
  is_drawing self = true ->
  let o := mouseReleaseEvent vp LeftButton pos self in
  is_drawing (post o) = false
  /\ match toOriginal vp self (offset_cursor pos) with
     | Raise e => raised o = Some e /\ rectangles (post o) = rectangles self
     | Ok p =>
         let area :=
           Z.abs (x p - x (start_point self)) * Z.abs (y p - y (start_point self)) in
         raised o = None
         /\ end_point (post o) = p
         /\ (rectangles (post o) = rectangles self ++ [toTLBR (start_point self) p]
             <-> area > min_rect_area self)
         /\ (rectangles (post o) = rectangles self <-> area <= min_rect_area self)
         /\ (area = min_rect_area self -> rectangles (post o) = rectangles self)
         /\ (area = min_rect_area self + 1 ->
             rectangles (post o) = rectangles self ++ [toTLBR (start_point self) p])
     end
  /\ min_rect_area init = 10
  /\ (forall evs, min_rect_area (run evs init) = 10).
Proof.
  intros Hd. cbn zeta.
  destruct (toOriginal vp self (offset_cursor pos)) as [p | e] eqn:Hp.
  - destruct (mouseRelease_drag vp pos p self Hd Hp) as (Hr & _ & He & Hf & Hl).
    cbn zeta in *. unfold drag_area in Hl.
    set (area := Z.abs (x p - x (start_point self)) * Z.abs (y p - y (start_point self))) in *.
    assert (Hcases :
      (area > min_rect_area self
       /\ rectangles (post (mouseReleaseEvent vp LeftButton pos self))
          = rectangles self ++ [toTLBR (start_point self) p])
      \/ (area <= min_rect_area self
          /\ rectangles (post (mouseReleaseEvent vp LeftButton pos self))
             = rectangles self)).
    { destruct (Z.gtb_spec area (min_rect_area self)); [left | right]; split;
        try lia; exact Hl. }
    repeat split; try assumption; try reflexivity.
    + intros E. destruct Hcases as [[Hgt _] | [_ E']]; [exact Hgt |].
      rewrite E' in E. symmetry in E. apply app_one_neq in E. contradiction.
    + intros Hgt. destruct Hcases as [[_ E] | [Hle _]]; [exact E | lia].
    + intros E. destruct Hcases as [[_ E'] | [Hle _]]; [| exact Hle].
      rewrite E' in E. apply app_one_neq in E. contradiction.
    + intros Hle. destruct Hcases as [[Hgt _] | [_ E]]; [lia | exact E].
    + intros Heq. destruct Hcases as [[Hgt _] | [_ E]]; [lia | exact E].
    + intros Heq. destruct Hcases as [[_ E] | [Hle _]]; [exact E | lia].
    + intros evs. apply run_min_rect_area.
  - destruct (mouseRelease_raises vp pos e self Hd Hp) as (Hr & _ & Hf & Hl).
    cbn zeta in *. repeat split; try assumption; try reflexivity.
    intros evs. apply run_min_rect_area.
Qed.

(** ** The order of binary64 and the two reductions *)

Lemma SFcompare_refl (x : spec_float) :
  x <> S754_nan -> SFcompare x x = Some Eq.
Proof.
  destruct x as [s | s | | s m e]; intros H; try contradiction; cbn.
  - reflexivity.
  - destruct s; reflexivity.
  - rewrite Z.compare_refl, Pos.compare_cont_refl. destruct s; reflexivity.
Qed.

Lemma is_nan_spec (a : float64) : is_nan a = true <-> Prim2SF a = S754_nan.
Proof.
  unfold is_nan. rewrite FloatAxioms.eqb_spec. unfold SFeqb.
  destruct (Prim2SF a) as [s | s | | s m e] eqn:E.
  1,2,4: rewrite SFcompare_refl by discriminate; cbn; split; discriminate.
  cbn. split; reflexivity.
Qed.

Lemma leb_not_nan (a b : float64) :
  (a <=? b)%float = true -> is_nan a = false /\ is_nan b = false.
Proof.
  rewrite FloatAxioms.leb_spec. unfold SFleb. intros H.
  split; apply not_true_is_false; rewrite is_nan_spec; intros E; rewrite E in H;
    [| destruct (Prim2SF a)]; discriminate.
Qed.

Lemma leb_refl (a : float64) : is_nan a = false -> (a <=? a)%float = true.
Proof.
  intros H. rewrite FloatAxioms.leb_spec. unfold SFleb. rewrite SFcompare_refl; [reflexivity |].
  intros E. apply is_nan_spec in E. congruence.
Qed.

Ltac compare_cases :=
  repeat match goal with
         | H : context [Z.compare ?a ?b] |- _ => destruct (Z.compare_spec a b)
         | |- context [Z.compare ?a ?b] => destruct (Z.compare_spec a b)
         | H : context [Pos.compare ?a ?b] |- _ => destruct (Pos.compare_spec a b)
         | |- context [Pos.compare ?a ?b] => destruct (Pos.compare_spec a b)
         end.

Lemma SFleb_total (x y : spec_float) :
  x <> S754_nan -> y <> S754_nan -> SFleb x y = false -> SFleb y x = true.
Proof.
  unfold SFleb, SFcompare.
  destruct x as [sx | sx | | sx mx ex], y as [sy | sy | | sy my ey];
    intros Hx Hy; try contradiction;
    try destruct sx; try destruct sy; try discriminate; try reflexivity;
    change (Pos.compare_cont Eq) with Pos.compare;
    compare_cases; cbn; try discriminate; try reflexivity; try lia.
Qed.

Lemma SFleb_trans (x y z : spec_float) :
  SFleb x y = true -> SFleb y z = true -> SFleb x z = true.
Proof.
  unfold SFleb, SFcompare.
  destruct x as [sx | sx | | sx mx ex], y as [sy | sy | | sy my ey],
    z as [sz | sz | | sz mz ez];
    try destruct sx; try destruct sy; try destruct sz;
    try discriminate; try reflexivity;
    change (Pos.compare_cont Eq) with Pos.compare;
    compare_cases; cbn; try discriminate; try reflexivity; try lia.
Qed.

Lemma leb_total (a b : float64) :
  is_nan a = false -> is_nan b = false -> (a <=? b)%float = false -> (b <=? a)%float = true.
Proof.
  rewrite !FloatAxioms.leb_spec. intros Ha Hb.
  apply SFleb_total; intros E; apply is_nan_spec in E; congruence.
Qed.

Lemma leb_trans (a b c : float64) :
  (a <=? b)%float = true -> (b <=? c)%float = true -> (a <=? c)%float = true.
Proof. rewrite !FloatAxioms.leb_spec. apply SFleb_trans. Qed.

Lemma SFleb_antisym (x y : spec_float) :
  SFleb x y = true -> SFleb y x = true -> SFcompare x y = Some Eq.
Proof.
  unfold SFleb, SFcompare.
  destruct x as [sx | sx | | sx mx ex], y as [sy | sy | | sy my ey];
    try destruct sx; try destruct sy; try discriminate; try reflexivity;
    change (Pos.compare_cont Eq) with Pos.compare;
    compare_cases; cbn; try discriminate; try reflexivity; try lia.
Qed.

Lemma SFsub_of_equal (x y : spec_float) :
  SFcompare x y = Some Eq -> zero_or_nan (SFsub prec emax x y).
Proof.
  unfold SFcompare.
  destruct x as [sx | sx | | sx mx ex], y as [sy | sy | | sy my ey];
    try destruct sx; try destruct sy; try discriminate; try (intros _; exact I);
    change (Pos.compare_cont Eq) with Pos.compare;
    destruct (Z.compare_spec ex ey); try discriminate;
    destruct (Pos.compare_spec mx my); try discriminate; intros _; subst;
    cbn [SFsub]; rewrite Z.sub_diag; exact I.
Qed.

Lemma SFdiv_zero_or_nan (x y : spec_float) :
  zero_or_nan x -> zero_or_nan y -> SFdiv prec emax x y = S754_nan.
Proof.
  destruct x, y; cbn; try contradiction; reflexivity.
Qed.

(** When the extremes are equal, every value between them normalizes to
    [nan]: the quotient is 0/0, or has [inf - inf] in it. *)
Lemma normalized_constant (v mn mx : float64) :
  (mn <=? v)%float = true -> (v <=? mx)%float = true -> (mx <=? mn)%float = true ->
  ((v - mn) / (mx - mn))%float = nan.
Proof.
  intros H1 H2 H3.
  assert (Hv : (v <=? mn)%float = true) by (eapply leb_trans; eassumption).
  assert (Hm : (mn <=? mx)%float = true) by (eapply leb_trans; eassumption).
  rewrite FloatAxioms.leb_spec in *.
  apply Prim2SF_inj. rewrite div_spec, !sub_spec.
  change (Prim2SF nan) with S754_nan.
  apply SFdiv_zero_or_nan; apply SFsub_of_equal, SFleb_antisym; assumption.
Qed.

Lemma minimum_bounds (acc v : float64) :
  is_nan acc = false -> is_nan v = false ->
  (minimum acc v = acc \/ minimum acc v = v)
  /\ (minimum acc v <=? acc)%float = true
  /\ (minimum acc v <=? v)%float = true.
Proof.
  intros Ha Hv. unfold minimum. rewrite Ha, orb_false_r.
  destruct (acc <=? v)%float eqn:E.
  - split; [left; reflexivity |]. split; [apply leb_refl, Ha | exact E].
  - split; [right; reflexivity |]. split; [apply leb_total; assumption | apply leb_refl, Hv].
Qed.

Lemma maximum_bounds (acc v : float64) :
  is_nan acc = false -> is_nan v = false ->
  (maximum acc v = acc \/ maximum acc v = v)
  /\ (acc <=? maximum acc v)%float = true
  /\ (v <=? maximum acc v)%float = true.
Proof.
  intros Ha Hv. unfold maximum. rewrite Ha, orb_false_r.
  destruct (v <=? acc)%float eqn:E.
  - split; [left; reflexivity |]. split; [apply leb_refl, Ha | exact E].
  - split; [right; reflexivity |]. split; [apply leb_total; assumption | apply leb_refl, Hv].
Qed.

Lemma fold_minimum (l : list float64) (v : float64) :
  Forall (fun e => is_nan e = false) (v :: l) ->
  In (fold_left minimum l v) (v :: l)
  /\ Forall (fun e => (fold_left minimum l v <=? e)%float = true) (v :: l).
Proof.
  revert v. induction l as [| b l IH]; intros v H; cbn [fold_left].
  - inversion H as [| ? ? Hv _]; subst. split; [left; reflexivity |].
    constructor; [apply leb_refl, Hv | constructor].
  - inversion H as [| ? ? Hv Hl]; subst. inversion Hl as [| ? ? Hb Hl']; subst.
    destruct (minimum_bounds v b Hv Hb) as (Hor & Hlv & Hlb).
    assert (Hm : is_nan (minimum v b) = false) by (destruct Hor as [-> | ->]; assumption).
    destruct (IH (minimum v b) (Forall_cons _ Hm Hl')) as [Hin Hall].
    inversion Hall as [| ? ? H0 Hrest]; subst. split.
    + destruct Hin as [E | Hin].
      * rewrite <- E. destruct Hor as [-> | ->]; [left | right; left]; reflexivity.
      * right. right. exact Hin.
    + constructor; [eapply leb_trans; eassumption |].
      constructor; [eapply leb_trans; eassumption | exact Hrest].
Qed.

Lemma fold_maximum (l : list float64) (v : float64) :
  Forall (fun e => is_nan e = false) (v :: l) ->
  In (fold_left maximum l v) (v :: l)
  /\ Forall (fun e => (e <=? fold_left maximum l v)%float = true) (v :: l).
Proof.
  revert v. induction l as [| b l IH]; intros v H; cbn [fold_left].
  - inversion H as [| ? ? Hv _]; subst. split; [left; reflexivity |].
    constructor; [apply leb_refl, Hv | constructor].
  - inversion H as [| ? ? Hv Hl]; subst. inversion Hl as [| ? ? Hb Hl']; subst.
    destruct (maximum_bounds v b Hv Hb) as (Hor & Hlv & Hlb).
    assert (Hm : is_nan (maximum v b) = false) by (destruct Hor as [-> | ->]; assumption).
    destruct (IH (maximum v b) (Forall_cons _ Hm Hl')) as [Hin Hall].
    inversion Hall as [| ? ? H0 Hrest]; subst. split.
    + destruct Hin as [E | Hin].
      * rewrite <- E. destruct Hor as [-> | ->]; [left | right; left]; reflexivity.
      * right. right. exact Hin.
    + constructor; [eapply leb_trans; eassumption |].
      constructor; [eapply leb_trans; eassumption | exact Hrest].
Qed.

Lemma leb_nan_r (a b : float64) : is_nan b = true -> (a <=? b)%float = false.
Proof.
  intros Hb. destruct (a <=? b)%float eqn:E; [| reflexivity].
  apply leb_not_nan in E. destruct E; congruence.
Qed.

Lemma leb_nan_l (a b : float64) : is_nan a = true -> (a <=? b)%float = false.
Proof.
  intros Hb. destruct (a <=? b)%float eqn:E; [| reflexivity].
  apply leb_not_nan in E. destruct E; congruence.
Qed.

Lemma minimum_nan (acc v : float64) :
  is_nan acc = true \/ is_nan v = true -> is_nan (minimum acc v) = true.
Proof.
  unfold minimum. destruct (is_nan acc) eqn:Ha.
  - rewrite orb_true_r. intros _. exact Ha.
  - intros [H | Hv]; [discriminate |]. rewrite (leb_nan_r acc v Hv). exact Hv.
Qed.

Lemma maximum_nan (acc v : float64) :
  is_nan acc = true \/ is_nan v = true -> is_nan (maximum acc v) = true.
Proof.
  unfold maximum. destruct (is_nan acc) eqn:Ha.
  - rewrite orb_true_r. intros _. exact Ha.
  - intros [H | Hv]; [discriminate |]. rewrite (leb_nan_l v acc Hv). exact Hv.
Qed.

(** A [nan] anywhere in the elements comes out of both reductions. *)
Lemma fold_nan (f : float64 -> float64 -> float64) (l : list float64) (v : float64) :
  (forall acc e, is_nan acc = true \/ is_nan e = true -> is_nan (f acc e) = true) ->
  Exists (fun e => is_nan e = true) (v :: l) ->
  is_nan (fold_left f l v) = true.
Proof.
  intros Hf. revert v. induction l as [| b l IH]; intros v H; cbn [fold_left].
  - inversion H as [? ? Hv | ? ? Hl]; subst; [exact Hv | inversion Hl].
  - apply IH. inversion H as [? ? Hv | ? ? Hl]; subst.
    + apply Exists_cons_hd, Hf. left. exact Hv.
    + inversion Hl as [? ? Hb | ? ? Hl']; subst.
      * apply Exists_cons_hd, Hf. right. exact Hb.
      * apply Exists_cons_tl. exact Hl'.
Qed.

Lemma SFeqb_leb (x y : spec_float) :
  SFeqb x y = true -> SFleb x y = true /\ SFleb y x = true.
Proof.
  unfold SFeqb, SFleb, SFcompare.
  destruct x as [sx | sx | | sx mx ex], y as [sy | sy | | sy my ey];
    try destruct sx; try destruct sy; try discriminate; try (split; reflexivity);
    change (Pos.compare_cont Eq) with Pos.compare;
    compare_cases; cbn; try discriminate; try (split; reflexivity); try lia.
Qed.

Lemma eqb_leb (a b : float64) :
  (a =? b)%float = true -> (a <=? b)%float = true /\ (b <=? a)%float = true.
Proof. rewrite FloatAxioms.eqb_spec, !FloatAxioms.leb_spec. apply SFeqb_leb. Qed.

Lemma nan_or_not (l : list float64) :
  Forall (fun v => is_nan v = false) l \/ Exists (fun v => is_nan v = true) l.
Proof.
  induction l as [| v l [IH | IH]].
  - left. constructor.
  - destruct (is_nan v) eqn:E; [right; left; exact E | left; constructor; assumption].
  - right. right. exact IH.
Qed.

(** ** Loading a matrix *)

Lemma loadImage_loaded (filePath : string) (lines : list string) (mat : ndarray)
    (self : ImageLabeler) :
  filePath <> "" ->
  load_matrix_from_txt lines = Ok mat ->
  loadImage filePath lines self = loadImage_matrix mat self.
Proof.
  intros Hp Hm. unfold loadImage. rewrite Hm.
  destruct filePath; [contradiction | reflexivity].
Qed.

Lemma promote_rank2 (a : list (list float64)) :
  zero_from_1 (repeat_axis2 3 (newaxis a))
  = map (map (fun v => [v; 0%float; 0%float])) a.
Proof.
  unfold zero_from_1, repeat_axis2, newaxis.
  rewrite !map_map. apply map_ext. intros row.
  rewrite !map_map. apply map_ext. intros v. reflexivity.
Qed.

Lemma reduce_returns (f : float64 -> float64 -> float64) (m : ndarray) :
  ravel m <> [] -> exists v, reduce f m = Ok v.
Proof.
  unfold reduce. destruct (ravel m); [contradiction | eexists; reflexivity].
Qed.

Lemma reduce_raises (f : float64 -> float64 -> float64) (m : ndarray) :
  ravel m = [] -> reduce f m = Raise ValueError.
Proof. unfold reduce. intros ->. reflexivity. Qed.

Lemma normalize_rank2 (a : list (list float64)) :
  concat a <> [] ->
  exists mn mx,
    np_min (Array2 a) = Ok mn
    /\ np_max (Array2 a) = Ok mx
    /\ normalize (Array2 a)
       = Ok (Array2 (map (map (fun v => ((v - mn) / (mx - mn))%float)) a)).
Proof.
  intros Ha.
  destruct (reduce_returns minimum (Array2 a) Ha) as [mn Hmn].
  destruct (reduce_returns maximum (Array2 a) Ha) as [mx Hmx].
  exists mn, mx. unfold normalize, np_min, np_max.
  rewrite Hmn, Hmx. cbn. repeat split; reflexivity.
Qed.

Lemma normalize_keeps_rank (mat m : ndarray) :
  normalize mat = Ok m -> shape m = shape mat.
Proof.
  unfold normalize.
  destruct (np_min mat) as [mn |]; cbn [bind]; [| discriminate].
  destruct (np_max mat) as [mx |]; cbn [bind]; [| discriminate].
  intros E. injection E as <-.
  destruct mat as [a | a | a]; cbn [np_map shape]; rewrite ?length_map.
  - reflexivity.
  - destruct a as [| r a']; cbn; rewrite ?length_map; reflexivity.
  - destruct a as [| [| px r] a']; cbn; rewrite ?length_map; reflexivity.
Qed.

Lemma loadImage_matrix_rank2 (a : list (list float64)) (f : float64 -> float64)
    (self : ImageLabeler) :
  normalize (Array2 a) = Ok (Array2 (map (map f) a)) ->
  let o := loadImage_matrix (Array2 a) self in
  raised o = None
  /\ meta_img (post o)
     = Some (map (map (fun v => [astype_uint8 (f v * 255)%float; 0; 0])) a).
Proof.
  intros Hn. unfold loadImage_matrix. rewrite Hn. cbn [branch_of shape].
  rewrite promote_rank2. cbn zeta. cbn [original_img set_original_img set_meta_img
    set_original_img_size set_scaled_img option_map].
  unfold displayImage. cbn. split; [reflexivity |].
  f_equal. unfold to_uint8. rewrite !map_map. apply map_ext. intros row.
  rewrite !map_map. apply map_ext. intros v. reflexivity.
Qed.

(** The extremes of a matrix without a [nan] are among its elements and
    bound them all; with a [nan] in it both are [nan]. *)
Lemma extremes_bound (a : list (list float64)) (mn mx : float64) :
  np_min (Array2 a) = Ok mn ->
  np_max (Array2 a) = Ok mx ->
  (Forall (fun v => is_nan v = false) (concat a) ->
   least mn (concat a) /\ greatest mx (concat a))
  /\ (Exists (fun v => is_nan v = true) (concat a) ->
      is_nan mn = true /\ is_nan mx = true).
Proof.
  unfold np_min, np_max, reduce. cbn [ravel].
  destruct (concat a) as [| v l]; [discriminate |].
  intros Hmn Hmx. injection Hmn as <-. injection Hmx as <-. split; intros H.
  - split; [apply fold_minimum | apply fold_maximum]; exact H.
  - split; apply fold_nan; try exact H; [exact minimum_nan | exact maximum_nan].
Qed.

(** C8.  Loading a matrix of rank two that has an element normalizes every
    value v to (v - min) / (max - min) in binary64, min and max being those
    of the whole matrix (an element that no element is below, one that no
    element is above; [nan] both when a [nan] is among the values), and
    promotes the result to three channels: in the image stored as
    [meta_img] the pixel of v holds the normalized value times 255,
    converted to eight bits, in channel 0 and zero in channels 1 and 2.
    Loading [[0,0,0,0],[0,5,5,0],[0,5,5,0],[0,0,0,0]] stores the image with
    255 in channel 0 of the four centre pixels and 0 in every other place.
    [loadImage] on a file that holds the matrix does just this. *)
Theorem load_normalizes_and_promotes (a : list (list float64)) (self : ImageLabeler) :
  concat a <> [] ->
  (exists mn mx,
      np_min (Array2 a) = Ok mn
      /\ np_max (Array2 a) = Ok mx
      /\ (Forall (fun v => is_nan v = false) (concat a) ->
          least mn (concat a) /\ greatest mx (concat a))
      /\ (Exists (fun v => is_nan v = true) (concat a) ->
          is_nan mn = true /\ is_nan mx = true)
      /\ normalize (Array2 a)
         = Ok (Array2 (map (map (fun v => ((v - mn) / (mx - mn))%float)) a))
      /\ raised (loadImage_matrix (Array2 a) self) = None
      /\ meta_img (post (loadImage_matrix (Array2 a) self))
         = Some (map (map (fun v =>
                             [astype_uint8 ((v - mn) / (mx - mn) * 255)%float;
                              0; 0])) a))
  /\ (forall filePath lines,
        filePath <> "" ->
        load_matrix_from_txt lines = Ok (Array2 a) ->
        loadImage filePath lines self = loadImage_matrix (Array2 a) self)
  /\ meta_img (post (loadImage_matrix (Array2 scenario_matrix) self))
     = Some scenario_image.
Proof.
  intros Ha. split; [| split].
  - destruct (normalize_rank2 a Ha) as (mn & mx & Hmn & Hmx & Hn).
    exists mn, mx.
    destruct (loadImage_matrix_rank2 a _ self Hn) as [Hr Hm].
    destruct (extremes_bound a mn mx Hmn Hmx) as [Hfin Hnan].
    repeat split; try assumption; try (apply Hfin; assumption);
      apply Hnan; assumption.
  - intros filePath lines Hp Hl. apply loadImage_loaded; assumption.
  - assert (Hs : concat scenario_matrix <> []) by (cbn; discriminate).
    destruct (normalize_rank2 scenario_matrix Hs) as (mn & mx & Hmn & Hmx & Hn).
    destruct (loadImage_matrix_rank2 scenario_matrix _ self Hn) as [_ Hm].
    cbn zeta in Hm. rewrite Hm.
    vm_compute in Hmn. injection Hmn as <-.
    vm_compute in Hmx. injection Hmx as <-.
    vm_compute. reflexivity.
Qed.

Lemma traverse_length {A B : Type} (f : A -> result B) (l : list A) (bs : list B) :
  traverse f l = Ok bs -> Forall2 (fun a b => f a = Ok b) l bs.
Proof.
  revert bs. induction l as [| a l IH]; intros bs; cbn.
  - intros E. injection E as <-. constructor.
  - destruct (f a) as [b |] eqn:Ea; cbn [bind]; [| discriminate].
    destruct (traverse f l) as [bs' |]; cbn [bind]; [| discriminate].
    intros E. injection E as <-. constructor; [exact Ea | apply IH; reflexivity].
Qed.

Lemma traverse_returns {A B : Type} (f : A -> result B) (l : list A) :
  Forall (fun a => exists b, f a = Ok b) l -> exists bs, traverse f l = Ok bs.
Proof.
  induction 1 as [| a l [b Hb] _ [bs Hbs]]; cbn.
  - eexists. reflexivity.
  - rewrite Hb, Hbs. cbn. eexists. reflexivity.
Qed.

Lemma Forall2_In_right {A B : Type} (R : A -> B -> Prop) (l : list A) (l' : list B)
    (b : B) :
  Forall2 R l l' -> In b l' -> exists a, In a l /\ R a b.
Proof.
  induction 1 as [| a b' l l' Hab _ IH]; cbn; [contradiction |].
  intros [<- | Hin].
  - exists a. split; [left; reflexivity | exact Hab].
  - destruct (IH Hin) as (a' & Ha' & HR). exists a'. split; [right |]; assumption.
Qed.

(** What the loader can return: the empty rank-one array for a file without
    lines, a rank-two array with one row per line otherwise. *)
Lemma load_matrix_rank (lines : list string) (mat : ndarray) :
  load_matrix_from_txt lines = Ok mat ->
  (lines = [] /\ mat = Array1 [])
  \/ (lines <> [] /\ exists a, mat = Array2 a /\ length a = length lines).
Proof.
  unfold load_matrix_from_txt.
  destruct (traverse _ lines) as [matrix |] eqn:Et; cbn [bind]; [| discriminate].
  apply traverse_length in Et. apply Forall2_length in Et.
  unfold np_array. destruct matrix as [| row rest].
  - intros E. injection E as <-. left. split; [| reflexivity].
    destruct lines; [reflexivity | discriminate].
  - destruct (forallb _ rest); [| discriminate].
    intros E. injection E as <-. right. split.
    + destruct lines; [discriminate | discriminate].
    + eexists. split; [reflexivity |].
      cbn [length] in *. symmetry. exact Et.
Qed.

Lemma load_matrix_returns (lines : list string) :
  well_formed lines -> exists mat, load_matrix_from_txt lines = Ok mat.
Proof.
  intros [Htok Hlen]. unfold load_matrix_from_txt.
  assert (Hrows : Forall (fun line => exists row, traverse float (split line) = Ok row) lines).
  { eapply Forall_impl; [| exact Htok]. intros line H. apply traverse_returns, H. }
  destruct (traverse_returns _ lines Hrows) as [matrix Hm].
  rewrite Hm. cbn [bind].
  apply traverse_length in Hm.
  assert (Hsame : forall r1 r2, In r1 matrix -> In r2 matrix -> length r1 = length r2).
  { intros r1 r2 H1 H2.
    destruct (Forall2_In_right _ _ _ _ Hm H1) as (l1 & Hl1 & E1).
    destruct (Forall2_In_right _ _ _ _ Hm H2) as (l2 & Hl2 & E2).
    apply traverse_length, Forall2_length in E1.
    apply traverse_length, Forall2_length in E2.
    rewrite <- E1, <- E2. apply Hlen; assumption. }
  unfold np_array. destruct matrix as [| row rest]; [eexists; reflexivity |].
  assert (Hall : forallb (fun r => (length r =? length row)%nat) rest = true).
  { apply forallb_forall. intros r Hr. apply Nat.eqb_eq.
    apply Hsame; [right; exact Hr | left; reflexivity]. }
  rewrite Hall. eexists. reflexivity.
Qed.

Lemma branch_of_rank (m : ndarray) :
  branch_of m = Rank2 <-> length (shape m) = 2%nat.
Proof.
  unfold branch_of. destruct m as [a | a | a]; cbn [shape length].
  - split; [discriminate | discriminate].
  - split; reflexivity.
  - split; [| discriminate]. case_split; discriminate.
Qed.

(** Whatever file is read, a matrix that gets past the normalization is one
    of rank two. *)
Lemma loaded_branch (lines : list string) (mat m : ndarray) :
  load_matrix_from_txt lines = Ok mat ->
  normalize mat = Ok m ->
  branch_of m = Rank2.
Proof.
  intros Hl Hn. apply branch_of_rank. rewrite (normalize_keeps_rank _ _ Hn).
  destruct (load_matrix_rank lines mat Hl) as [[_ ->] | (_ & a & -> & _)].
  - unfold normalize, np_min in Hn. rewrite reduce_raises in Hn by reflexivity.
    discriminate.
  - reflexivity.
Qed.

(** C10, as the code has it.  For a well-formed file that has at least one
    line, [load_matrix_from_txt] returns a matrix of rank two with one row
    per line; when that matrix has an element, [loadImage] normalizes it,
    takes the branch for rank two and ends without raising.  For every file
    whatever, a matrix that reaches the test of the shape is of rank two:
    the two branches for rank three and the one for an invalid shape are
    never taken on a matrix read from a file. *)
Theorem file_load_takes_rank2_branch (lines : list string) :
  well_formed lines ->
  lines <> [] ->
  (exists a,
      load_matrix_from_txt lines = Ok (Array2 a)
      /\ length (shape (Array2 a)) = 2%nat
      /\ length a = length lines
      /\ (concat a <> [] ->
          exists m,
            normalize (Array2 a) = Ok m
            /\ branch_of m = Rank2
            /\ forall filePath self,
                filePath <> "" ->
                raised (loadImage filePath lines self) = None
                /\ meta_img (post (loadImage filePath lines self)) <> None))
  /\ (forall lines' mat m,
        load_matrix_from_txt lines' = Ok mat ->
        normalize mat = Ok m ->
        branch_of m = Rank2
        /\ branch_of m <> Rank3Single
        /\ branch_of m <> Rank3Colour
        /\ branch_of m <> InvalidShape).
Proof.
  intros Hwf Hne. split.
  - destruct (load_matrix_returns lines Hwf) as [mat Hm].
    destruct (load_matrix_rank lines mat Hm) as [[E _] | (_ & a & -> & Hlen)];
      [contradiction |].
    exists a. repeat split; [exact Hm | exact Hlen |].
    intros Ha. destruct (normalize_rank2 a Ha) as (mn & mx & _ & _ & Hn).
    eexists. split; [exact Hn |]. split; [reflexivity |].
    intros filePath self Hp.
    rewrite (loadImage_loaded filePath lines _ self Hp Hm).
    destruct (loadImage_matrix_rank2 a _ self Hn) as [Hr Hi].
    cbn zeta in Hi. rewrite Hi. split; [exact Hr | discriminate].
  - intros lines' mat m Hl Hn.
    rewrite (loaded_branch lines' mat m Hl Hn).
    repeat split; discriminate.
Qed.

(** ** What a load leaves alone *)

(** C4, as the code has it.  [loadImage] never writes the committed list:
    whether the dialog was cancelled, the file was refused or the image was
    loaded and shown, the list after the call is the list before it, and so
    are the start point, the end point and the drawing flag.  The list is
    empty in a new object only because [__init__] makes it so. *)
Theorem loadImage_keeps_rectangles (filePath : string) (lines : list string)
    (self : ImageLabeler) :
  rectangles (post (loadImage filePath lines self)) = rectangles self
  /\ start_point (post (loadImage filePath lines self)) = start_point self
  /\ end_point (post (loadImage filePath lines self)) = end_point self
  /\ is_drawing (post (loadImage filePath lines self)) = is_drawing self
  /\ rectangles init = [].
Proof.
  destruct (loadImage_frame filePath lines self) as (H1 & H2 & H3 & H4 & _).
  repeat split; assumption || reflexivity.
Qed.

(** ** The branch for an invalid shape *)

Lemma invalid_shape_raises (mat m : ndarray) (self : ImageLabeler) :
  normalize mat = Ok m ->
  branch_of m = InvalidShape ->
  loadImage_matrix mat self = raising AttributeError self.
Proof.
  intros Hn Hb. unfold loadImage_matrix. rewrite Hn, Hb.
  destruct m; reflexivity.
Qed.

(** C6, at a file the dialog can return.  A file without lines gives the
    array of shape (0,), which the test of the shape would send to the
    branch for an invalid shape; the load does not get that far.  The
    normalization raises [ValueError], which leaves [loadImage]: nothing at
    all is changed (the images, the committed list, the message log), no
    diagnostic is shown and the fault reaches the caller.  No file gets to
    that branch: a matrix that is past the normalization is of rank two.
    The branch itself reads the attribute [statusLabel], which does not
    exist, and would raise [AttributeError]. *)
Theorem invalid_shape_load_raises (c : ascii) (rest : string) (self : ImageLabeler) :
  load_matrix_from_txt [] = Ok (Array1 [])
  /\ shape (Array1 []) = [0%nat]
  /\ branch_of (Array1 []) = InvalidShape
  /\ raised (loadImage (String c rest) [] self) = Some ValueError
  /\ post (loadImage (String c rest) [] self) = self
  /\ written (loadImage (String c rest) [] self) = []
  /\ (forall lines mat m,
        load_matrix_from_txt lines = Ok mat ->
        normalize mat = Ok m ->
        branch_of m = Rank2)
  /\ (forall mat m,
        normalize mat = Ok m ->
        branch_of m = InvalidShape ->
        loadImage_matrix mat self = raising AttributeError self).
Proof.
  repeat split; try reflexivity.
  - exact loaded_branch.
  - intros mat m Hn Hb. apply invalid_shape_raises with (m := m); assumption.
Qed.

(** ** The two export formats *)

Lemma append_assoc (s1 s2 s3 : string) :
  String.append (String.append s1 s2) s3 = String.append s1 (String.append s2 s3).
Proof.
  induction s1 as [| c s1 IH]; cbn; [reflexivity | rewrite IH; reflexivity].
Qed.

Lemma append_empty_r (s : string) : String.append s "" = s.
Proof.
  induction s as [| c s IH]; cbn; [reflexivity | rewrite IH; reflexivity].
Qed.

Lemma split_from_token (cur t rest : string) (c : ascii) :
  spaceless t = true ->
  isspace c = true ->
  split_from cur (String.append t (String c rest))
  = if (String.length (String.append cur t) =? 0)%nat
    then split_from "" rest
    else String.append cur t :: split_from "" rest.
Proof.
  intros Ht Hc. revert cur. induction t as [| a t IH]; intros cur.
  - cbn [String.append split_from]. rewrite Hc, append_empty_r. reflexivity.
  - cbn [spaceless] in Ht. apply andb_true_iff in Ht. destruct Ht as [Ha Ht].
    apply negb_true_iff in Ha.
    cbn [String.append split_from]. rewrite Ha, (IH Ht), append_assoc. reflexivity.
Qed.

Lemma uint_string_spaceless (d : Decimal.uint) :
  spaceless (NilEmpty.string_of_uint d) = true.
Proof.
  induction d; cbn [NilEmpty.string_of_uint spaceless]; [reflexivity | ..];
    rewrite IHd; reflexivity.
Qed.

Lemma nz_uint_string_spaceless (d : Decimal.uint) :
  spaceless (NilZero.string_of_uint d) = true /\ NilZero.string_of_uint d <> "".
Proof.
  destruct d; (split; [| cbn; discriminate]);
    first [reflexivity | apply uint_string_spaceless].
Qed.

Lemma str_spaceless (z : Z) : spaceless (str z) = true /\ str z <> "".
Proof.
  unfold str, NilZero.string_of_int.
  destruct (Z.to_int z) as [d | d];
    destruct (nz_uint_string_spaceless d) as [Hs Hn].
  - split; assumption.
  - split; [cbn [spaceless]; rewrite Hs; reflexivity | discriminate].
Qed.

Lemma str_read_back (z : Z) :
  option_map Z.of_int (NilZero.int_of_string (str z)) = Some z.
Proof.
  unfold str. rewrite NilZero.isi.
  - cbn [option_map]. rewrite DecimalZ.of_to. reflexivity.
  - destruct z as [| p | p]; cbn [Z.to_int]; try discriminate.
    intros E. injection E as E. exact (Unsigned.to_uint_nonnil p E).
  - destruct z as [| p | p]; cbn [Z.to_int]; try discriminate.
    intros E. injection E as E. exact (Unsigned.to_uint_nonnil p E).
Qed.

Lemma nonempty_length (s : string) : s <> "" -> (String.length s =? 0)%nat = false.
Proof. destruct s; [contradiction | reflexivity]. Qed.

(** A line of the text export splits into its four printed integers. *)
Lemma split_txt_line (rect : QPoint * QPoint) :
  split (txt_line rect) = map str (txt_fields rect).
Proof.
  unfold txt_line, txt_fields, split. cbn [map String.concat].
  destruct (str_spaceless (x (fst rect))) as [S1 N1].
  destruct (str_spaceless (y (fst rect))) as [S2 N2].
  destruct (str_spaceless (x (snd rect))) as [S3 N3].
  destruct (str_spaceless (y (snd rect))) as [S4 N4].
  rewrite !append_assoc. cbn [String.append].
  rewrite (split_from_token "" _ _ " "%char S1 eq_refl). cbn [String.append].
  rewrite (nonempty_length _ N1).
  rewrite (split_from_token "" _ _ " "%char S2 eq_refl). cbn [String.append].
  rewrite (nonempty_length _ N2).
  rewrite (split_from_token "" _ _ " "%char S3 eq_refl). cbn [String.append].
  rewrite (nonempty_length _ N3).
  rewrite (split_from_token "" _ _ "010"%char S4 eq_refl). cbn [String.append].
  rewrite (nonempty_length _ N4).
  reflexivity.
Qed.

Lemma line_fields_txt_line (rect : QPoint * QPoint) :
  line_fields (txt_line rect) = map Some (txt_fields rect).
Proof.
  unfold line_fields. rewrite split_txt_line, map_map.
  unfold txt_fields. cbn [map]. rewrite !str_read_back. reflexivity.
Qed.

Lemma nth_error_enumerate {A : Type} (l : list A) (start : Z) (i : nat) :
  nth_error (enumerate start l) i
  = option_map (fun a => (start + Z.of_nat i, a)) (nth_error l i).
Proof.
  revert start i. induction l as [| a l IH]; intros start [| i]; cbn [enumerate nth_error].
  - reflexivity.
  - reflexivity.
  - cbn. rewrite Z.add_0_r. reflexivity.
  - rewrite IH. destruct (nth_error l i); cbn [option_map]; [| reflexivity].
    do 2 f_equal. lia.
Qed.

Lemma nth_rects_data (rects : list (QPoint * QPoint)) (i : nat) (rect : QPoint * QPoint) :
  nth_error rects i = Some rect ->
  nth_error (rects_data rects) i
  = Some (mk_rect_dict (Z.of_nat i + 1)
            [Z.min (y (fst rect)) (y (snd rect)); Z.min (x (fst rect)) (x (snd rect));
             Z.max (y (fst rect)) (y (snd rect)); Z.max (x (fst rect)) (x (snd rect))]).
Proof.
  intros H. unfold rects_data. rewrite nth_error_map, nth_error_enumerate, H.
  cbn [option_map fst snd]. rewrite (Z.add_comm 1). reflexivity.
Qed.

Lemma normalized_min_max (rect : QPoint * QPoint) :
  normalized rect ->
  Z.min (y (fst rect)) (y (snd rect)) = y (fst rect)
  /\ Z.min (x (fst rect)) (x (snd rect)) = x (fst rect)
  /\ Z.max (y (fst rect)) (y (snd rect)) = y (snd rect)
  /\ Z.max (x (fst rect)) (x (snd rect)) = x (snd rect).
Proof. unfold normalized. lia. Qed.

(** C5, as the code has it.  For one list of committed (hence normalized)
    rectangles the two exports have an entry for the same rectangle at the
    same position and hold the same four integers, in different orders: the
    i-th JSON entry has id i + 1 (counting i from 0) and
    tlbw = [top, left, bottom, right], the i-th line of the text export
    reads back as left, top, right, bottom.  The JSON file is written for a
    name ending in .json, the text file for one ending in .txt. *)
Theorem exports_same_integers_other_order (rects : list (QPoint * QPoint)) (i : nat)
    (rect : QPoint * QPoint) :
  Forall normalized rects ->
  nth_error rects i = Some rect ->
  let top := y (fst rect) in
  let left := x (fst rect) in
  let bottom := y (snd rect) in
  let right := x (snd rect) in
  nth_error (rects_data rects) i
  = Some (mk_rect_dict (Z.of_nat i + 1) [top; left; bottom; right])
  /\ option_map line_fields (nth_error (map txt_line rects) i)
     = Some [Some left; Some top; Some right; Some bottom]
  /\ (forall fileName self,
        rectangles self = rects ->
        endswith fileName ".json" = true ->
        endswith fileName ".txt" = false ->
        written (saveRectangles fileName self)
        = [(fileName, JsonDump (rects_data rects))])
  /\ (forall fileName self,
        rectangles self = rects ->
        endswith fileName ".json" = false ->
        endswith fileName ".txt" = true ->
        written (saveRectangles fileName self)
        = [(fileName, Text (String.concat "" (map txt_line rects)))]).
Proof.
  intros Hall Hi. cbn zeta.
  assert (Hn : normalized rect).
  { rewrite Forall_forall in Hall. apply Hall. eapply nth_error_In, Hi. }
  destruct (normalized_min_max rect Hn) as (Ht & Hl & Hb & Hr).
  split; [| split; [| split]].
  - rewrite (nth_rects_data rects i rect Hi), Ht, Hl, Hb, Hr. reflexivity.
  - rewrite nth_error_map, Hi. cbn [option_map].
    rewrite line_fields_txt_line. reflexivity.
  - intros fileName self <- Hj Ht'. unfold saveRectangles. rewrite Hj, Ht'. reflexivity.
  - intros fileName self <- Hj Ht'. unfold saveRectangles. rewrite Hj, Ht'. reflexivity.
Qed.

(** ** Pointer events outside the label *)

Lemma mouseMove_outside (vp : Viewport) (pos : QPoint) (self : ImageLabeler) :
  rect_contains (label_width vp) (label_height vp) pos = false ->
  mouseMoveEvent vp pos self = returning (set_mousePosLabel "Mouse Pos:" self).
Proof.
  intros Hout. unfold mouseMoveEvent. rewrite Hout.
  destruct (scaled_img self); reflexivity.
Qed.

(** A release whose first stage raises keeps the end point it had. *)
Lemma mouseRelease_convert_raises (vp : Viewport) (pos : QPoint) (e : exn)
    (self : ImageLabeler) :
  is_drawing self = true ->
  convertToOriginalImageCoords vp self (offset_cursor pos) = Raise e ->
  let o := mouseReleaseEvent vp LeftButton pos self in
  raised o = Some e /\ end_point (post o) = end_point self.
Proof.
  intros Hd Hc. unfold offset_cursor in Hc.
  unfold mouseReleaseEvent. rewrite Hd. cbn [is_left andb].
  change (convertToOriginalImageCoords vp (set_is_drawing false self))
    with (convertToOriginalImageCoords vp self).
  rewrite Hc. cbn. split; reflexivity.
Qed.

(** C9, as the code has it.  While a drag is in progress, a pointer move
    outside the label is ignored: it raises nothing and the start point,
    the end point, the drawing flag and the committed list stay as they
    were.  A release of the primary button is not: whatever its position,
    inside the label or not, the handler ends the drag and maps that
    position into the image.  When the mapping returns, the end point
    becomes the point it returned; when it raises, the handler raises the
    same exception and commits nothing, and the end point is the old one
    when it was [convertToOriginalImageCoords] that raised. *)
Theorem move_outside_ignored_release_recomputes (vp : Viewport)
    (outside released : QPoint) (self : ImageLabeler) :
  is_drawing self = true ->
  rect_contains (label_width vp) (label_height vp) outside = false ->
  (raised (mouseMoveEvent vp outside self) = None
   /\ end_point (post (mouseMoveEvent vp outside self)) = end_point self
   /\ start_point (post (mouseMoveEvent vp outside self)) = start_point self
   /\ is_drawing (post (mouseMoveEvent vp outside self)) = true
   /\ rectangles (post (mouseMoveEvent vp outside self)) = rectangles self)
  /\ is_drawing (post (mouseReleaseEvent vp LeftButton released self)) = false
  /\ match toOriginal vp self (offset_cursor released) with
     | Ok p =>
         raised (mouseReleaseEvent vp LeftButton released self) = None
         /\ end_point (post (mouseReleaseEvent vp LeftButton released self)) = p
     | Raise e =>
         raised (mouseReleaseEvent vp LeftButton released self) = Some e
         /\ rectangles (post (mouseReleaseEvent vp LeftButton released self))
            = rectangles self
     end
  /\ (forall e,
        convertToOriginalImageCoords vp self (offset_cursor released) = Raise e ->
        end_point (post (mouseReleaseEvent vp LeftButton released self))
        = end_point self).
Proof.
  intros Hd Hout. split; [| split; [| split]].
  - rewrite (mouseMove_outside vp outside self Hout). cbn.
    repeat split; try reflexivity. exact Hd.
  - destruct (toOriginal vp self (offset_cursor released)) as [p | e] eqn:Hp.
    + apply (mouseRelease_drag vp released p self Hd Hp).
    + apply (mouseRelease_raises vp released e self Hd Hp).
  - destruct (toOriginal vp self (offset_cursor released)) as [p | e] eqn:Hp.
    + destruct (mouseRelease_drag vp released p self Hd Hp) as (Hr & _ & He & _).
      split; assumption.
    + destruct (mouseRelease_raises vp released e self Hd Hp) as (Hr & _ & _ & Hl).
      split; assumption.
  - intros e Hc. apply (mouseRelease_convert_raises vp released e self Hd Hc).
Qed.


(** ** The outcome of a load *)

Lemma np_array_rectangular (matrix a : list (list float64)) :
  np_array matrix = Ok (Array2 a) ->
  a = matrix
  /\ matrix <> []
  /\ rows_of_length (length (hd [] matrix)) matrix.
Proof.
  unfold np_array. destruct matrix as [| row rest]; [discriminate |].
  destruct (forallb _ rest) eqn:Hall; [| discriminate].
  intros E. injection E as <-. split; [reflexivity |]. split; [discriminate |].
  cbn [hd]. constructor; [reflexivity |].
  apply Forall_forall. intros r Hr.
  rewrite forallb_forall in Hall. apply Nat.eqb_eq, Hall, Hr.
Qed.

Lemma rows_of_length_map {A B : Type} (f : list A -> list B) (n k : nat)
    (m : list (list A)) :
  (forall row, length row = n -> length (f row) = k) ->
  rows_of_length n m -> rows_of_length k (map f m).
Proof.
  intros Hf H. unfold rows_of_length in *. rewrite Forall_map.
  eapply Forall_impl; [| exact H]. exact Hf.
Qed.

Lemma load_matrix_rectangular (lines : list string) (a : list (list float64)) :
  load_matrix_from_txt lines = Ok (Array2 a) ->
  a <> [] /\ rows_of_length (length (hd [] a)) a.
Proof.
  unfold load_matrix_from_txt.
  destruct (traverse _ lines) as [matrix |]; cbn [bind]; [| discriminate].
  intros H. apply np_array_rectangular in H. destruct H as (-> & Hne & Hrows).
  split; assumption.
Qed.

Lemma rows_nonempty {A : Type} (n : nat) (m : list (list A)) :
  rows_of_length n m -> concat m <> [] -> (1 <= n)%nat.
Proof.
  intros Hrows Hc. destruct n as [| n]; [| lia].
  exfalso. apply Hc. induction Hrows as [| row m Hrow _ IH]; [reflexivity |].
  cbn. destruct row; [| discriminate]. apply IH. intros E. apply Hc. cbn. exact E.
Qed.

(** The image [loadImage] stores for a matrix of rank two with extremes
    [mn] and [mx]. *)
Lemma loadImage_matrix_rank2_state (a : list (list float64)) (mn mx : float64)
    (self : ImageLabeler) :
  normalize (Array2 a)
  = Ok (Array2 (map (map (fun v => ((v - mn) / (mx - mn))%float)) a)) ->
  let m :=
    map (map (fun v => [astype_uint8 ((v - mn) / (mx - mn) * 255)%float; 0; 0])) a in
  let o := mkQPixmap (Z.of_nat (length (hd [] a))) (Z.of_nat (length a)) in
  loadImage_matrix (Array2 a) self
  = returning
      (set_scaled_img (Some (scaled o (size o) (current_scale self)))
         (set_scaled_img (Some o)
            (set_original_img_size (Some (size o))
               (set_original_img (Some o) (set_meta_img (Some m) self))))).
Proof.
  intros Hn. cbn zeta. unfold loadImage_matrix. rewrite Hn. cbn [branch_of shape].
  rewrite promote_rank2. cbn zeta.
  cbn [original_img set_original_img set_meta_img set_original_img_size
       set_scaled_img option_map].
  unfold displayImage. cbn.
  unfold to_uint8. rewrite !map_map.
  assert (E : map (fun row : list float64 =>
                     map (map (fun v => astype_uint8 (v * 255)%float))
                       (map (fun v => [v; 0%float; 0%float])
                          (map (fun v => ((v - mn) / (mx - mn))%float) row))) a
              = map (map (fun v =>
                            [astype_uint8 ((v - mn) / (mx - mn) * 255)%float;
                             0; 0])) a).
  { apply map_ext. intros row. rewrite !map_map. apply map_ext. intros v. reflexivity. }
  rewrite E. rewrite !length_map.
  destruct a as [| row rest]; cbn [hd map]; rewrite ?length_map; reflexivity.
Qed.

(** A load is cancelled, or fails and raises, or stores the image of a
    rectangular matrix that has an element; in the first two cases the
    object is as it was. *)
Lemma loadImage_cases (filePath : string) (lines : list string) (self : ImageLabeler) :
  loadImage filePath lines self = returning self
  \/ (exists e, loadImage filePath lines self = raising e self)
  \/ (exists a mn mx,
        filePath <> ""
        /\ load_matrix_from_txt lines = Ok (Array2 a)
        /\ a <> []
        /\ rows_of_length (length (hd [] a)) a
        /\ (1 <= length (hd [] a))%nat
        /\ np_min (Array2 a) = Ok mn
        /\ np_max (Array2 a) = Ok mx
        /\ let m :=
             map (map (fun v =>
                         [astype_uint8 ((v - mn) / (mx - mn) * 255)%float; 0; 0])) a in
           let o := mkQPixmap (Z.of_nat (length (hd [] a))) (Z.of_nat (length a)) in
           loadImage filePath lines self
           = returning
               (set_scaled_img (Some (scaled o (size o) (current_scale self)))
                  (set_scaled_img (Some o)
                     (set_original_img_size (Some (size o))
                        (set_original_img (Some o) (set_meta_img (Some m) self)))))).
Proof.
  destruct filePath as [| c fp] eqn:Ep; [left; reflexivity |].
  destruct (load_matrix_from_txt lines) as [mat | e] eqn:Hl.
  2:{ right. left. exists e. unfold loadImage. rewrite Hl. reflexivity. }
  assert (Hp : String c fp <> "") by discriminate.
  rewrite (loadImage_loaded _ lines mat self Hp Hl).
  destruct (load_matrix_rank lines mat Hl) as [[_ ->] | (_ & a & -> & _)].
  - right. left. exists ValueError. reflexivity.
  - destruct (load_matrix_rectangular lines a Hl) as [Hne Hrows].
    destruct (concat a) as [| v vs] eqn:Hc.
    + right. left. exists ValueError. unfold loadImage_matrix, normalize, np_min.
      rewrite reduce_raises by exact Hc. reflexivity.
    + assert (Hc' : concat a <> []) by (rewrite Hc; discriminate).
      destruct (normalize_rank2 a Hc') as (mn & mx & Hmn & Hmx & Hn).
      right. right. exists a, mn, mx.
      repeat split; try assumption.
      * exact (rows_nonempty _ a Hrows Hc').
      * apply (loadImage_matrix_rank2_state a mn mx self Hn).
Qed.


(** ** What every reachable object satisfies *)

Lemma cropPoint_nonneg (self : ImageLabeler) (p q : QPoint) :
  cropPoint self p = Ok q -> nonneg_point q.
Proof.
  unfold cropPoint. destruct (original_img self); [| discriminate].
  intros E. injection E as <-. unfold nonneg_point. cbn. lia.
Qed.

Lemma cropPoint_returns (self : ImageLabeler) (p : QPoint) :
  original_img self <> None -> exists q, cropPoint self p = Ok q.
Proof.
  unfold cropPoint. destruct (original_img self); [| contradiction].
  intros _. eexists. reflexivity.
Qed.

Lemma agree_original_of_scaled (self : ImageLabeler) :
  image_attributes_agree self -> scaled_img self <> None -> original_img self <> None.
Proof.
  unfold image_attributes_agree. destruct (original_img self); [discriminate |].
  intros (_ & _ & Hs) H. contradiction.
Qed.

Lemma toTLBR_nonneg (p q : QPoint) :
  nonneg_point p -> nonneg_point q ->
  nonneg_point (fst (toTLBR p q)) /\ nonneg_point (snd (toTLBR p q)).
Proof. unfold nonneg_point, toTLBR. cbn. lia. Qed.

Lemma toTLBR_area (p q : QPoint) : rect_area (toTLBR p q) = drag_area p q.
Proof.
  unfold rect_area, toTLBR, drag_area. cbn.
  replace (Z.max (x p) (x q) - Z.min (x p) (x q)) with (Z.abs (x q - x p)) by lia.
  replace (Z.max (y p) (y q) - Z.min (y p) (y q)) with (Z.abs (y q - y p)) by lia.
  reflexivity.
Qed.

Lemma same_images_agree (self' self : ImageLabeler) :
  same_images self' self -> image_attributes_agree self ->
  image_attributes_agree self'.
Proof.
  intros (H1 & H2 & H3 & H4 & H5). unfold image_attributes_agree.
  rewrite H1, H2, H3, H4, H5. exact (fun H => H).
Qed.

Lemma undo_same_images (self : ImageLabeler) :
  same_images (post (undoLastRectangle self)) self.
Proof. unfold undoLastRectangle. case_split; cbn; repeat split; reflexivity. Qed.

Lemma save_same_images (fileName : string) (self : ImageLabeler) :
  same_images (post (saveRectangles fileName self)) self.
Proof.
  unfold saveRectangles.
  destruct (endswith fileName ".json"); destruct (endswith fileName ".txt");
    cbn; repeat split; reflexivity.
Qed.

Lemma mouseMove_same_images (vp : Viewport) (pos : QPoint) (self : ImageLabeler) :
  same_images (post (mouseMoveEvent vp pos self)) self.
Proof. unfold mouseMoveEvent. case_split; cbn; repeat split; assumption || reflexivity. Qed.

Lemma mousePress_same_images (vp : Viewport) (button : MouseButton) (pos : QPoint)
    (self : ImageLabeler) :
  same_images (post (mousePressEvent vp button pos self)) self.
Proof. unfold mousePressEvent. case_split; cbn; repeat split; assumption || reflexivity. Qed.

Lemma mouseRelease_same_images (vp : Viewport) (button : MouseButton) (pos : QPoint)
    (self : ImageLabeler) :
  same_images (post (mouseReleaseEvent vp button pos self)) self.
Proof. unfold mouseReleaseEvent. case_split; cbn; repeat split; assumption || reflexivity. Qed.


Lemma loadImage_keeps_agree (filePath : string) (lines : list string)
    (self : ImageLabeler) :
  image_attributes_agree self ->
  image_attributes_agree (post (loadImage filePath lines self)).
Proof.
  intros Hag.
  destruct (loadImage_cases filePath lines self)
    as [E | [[e E] | (a & mn & mx & _ & _ & Hne & Hrows & Hn & _ & _ & E)]].
  - rewrite E. exact Hag.
  - rewrite E. exact Hag.
  - cbn zeta in E. rewrite E. clear E. unfold image_attributes_agree. cbn.
    split; [lia |]. split; [destruct a; [contradiction | cbn; lia] |].
    split; [reflexivity |]. split; [reflexivity |].
    eexists. split; [reflexivity |]. rewrite length_map. split; [reflexivity |].
    rewrite Nat2Z.id. split.
    + apply (rows_of_length_map _ (length (hd [] a)) (length (hd [] a)) a);
        [intros row Hr; rewrite length_map; exact Hr | exact Hrows].
    + apply Forall_map. apply Forall_forall. intros row _.
      unfold rows_of_length. apply Forall_map. apply Forall_forall. intros v _.
      reflexivity.
Qed.

Lemma scaleImage_keeps_agree (value : Z) (self : ImageLabeler) :
  image_attributes_agree self ->
  image_attributes_agree (post (scaleImage value self)).
Proof.
  unfold image_attributes_agree, scaleImage, displayImage. cbn.
  destruct (original_img self) as [o |] eqn:Ho.
  - intros (Hw & Hh & Hs & Hsc & m & Hm & Hrest). rewrite Hsc, Hs. cbn.
    rewrite Ho. repeat split; try assumption. exists m. split; assumption.
  - intros H. cbn. rewrite Ho. exact H.
Qed.

Lemma handle_keeps_agree (ev : event) (self : ImageLabeler) :
  image_attributes_agree self ->
  image_attributes_agree (post (handle ev self)).
Proof.
  intros Hag. destruct ev; cbn [handle].
  - apply loadImage_keeps_agree, Hag.
  - exact (same_images_agree _ _ (undo_same_images self) Hag).
  - exact (same_images_agree _ _ (save_same_images fileName self) Hag).
  - apply scaleImage_keeps_agree, Hag.
  - exact (same_images_agree _ _ (mouseMove_same_images vp pos self) Hag).
  - exact (same_images_agree _ _ (mousePress_same_images vp button pos self) Hag).
  - exact (same_images_agree _ _ (mouseRelease_same_images vp button pos self) Hag).
Qed.

Lemma run_keeps_agree (evs : list event) (self : ImageLabeler) :
  image_attributes_agree self -> image_attributes_agree (run evs self).
Proof.
  revert self. induction evs as [| ev evs IH]; intros self H; [exact H |].
  change (run (ev :: evs) self) with (run evs (post (handle ev self))).
  apply IH, handle_keeps_agree, H.
Qed.

Lemma init_agree : image_attributes_agree init.
Proof. cbn. repeat split; reflexivity. Qed.


Ltac session_split := split; [| split; [| split; [| split; [| split]]]].

Lemma undo_keeps_session (self : ImageLabeler) :
  session_consistent self -> session_consistent (post (undoLastRectangle self)).
Proof.
  unfold session_consistent, undoLastRectangle.
  intros (Hd & Hs & He & Hn & Ha & Hr).
  destruct (0 <? length (rectangles self))%nat; cbn.
  - session_split; try assumption; try reflexivity; apply pop_Forall; assumption.
  - session_split; assumption.
Qed.

Lemma save_keeps_session (fileName : string) (self : ImageLabeler) :
  session_consistent self -> session_consistent (post (saveRectangles fileName self)).
Proof.
  unfold session_consistent, saveRectangles.
  destruct (endswith fileName ".json"); destruct (endswith fileName ".txt");
    cbn; exact (fun H => H).
Qed.

Lemma loadImage_keeps_session (filePath : string) (lines : list string)
    (self : ImageLabeler) :
  session_consistent self -> session_consistent (post (loadImage filePath lines self)).
Proof.
  intros Hs.
  destruct (loadImage_cases filePath lines self)
    as [E | [[e E] | (a & mn & mx & _ & _ & _ & _ & _ & _ & _ & E)]].
  - rewrite E. exact Hs.
  - rewrite E. exact Hs.
  - cbn zeta in E. rewrite E. clear E.
    unfold session_consistent in *. cbn.
    destruct Hs as (_ & H). split; [discriminate | exact H].
Qed.

Lemma scaleImage_keeps_session (value : Z) (self : ImageLabeler) :
  session_consistent self -> session_consistent (post (scaleImage value self)).
Proof.
  unfold session_consistent, scaleImage, displayImage.
  intros (Hd & H). cbn.
  destruct (original_img self); cbn; [| split; assumption].
  destruct (scaled_img self) eqn:Hsc; cbn; [| rewrite Hsc; split; assumption].
  destruct (original_img_size self); cbn; (split; [| exact H]).
  - discriminate.
  - rewrite Hsc. discriminate.
Qed.

Lemma mouseMove_keeps_session (vp : Viewport) (pos : QPoint) (self : ImageLabeler) :
  session_consistent self -> session_consistent (post (mouseMoveEvent vp pos self)).
Proof.
  unfold session_consistent, mouseMoveEvent.
  intros (Hd & Hs & He & Hn & Ha & Hr).
  destruct (scaled_img self) as [sc |] eqn:Hsc; cbn; rewrite ?Hsc;
    [| session_split; assumption].
  destruct (rect_contains _ _ pos); cbn; rewrite ?Hsc; [| session_split; assumption].
  destruct (convertToOriginalImageCoords vp self _) as [cp |]; cbn; rewrite ?Hsc;
    [| session_split; assumption].
  destruct (cropPoint self cp) as [cq |] eqn:Hq; cbn; rewrite ?Hsc;
    [| session_split; assumption].
  destruct (is_drawing self) eqn:Hdr; cbn; rewrite ?Hsc, ?Hdr;
    session_split; try assumption; apply (cropPoint_nonneg self cp cq Hq).
Qed.

Lemma mousePress_keeps_session (vp : Viewport) (button : MouseButton) (pos : QPoint)
    (self : ImageLabeler) :
  image_attributes_agree self ->
  session_consistent self ->
  session_consistent (post (mousePressEvent vp button pos self)).
Proof.
  unfold session_consistent, mousePressEvent.
  intros Hag (Hd & Hs & He & Hn & Ha & Hr).
  destruct (is_left button); cbn; [| session_split; assumption].
  assert (Ho : scaled_img self <> None -> original_img self <> None).
  { apply agree_original_of_scaled. exact Hag. }
  destruct (scaled_img self) as [sc |] eqn:Hsc; cbn; rewrite ?Hsc;
    [| session_split; assumption].
  specialize (Ho ltac:(discriminate)).
  destruct (rect_contains _ _ pos); cbn; rewrite ?Hsc; [| session_split; assumption].
  destruct (convertToOriginalImageCoords vp _ _) as [cp |]; cbn; rewrite ?Hsc;
    [| session_split; try assumption; discriminate].
  change (cropPoint (set_start_point cp (set_is_drawing true self)) cp)
    with (cropPoint self cp).
  destruct (cropPoint_returns self cp Ho) as [cq Hq]. rewrite Hq. cbn. rewrite ?Hsc.
  pose proof (cropPoint_nonneg self cp cq Hq).
  session_split; try assumption; discriminate.
Qed.

Lemma mouseRelease_keeps_session (vp : Viewport) (button : MouseButton) (pos : QPoint)
    (self : ImageLabeler) :
  image_attributes_agree self ->
  session_consistent self ->
  session_consistent (post (mouseReleaseEvent vp button pos self)).
Proof.
  unfold session_consistent, mouseReleaseEvent.
  intros Hag (Hd & Hs & He & Hn & Ha & Hr).
  destruct (is_left button); cbn [andb]; [| cbn; session_split; assumption].
  destruct (is_drawing self) eqn:Hdr; [| cbn; rewrite Hdr; session_split; assumption].
  assert (Ho : original_img self <> None).
  { apply agree_original_of_scaled; [exact Hag | apply Hd; reflexivity]. }
  destruct (convertToOriginalImageCoords vp _ _) as [cp |]; cbn;
    [| session_split; try assumption; discriminate].
  change (cropPoint (set_end_point cp (set_is_drawing false self)) cp)
    with (cropPoint self cp).
  destruct (cropPoint_returns self cp Ho) as [cq Hq]. rewrite Hq.
  cbn -[toTLBR rect_area rect2Text Z.abs Z.mul Z.sub].
  pose proof (cropPoint_nonneg self cp cq Hq) as Hqn.
  destruct (_ >? _) eqn:Hgt; cbn -[toTLBR rect_area rect2Text Z.abs Z.mul Z.sub].
  - session_split; try assumption; try discriminate; try reflexivity.
    + apply Forall_app. split; [assumption |].
      constructor; [apply toTLBR_nonneg; assumption | constructor].
    + apply Forall_app. split; [assumption |].
      constructor; [| constructor].
      change (min_rect_area self < rect_area (toTLBR (start_point self) cq)).
      rewrite toTLBR_area. unfold drag_area.
      apply Z.gtb_lt in Hgt. exact Hgt.
  - session_split; try assumption; try discriminate; reflexivity.
Qed.

Lemma handle_keeps_session (ev : event) (self : ImageLabeler) :
  image_attributes_agree self ->
  session_consistent self ->
  session_consistent (post (handle ev self)).
Proof.
  intros Hag Hs. destruct ev; cbn [handle].
  - apply loadImage_keeps_session, Hs.
  - apply undo_keeps_session, Hs.
  - apply save_keeps_session, Hs.
  - apply scaleImage_keeps_session, Hs.
  - apply mouseMove_keeps_session, Hs.
  - apply mousePress_keeps_session; assumption.
  - apply mouseRelease_keeps_session; assumption.
Qed.

Lemma run_keeps_both (evs : list event) (self : ImageLabeler) :
  image_attributes_agree self ->
  session_consistent self ->
  image_attributes_agree (run evs self) /\ session_consistent (run evs self).
Proof.
  revert self. induction evs as [| ev evs IH]; intros self Hag Hs; [split; assumption |].
  change (run (ev :: evs) self) with (run evs (post (handle ev self))).
  apply IH; [apply handle_keeps_agree | apply handle_keeps_session]; assumption.
Qed.

Lemma init_session : session_consistent init.
Proof.
  unfold session_consistent, nonneg_point. cbn.
  session_split; try (split; lia); try constructor; try reflexivity. discriminate.
Qed.

Lemma reachable_consistent (evs : list event) :
  image_attributes_agree (run evs init) /\ session_consistent (run evs init).
Proof. apply run_keeps_both; [exact init_agree | exact init_session]. Qed.



(** X1.  After any sequence of events on a new object the four image
    attributes fit each other: either no image was ever loaded and
    [meta_img], [original_img], [original_img_size] and [scaled_img] are all
    [None], or all four are set, the original pixmap is at least one pixel
    wide and high and has the columns and rows of the stored three-channel
    image, and the scaled pixmap is the original one scaled by the current
    zoom factor: the zoom chosen before a load is applied to the image
    loaded after it. *)
Theorem reachable_images_agree (evs : list event) :
  image_attributes_agree (run evs init)
  /\ (scaled_img (run evs init) = None <-> original_img (run evs init) = None)
  /\ (meta_img (run evs init) = None <-> original_img (run evs init) = None).
Proof.
  destruct (reachable_consistent evs) as [Hag _].
  split; [exact Hag |].
  unfold image_attributes_agree in Hag.
  destruct (original_img (run evs init)) as [o |].
  - destruct Hag as (_ & _ & _ & Hs & m & Hm & _). rewrite Hs, Hm.
    split; split; discriminate.
  - destruct Hag as (Hm & _ & Hs). rewrite Hs, Hm. split; split; reflexivity.
Qed.

(** X2.  Every rectangle in the committed list of a reachable object has
    an area, width times height, above the threshold of 10, and so its
    right side lies strictly right of its left side and its bottom strictly
    below its top: no empty or degenerate rectangle is ever stored. *)
Theorem committed_rectangles_exceed_threshold (evs : list event) :
  Forall
    (fun rect =>
       10 < rect_area rect
       /\ x (fst rect) < x (snd rect)
       /\ y (fst rect) < y (snd rect))
    (rectangles (run evs init)).
Proof.
  destruct (reachable_consistent evs) as [_ (_ & _ & _ & _ & Ha & _)].
  rewrite run_min_rect_area in Ha. change (min_rect_area init) with 10 in Ha.
  assert (Hn : Forall normalized (rectangles (run evs init))).
  { apply run_keeps_normalized. constructor. }
  rewrite Forall_forall in *. intros rect Hin.
  specialize (Ha rect Hin). specialize (Hn rect Hin).
  unfold rect_area in *. unfold normalized in Hn.
  split; [exact Ha |]. nia.
Qed.

(** X3.  No coordinate the object stores is ever negative: the start point
    and the end point of the drag and both corners of every committed
    rectangle have x >= 0 and y >= 0 after any sequence of events, so both
    exports hold non-negative integers only. *)
Theorem stored_coordinates_nonnegative (evs : list event) :
  nonneg_point (start_point (run evs init))
  /\ nonneg_point (end_point (run evs init))
  /\ Forall (fun rect => Forall (fun v => 0 <= v) (txt_fields rect))
       (rectangles (run evs init))
  /\ Forall (fun entry => Forall (fun v => 0 <= v) (tlbw entry))
       (rects_data (rectangles (run evs init))).
Proof.
  destruct (reachable_consistent evs) as [_ (_ & Hs & He & Hn & _)].
  split; [exact Hs |]. split; [exact He |]. split.
  - eapply Forall_impl; [| exact Hn]. intros rect [[H1 H2] [H3 H4]].
    unfold txt_fields. repeat constructor; assumption.
  - unfold rects_data. apply Forall_map. apply Forall_forall. intros [idx rect] Hin.
    assert (Hr : In rect (rectangles (run evs init))).
    { clear - Hin. revert Hin. generalize 1.
      induction (rectangles (run evs init)) as [| r rs IH]; intros start; cbn.
      - contradiction.
      - intros [E | Hin]; [injection E as _ <-; left; reflexivity |].
        right. exact (IH _ Hin). }
    rewrite Forall_forall in Hn. destruct (Hn rect Hr) as [[H1 H2] [H3 H4]].
    cbn. repeat constructor; lia.
Qed.

(** X4.  The record text always shows the committed list: after any
    sequence of events the text of the record widget is [rect2Text] of the
    list, also after an undo and after a drag that was discarded. *)
Theorem record_text_shows_committed_list (evs : list event) :
  recordText (run evs init) = rect2Text (rectangles (run evs init)).
Proof.
  destruct (reachable_consistent evs) as [_ (_ & _ & _ & _ & _ & Hr)]. exact Hr.
Qed.


(** ** The exceptions a reachable object can raise *)

Lemma traverse_raises {A B : Type} (f : A -> result B) (l : list A) (e : exn) :
  traverse f l = Raise e -> exists a, In a l /\ f a = Raise e.
Proof.
  induction l as [| a l IH]; cbn; [discriminate |].
  destruct (f a) as [b | e'] eqn:Ea; cbn [bind].
  - destruct (traverse f l) as [bs | e'']; cbn [bind]; [discriminate |].
    intros E. injection E as ->. destruct (IH eq_refl) as (a' & Hin & Ha').
    exists a'. split; [right |]; assumption.
  - intros E. injection E as ->. exists a. split; [left; reflexivity | exact Ea].
Qed.

Lemma load_matrix_raises (lines : list string) (e : exn) :
  raises_ValueError_only ->
  load_matrix_from_txt lines = Raise e -> e = ValueError.
Proof.
  intros Hf. unfold load_matrix_from_txt.
  destruct (traverse _ lines) as [matrix | e'] eqn:Et; cbn [bind].
  - unfold np_array. destruct matrix as [| row rest]; [discriminate |].
    destruct (forallb _ rest); [discriminate |]. intros E. injection E as <-. reflexivity.
  - intros E. injection E as ->.
    apply traverse_raises in Et. destruct Et as (line & _ & Hl).
    apply traverse_raises in Hl. destruct Hl as (token & _ & Ht).
    exact (Hf token e Ht).
Qed.

Lemma loadImage_raises (filePath : string) (lines : list string) (self : ImageLabeler)
    (e : exn) :
  raises_ValueError_only ->
  raised (loadImage filePath lines self) = Some e -> e = ValueError.
Proof.
  intros Hf. unfold loadImage.
  destruct (String.length filePath =? 0)%nat; [discriminate |].
  destruct (load_matrix_from_txt lines) as [mat | e'] eqn:Hl.
  - destruct (load_matrix_rank lines mat Hl) as [[_ ->] | (_ & a & -> & _)].
    + cbn. intros H. injection H as <-. reflexivity.
    + destruct (concat a) as [| v vs] eqn:Hc.
      * unfold loadImage_matrix, normalize, np_min.
        rewrite reduce_raises by exact Hc. cbn.
        intros H. injection H as <-. reflexivity.
      * assert (Hc' : concat a <> []) by (rewrite Hc; discriminate).
        destruct (normalize_rank2 a Hc') as (mn & mx & _ & _ & Hn).
        destruct (loadImage_matrix_rank2 a _ self Hn) as [-> _]. discriminate.
  - cbn. intros H. injection H as <-. exact (load_matrix_raises lines e' Hf Hl).
Qed.

Lemma scaleImage_returns (value : Z) (self : ImageLabeler) :
  image_attributes_agree self -> raised (scaleImage value self) = None.
Proof.
  unfold image_attributes_agree, scaleImage, displayImage. cbn.
  destruct (original_img self) as [o |].
  - intros (_ & _ & Hs & Hsc & _). rewrite Hsc, Hs. reflexivity.
  - intros _. reflexivity.
Qed.

Lemma convert_raises (vp : Viewport) (self : ImageLabeler) (pos : QPoint) (e : exn) :
  image_attributes_agree self ->
  convertToOriginalImageCoords vp self pos = Raise e -> mapping_exception e.
Proof.
  unfold image_attributes_agree, convertToOriginalImageCoords, truediv, mapping_exception.
  destruct (original_img self) as [o |].
  - intros (_ & _ & _ & -> & _).
    destruct (QPoint_of_floats _ _) as [c | e1] eqn:E1; cbn [bind].
    + destruct (_ =? 0); cbn [bind]; [intros E; injection E as <-; left; reflexivity |].
      destruct (_ =? 0); cbn [bind]; [intros E; injection E as <-; left; reflexivity |].
      intros E. right. eauto.
    + intros E. injection E as <-. right. eauto.
  - intros (_ & _ & ->). cbn. discriminate.
Qed.

Lemma mouse_raises (ev : event) (self : ImageLabeler) (e : exn) :
  image_attributes_agree self ->
  session_consistent self ->
  match ev with
  | MouseMove _ _ | MousePress _ _ _ | MouseRelease _ _ _ => True
  | _ => False
  end ->
  raised (handle ev self) = Some e -> mapping_exception e.
Proof.
  intros Hag (Hd & _) Hev.
  assert (Ho : scaled_img self <> None -> original_img self <> None).
  { apply agree_original_of_scaled. exact Hag. }
  destruct ev; try contradiction; cbn [handle].
  - unfold mouseMoveEvent.
    destruct (scaled_img self) as [sc |]; [| discriminate].
    specialize (Ho ltac:(discriminate)).
    destruct (rect_contains _ _ pos); [| discriminate].
    destruct (convertToOriginalImageCoords vp self _) as [cp | e'] eqn:Hc.
    + destruct (cropPoint_returns self cp Ho) as [cq ->].
      cbn. destruct (is_drawing self); cbn; discriminate.
    + cbn. intros E. injection E as <-. exact (convert_raises _ _ _ _ Hag Hc).
  - unfold mousePressEvent.
    destruct (is_left button); [| discriminate].
    destruct (scaled_img self) as [sc |]; [| discriminate].
    specialize (Ho ltac:(discriminate)).
    destruct (rect_contains _ _ pos); [| discriminate].
    change (convertToOriginalImageCoords vp (set_is_drawing true self))
      with (convertToOriginalImageCoords vp self).
    destruct (convertToOriginalImageCoords vp self _) as [cp | e'] eqn:Hc.
    + cbn zeta.
      change (cropPoint (set_start_point cp (set_is_drawing true self))
                (start_point (set_start_point cp (set_is_drawing true self))))
        with (cropPoint self cp).
      destruct (cropPoint_returns self cp Ho) as [cq ->]. discriminate.
    + cbn. intros E. injection E as <-. exact (convert_raises _ _ _ _ Hag Hc).
  - unfold mouseReleaseEvent.
    destruct (is_left button); cbn [andb]; [| discriminate].
    destruct (is_drawing self); [| discriminate].
    specialize (Ho (Hd eq_refl)).
    change (convertToOriginalImageCoords vp (set_is_drawing false self))
      with (convertToOriginalImageCoords vp self).
    destruct (convertToOriginalImageCoords vp self _) as [cp | e'] eqn:Hc.
    + cbn zeta.
      change (cropPoint (set_end_point cp (set_is_drawing false self))
                (end_point (set_end_point cp (set_is_drawing false self))))
        with (cropPoint self cp).
      destruct (cropPoint_returns self cp Ho) as [cq ->]. discriminate.
    + cbn. intros E. injection E as <-. exact (convert_raises _ _ _ _ Hag Hc).
Qed.

(** X5.  When the parser refuses a token with ValueError, as Python's
    [float] does, the only exceptions an event can raise on an object that
    was built by [__init__] and driven by events are these: a load raises
    ValueError (a token that is no number, lines of different lengths, a
    file without a number), a mouse event raises ZeroDivisionError (the
    scaled pixmap is empty) or the exception the constructor of a point
    raised on two floats, and undo, save and the zoom slider raise nothing.
    The read of the missing [statusLabel] and the use of a missing pixmap
    are not reachable.  (Failures of the file system while a file is read
    or written are no part of the model.) *)
Theorem reachable_exceptions (evs : list event) (ev : event) (e : exn) :
  raises_ValueError_only ->
  raised (handle ev (run evs init)) = Some e ->
  match ev with
  | LoadClicked _ _ => e = ValueError
  | MouseMove _ _ | MousePress _ _ _ | MouseRelease _ _ _ => mapping_exception e
  | UndoClicked | SaveClicked _ | SliderMoved _ => False
  end.
Proof.
  intros Hf. destruct (reachable_consistent evs) as [Hag Hs].
  destruct ev; cbn [handle].
  - apply loadImage_raises, Hf.
  - destruct (undo_frame (run evs init)) as [-> _]. discriminate.
  - destruct (saveRectangles_frame fileName (run evs init)) as [-> _]. discriminate.
  - rewrite (scaleImage_returns value _ Hag). discriminate.
  - exact (mouse_raises (MouseMove vp pos) _ e Hag Hs I).
  - exact (mouse_raises (MousePress vp button pos) _ e Hag Hs I).
  - exact (mouse_raises (MouseRelease vp button pos) _ e Hag Hs I).
Qed.


(** ** Loads that fail and loads that succeed *)

(** X6.  A load that is cancelled in the dialog or that raises leaves the
    object exactly as it was and writes no file: no attribute is changed
    half-way through, the image shown before stays the current one. *)
Theorem failed_load_changes_nothing (filePath : string) (lines : list string)
    (self : ImageLabeler) :
  filePath = "" \/ raised (loadImage filePath lines self) <> None ->
  post (loadImage filePath lines self) = self
  /\ written (loadImage filePath lines self) = [].
Proof.
  intros H.
  destruct (loadImage_cases filePath lines self)
    as [E | [[e E] | (a & mn & mx & Hp & _ & _ & _ & _ & _ & _ & E)]].
  - rewrite E. split; reflexivity.
  - rewrite E. split; reflexivity.
  - cbn zeta in E. rewrite E in H. destruct H as [H | H]; [contradiction |].
    cbn in H. contradiction.
Qed.

Lemma load_first_row (line : string) (lines : list string) (a : list (list float64)) :
  load_matrix_from_txt (line :: lines) = Ok (Array2 a) ->
  length (hd [] a) = length (split line) /\ length a = S (length lines).
Proof.
  intros Hl. split.
  - unfold load_matrix_from_txt in Hl. cbn [traverse] in Hl.
    destruct (traverse float (split line)) as [row |] eqn:Hr; cbn [bind] in Hl;
      [| discriminate].
    destruct (traverse _ lines) as [rest |]; cbn [bind] in Hl; [| discriminate].
    apply np_array_rectangular in Hl. destruct Hl as (-> & _).
    cbn [hd].
    apply traverse_length, Forall2_length in Hr. symmetry. exact Hr.
  - destruct (load_matrix_rank _ _ Hl) as [[E _] | (_ & a' & E & Hlen)];
      [discriminate |].
    injection E as <-. exact Hlen.
Qed.

(** X7.  Loading a well-formed file whose first line holds a number
    succeeds, and the image has one column per number of a line and one
    row per line: the original pixmap is as wide as a line has numbers
    and as high as the file has lines, the stored image has that many rows
    and columns of three channels each, and the scaled pixmap is the
    original one scaled by the zoom factor current at the load. *)
Theorem loaded_image_has_matrix_dimensions (filePath line : string)
    (lines : list string) (self : ImageLabeler) :
  filePath <> "" ->
  well_formed (line :: lines) ->
  split line <> [] ->
  let outcome := loadImage filePath (line :: lines) self in
  let o :=
    mkQPixmap (Z.of_nat (length (split line))) (Z.of_nat (S (length lines))) in
  raised outcome = None
  /\ original_img (post outcome) = Some o
  /\ original_img_size (post outcome) = Some (size o)
  /\ scaled_img (post outcome) = Some (scaled o (size o) (current_scale self))
  /\ exists m,
      meta_img (post outcome) = Some m
      /\ length m = S (length lines)
      /\ rows_of_length (length (split line)) m
      /\ Forall (rows_of_length 3) m.
Proof.
  intros Hp Hwf Htok. cbn zeta.
  destruct (load_matrix_returns _ Hwf) as [mat Hl].
  destruct (load_matrix_rank _ _ Hl) as [[E _] | (_ & a & -> & _)]; [discriminate |].
  destruct (load_first_row line lines a Hl) as [Hcols Hrows].
  destruct (load_matrix_rectangular _ a Hl) as [Hne Hrect].
  assert (Hc : concat a <> []).
  { destruct a as [| row rest]; [contradiction |]. cbn [hd] in Hcols.
    destruct row; [| discriminate].
    cbn in Hcols. destruct (split line); [contradiction | discriminate]. }
  destruct (normalize_rank2 a Hc) as (mn & mx & _ & _ & Hn).
  rewrite (loadImage_loaded filePath _ _ self Hp Hl).
  rewrite (loadImage_matrix_rank2_state a mn mx self Hn). cbn.
  rewrite Hcols, Hrows. repeat split.
  eexists. split; [reflexivity |]. rewrite length_map. split; [exact Hrows |]. split.
  - rewrite <- Hcols.
    apply (rows_of_length_map _ (length (hd [] a)) (length (hd [] a)) a);
      [intros row Hr; rewrite length_map; exact Hr | exact Hrect].
  - apply Forall_map. apply Forall_forall. intros row _.
    unfold rows_of_length. apply Forall_map. apply Forall_forall. intros v _.
    reflexivity.
Qed.


(** ** What a drag needs *)

Lemma no_load_step (ev : event) (self : ImageLabeler) :
  is_load ev = false ->
  scaled_img self = None /\ is_drawing self = false /\ rectangles self = [] ->
  scaled_img (post (handle ev self)) = None
  /\ is_drawing (post (handle ev self)) = false
  /\ rectangles (post (handle ev self)) = [].
Proof.
  intros Hev (Hs & Hd & Hr). destruct ev; try discriminate; cbn [handle].
  - unfold undoLastRectangle. rewrite Hr. cbn. auto.
  - destruct (saveRectangles_frame fileName self) as (_ & E1 & _ & _ & E2 & _).
    destruct (save_same_images fileName self) as (_ & _ & _ & E3 & _).
    rewrite E1, E2, E3. auto.
  - unfold scaleImage, displayImage. cbn. rewrite Hs.
    destruct (original_img self); cbn; auto.
  - unfold mouseMoveEvent. rewrite Hs. cbn. auto.
  - unfold mousePressEvent. rewrite Hs. destruct (is_left button); cbn; auto.
  - unfold mouseReleaseEvent. rewrite Hd, andb_false_r. cbn. auto.
Qed.

Lemma no_press_step (ev : event) (self : ImageLabeler) :
  is_press ev = false ->
  is_drawing self = false /\ rectangles self = [] ->
  is_drawing (post (handle ev self)) = false
  /\ rectangles (post (handle ev self)) = [].
Proof.
  intros Hev (Hd & Hr). destruct ev; try discriminate; cbn [handle].
  - destruct (loadImage_frame filePath lines self) as (E1 & _ & _ & E2 & _).
    rewrite E1, E2. auto.
  - unfold undoLastRectangle. rewrite Hr. cbn. auto.
  - destruct (saveRectangles_frame fileName self) as (_ & E1 & _ & _ & E2 & _).
    rewrite E1, E2. auto.
  - destruct (scaleImage_frame value self) as (E1 & _ & _ & E2 & _).
    rewrite E1, E2. auto.
  - destruct (mouseMove_frame vp pos self) as (E1 & _ & E2 & _).
    rewrite E1, E2. auto.
  - unfold mouseReleaseEvent. rewrite Hd, andb_false_r. cbn. auto.
Qed.

(** X8.  Nothing is committed without an image and a press: after a
    sequence of events that holds no load, or no press of a mouse button,
    no drag is in progress and the committed list is empty, whatever moves
    and releases the sequence holds. *)
Theorem commit_needs_load_and_press (evs : list event) :
  forallb (fun ev => negb (is_load ev)) evs = true
  \/ forallb (fun ev => negb (is_press ev)) evs = true ->
  is_drawing (run evs init) = false /\ rectangles (run evs init) = [].
Proof.
  intros [H | H].
  - assert (G : forall self,
               scaled_img self = None /\ is_drawing self = false /\ rectangles self = [] ->
               scaled_img (run evs self) = None
               /\ is_drawing (run evs self) = false
               /\ rectangles (run evs self) = []).
    { induction evs as [| ev evs IH]; intros self Hs; [exact Hs |].
      cbn [forallb] in H. apply andb_true_iff in H. destruct H as [Hev H].
      apply negb_true_iff in Hev.
      change (run (ev :: evs) self) with (run evs (post (handle ev self))).
      apply (IH H). apply no_load_step; assumption. }
    apply (G init). repeat split; reflexivity.
  - assert (G : forall self,
               is_drawing self = false /\ rectangles self = [] ->
               is_drawing (run evs self) = false /\ rectangles (run evs self) = []).
    { induction evs as [| ev evs IH]; intros self Hs; [exact Hs |].
      cbn [forallb] in H. apply andb_true_iff in H. destruct H as [Hev H].
      apply negb_true_iff in Hev.
      change (run (ev :: evs) self) with (run evs (post (handle ev self))).
      apply (IH H). apply no_press_step; assumption. }
    apply (G init). split; reflexivity.
Qed.

(** ** Press and move *)

Lemma mousePress_drag (vp : Viewport) (pos p : QPoint) (self : ImageLabeler) :
  scaled_img self <> None ->
  rect_contains (label_width vp) (label_height vp) pos = true ->
  toOriginal vp self (offset_cursor pos) = Ok p ->
  mousePressEvent vp LeftButton pos self
  = returning
      (updateMessage
         ("Start: x=" ++ str (x p) ++ ", y=" ++ str (y p))%string
         (set_end_point p (set_start_point p (set_is_drawing true self)))).
Proof.
  intros Hs Hc Hp. unfold toOriginal, offset_cursor in Hp.
  unfold mousePressEvent. cbn [is_left].
  destruct (scaled_img self) as [sc |]; [| contradiction]. rewrite Hc.
  change (convertToOriginalImageCoords vp (set_is_drawing true self))
    with (convertToOriginalImageCoords vp self).
  destruct (convertToOriginalImageCoords vp self _) as [cq | e]; cbn [bind] in Hp;
    [| discriminate].
  cbn zeta.
  change (cropPoint (set_start_point cq (set_is_drawing true self))
            (start_point (set_start_point cq (set_is_drawing true self))))
    with (cropPoint self cq).
  rewrite Hp. reflexivity.
Qed.

(** A press whose mapping raises has set the drawing flag already. *)
Lemma mousePress_raises (vp : Viewport) (pos : QPoint) (e : exn) (self : ImageLabeler) :
  scaled_img self <> None ->
  rect_contains (label_width vp) (label_height vp) pos = true ->
  toOriginal vp self (offset_cursor pos) = Raise e ->
  let o := mousePressEvent vp LeftButton pos self in
  raised o = Some e
  /\ is_drawing (post o) = true
  /\ rectangles (post o) = rectangles self
  /\ end_point (post o) = end_point self
  /\ messageText (post o) = messageText self
  /\ original_img (post o) = original_img self
  /\ scaled_img (post o) = scaled_img self.
Proof.
  intros Hs Hc Hp. unfold toOriginal, offset_cursor in Hp.
  unfold mousePressEvent. cbn [is_left].
  destruct (scaled_img self) as [sc |] eqn:Hsc; [| contradiction]. rewrite Hc.
  change (convertToOriginalImageCoords vp (set_is_drawing true self))
    with (convertToOriginalImageCoords vp self).
  destruct (convertToOriginalImageCoords vp self _) as [cq | e']; cbn [bind] in Hp.
  - cbn zeta.
    change (cropPoint (set_start_point cq (set_is_drawing true self))
              (start_point (set_start_point cq (set_is_drawing true self))))
      with (cropPoint self cq).
    rewrite Hp. cbn. rewrite Hsc. repeat split; reflexivity.
  - injection Hp as ->. cbn. rewrite Hsc. repeat split; reflexivity.
Qed.

(** X9.  A press starts a drag exactly when it is a press of the primary
    button, on the label, over an image.  Then the drawing flag is set and
    the committed list is untouched, whatever the mapping of the press
    position does.  When the mapping returns, the start point and the end
    point both become the point it returned, one line is added to the
    message log and nothing is raised; when it raises, the handler raises
    the same exception with the flag set, and the end point and the log
    are as they were.  A press of another button, a press off the label or
    a press without an image changes nothing at all. *)
Theorem press_starts_drag (vp : Viewport) (button : MouseButton) (pos : QPoint)
    (self : ImageLabeler) :
  scaled_img self <> None ->
  (button = LeftButton
   /\ rect_contains (label_width vp) (label_height vp) pos = true ->
   is_drawing (post (mousePressEvent vp button pos self)) = true
   /\ rectangles (post (mousePressEvent vp button pos self)) = rectangles self
   /\ match toOriginal vp self (offset_cursor pos) with
      | Ok p =>
          raised (mousePressEvent vp button pos self) = None
          /\ start_point (post (mousePressEvent vp button pos self)) = p
          /\ end_point (post (mousePressEvent vp button pos self)) = p
          /\ messageText (post (mousePressEvent vp button pos self))
             = messageText self
                 ++ [("Start: x=" ++ str (x p) ++ ", y=" ++ str (y p))%string]
      | Raise e =>
          raised (mousePressEvent vp button pos self) = Some e
          /\ end_point (post (mousePressEvent vp button pos self)) = end_point self
          /\ messageText (post (mousePressEvent vp button pos self))
             = messageText self
      end)
  /\ (button <> LeftButton
      \/ rect_contains (label_width vp) (label_height vp) pos = false ->
      mousePressEvent vp button pos self = returning self)
  /\ (forall other,
        scaled_img other = None ->
        mousePressEvent vp button pos other = returning other).
Proof.
  intros Hs. split; [| split].
  - intros [-> Hc].
    destruct (toOriginal vp self (offset_cursor pos)) as [p | e] eqn:Hp.
    + rewrite (mousePress_drag vp pos p self Hs Hc Hp). cbn. repeat split; reflexivity.
    + destruct (mousePress_raises vp pos e self Hs Hc Hp) as (Hr & Hd & Hl & He & Hm & _).
      repeat split; assumption.
  - intros [Hb | Hc]; unfold mousePressEvent.
    + destruct button; [contradiction | reflexivity | reflexivity].
    + rewrite Hc. destruct (is_left button); destruct (scaled_img self); reflexivity.
  - intros other Ho. unfold mousePressEvent. rewrite Ho.
    destruct (is_left button); reflexivity.
Qed.

Lemma mouseMove_inside (vp : Viewport) (pos p : QPoint) (self : ImageLabeler) :
  scaled_img self <> None ->
  rect_contains (label_width vp) (label_height vp) pos = true ->
  toOriginal vp self (offset_cursor pos) = Ok p ->
  mouseMoveEvent vp pos self
  = returning
      (let self' :=
         set_mousePosLabel ("Mouse Pos: " ++ str (x p) ++ ", " ++ str (y p))%string self in
       if is_drawing self then set_end_point p self' else self').
Proof.
  intros Hs Hc Hp. unfold toOriginal, offset_cursor in Hp.
  unfold mouseMoveEvent.
  destruct (scaled_img self) as [sc |]; [| contradiction]. rewrite Hc.
  destruct (convertToOriginalImageCoords vp self _) as [cq | e]; cbn [bind] in Hp;
    [| discriminate].
  rewrite Hp. cbn. destruct (is_drawing self); reflexivity.
Qed.

Lemma mouseMove_raises (vp : Viewport) (pos : QPoint) (e : exn) (self : ImageLabeler) :
  scaled_img self <> None ->
  rect_contains (label_width vp) (label_height vp) pos = true ->
  toOriginal vp self (offset_cursor pos) = Raise e ->
  mouseMoveEvent vp pos self = raising e self.
Proof.
  intros Hs Hc Hp. unfold toOriginal, offset_cursor in Hp.
  unfold mouseMoveEvent.
  destruct (scaled_img self) as [sc |]; [| contradiction]. rewrite Hc.
  destruct (convertToOriginalImageCoords vp self _) as [cq | e']; cbn [bind] in Hp.
  - rewrite Hp. reflexivity.
  - injection Hp as ->. reflexivity.
Qed.

(** X10.  A pointer move on the label over an image maps the position
    into the image.  When the mapping returns, the position label shows
    the point it returned, and while a drag is in progress that point
    becomes the end point; without a drag the end point stays.  When the
    mapping raises, the handler raises the same exception and the object
    is as it was.  In both cases the start point, the drawing flag and the
    committed list are untouched. *)
Theorem move_inside_tracks_pointer (vp : Viewport) (pos : QPoint) (self : ImageLabeler) :
  scaled_img self <> None ->
  rect_contains (label_width vp) (label_height vp) pos = true ->
  start_point (post (mouseMoveEvent vp pos self)) = start_point self
  /\ is_drawing (post (mouseMoveEvent vp pos self)) = is_drawing self
  /\ rectangles (post (mouseMoveEvent vp pos self)) = rectangles self
  /\ match toOriginal vp self (offset_cursor pos) with
     | Ok p =>
         raised (mouseMoveEvent vp pos self) = None
         /\ mousePosLabel (post (mouseMoveEvent vp pos self))
            = ("Mouse Pos: " ++ str (x p) ++ ", " ++ str (y p))%string
         /\ end_point (post (mouseMoveEvent vp pos self))
            = (if is_drawing self then p else end_point self)
     | Raise e =>
         raised (mouseMoveEvent vp pos self) = Some e
         /\ post (mouseMoveEvent vp pos self) = self
     end.
Proof.
  intros Hs Hc.
  destruct (mouseMove_frame vp pos self) as (Hl & Hst & Hd & _). cbn zeta in *.
  split; [exact Hst |]. split; [exact Hd |]. split; [exact Hl |].
  destruct (toOriginal vp self (offset_cursor pos)) as [p | e] eqn:Hp.
  - rewrite (mouseMove_inside vp pos p self Hs Hc Hp).
    destruct (is_drawing self) eqn:E; cbn; rewrite ?E; repeat split; reflexivity.
  - rewrite (mouseMove_raises vp pos e self Hs Hc Hp). split; reflexivity.
Qed.


(** ** Clicks, undo after a commit *)

Lemma toOriginal_same_images (vp : Viewport) (self' self : ImageLabeler) (pos : QPoint) :
  original_img self' = original_img self ->
  scaled_img self' = scaled_img self ->
  toOriginal vp self' pos = toOriginal vp self pos.
Proof.
  intros Ho Hs. unfold toOriginal, convertToOriginalImageCoords, cropPoint.
  rewrite Ho, Hs. reflexivity.
Qed.

(** X11.  A click commits nothing.  On a shown image with a threshold
    that is not negative, a press of the primary button on the label
    followed by its release at the same position leaves the committed list
    as it was and ends the drag; more generally a release whose mapped
    point shares its x or its y with the start point (a drag along one
    axis) commits nothing, since its area is 0. *)
Theorem click_commits_nothing (vp : Viewport) (pos : QPoint) (self : ImageLabeler) :
  displayed self ->
  0 <= min_rect_area self ->
  rect_contains (label_width vp) (label_height vp) pos = true ->
  (let pressed := post (mousePressEvent vp LeftButton pos self) in
   let released := post (mouseReleaseEvent vp LeftButton pos pressed) in
   is_drawing pressed = true
   /\ is_drawing released = false
   /\ rectangles released = rectangles self)
  /\ (forall dragging p released_at,
        is_drawing dragging = true ->
        0 <= min_rect_area dragging ->
        toOriginal vp dragging (offset_cursor released_at) = Ok p ->
        x p = x (start_point dragging) \/ y p = y (start_point dragging) ->
        rectangles (post (mouseReleaseEvent vp LeftButton released_at dragging))
        = rectangles dragging).
Proof.
  intros Hd Hmin Hc.
  assert (Hthin : forall dragging p released_at,
             is_drawing dragging = true ->
             0 <= min_rect_area dragging ->
             toOriginal vp dragging (offset_cursor released_at) = Ok p ->
             x p = x (start_point dragging) \/ y p = y (start_point dragging) ->
             rectangles (post (mouseReleaseEvent vp LeftButton released_at dragging))
             = rectangles dragging).
  { intros dragging p released_at Hdr Hm Hp Hxy.
    destruct (mouseRelease_drag vp released_at p dragging Hdr Hp) as (_ & _ & _ & _ & Hl).
    cbn zeta in Hl. rewrite Hl.
    assert (Ha : drag_area (start_point dragging) p = 0).
    { unfold drag_area. destruct Hxy as [-> | ->]; rewrite Z.sub_diag; cbn; lia. }
    rewrite Ha. destruct (Z.gtb_spec 0 (min_rect_area dragging)); [lia | reflexivity]. }
  split; [| exact Hthin]. cbn zeta.
  assert (Hs : scaled_img self <> None).
  { unfold displayed in Hd. destruct (original_img self); [| contradiction].
    destruct (scaled_img self); [discriminate | contradiction]. }
  destruct (toOriginal vp self (offset_cursor pos)) as [p | e] eqn:Hp.
  - rewrite (mousePress_drag vp pos p self Hs Hc Hp). cbn [post returning].
    set (pressed :=
           updateMessage ("Start: x=" ++ str (x p) ++ ", y=" ++ str (y p))%string
             (set_end_point p (set_start_point p (set_is_drawing true self)))).
    assert (Hp' : toOriginal vp pressed (offset_cursor pos) = Ok p).
    { rewrite (toOriginal_same_images vp pressed self); [exact Hp | reflexivity ..]. }
    destruct (mouseRelease_drag vp pos p pressed eq_refl Hp') as (_ & _ & _ & Hf & _).
    split; [reflexivity |]. split; [exact Hf |].
    rewrite (Hthin pressed p pos eq_refl Hmin Hp' (or_introl eq_refl)). reflexivity.
  - destruct (mousePress_raises vp pos e self Hs Hc Hp)
      as (_ & Hdr & Hl & _ & _ & Ho & Hsc).
    cbn zeta in *.
    set (pressed := post (mousePressEvent vp LeftButton pos self)) in *.
    assert (Hp' : toOriginal vp pressed (offset_cursor pos) = Raise e).
    { rewrite (toOriginal_same_images vp pressed self); assumption. }
    destruct (mouseRelease_raises vp pos e pressed Hdr Hp') as (_ & _ & Hf & Hl').
    cbn zeta in *. split; [exact Hdr |]. split; [exact Hf |].
    rewrite Hl'. exact Hl.
Qed.

(** X12.  Undo takes back a commit.  When a release commits a rectangle
    (the mapping of the release position returns and the area of the drag
    is above the threshold), an undo right after it gives back the
    committed list as it was before the release, and the record text is
    the text of that list. *)
Theorem undo_reverts_commit (vp : Viewport) (pos p : QPoint) (self : ImageLabeler) :
  is_drawing self = true ->
  toOriginal vp self (offset_cursor pos) = Ok p ->
  drag_area (start_point self) p > min_rect_area self ->
  let committed := post (mouseReleaseEvent vp LeftButton pos self) in
  rectangles committed = rectangles self ++ [toTLBR (start_point self) p]
  /\ rectangles (post (undoLastRectangle committed)) = rectangles self
  /\ recordText (post (undoLastRectangle committed))
     = rect2Text (rectangles self).
Proof.
  intros Hdr Hp Ha. cbn zeta.
  destruct (mouseRelease_drag vp pos p self Hdr Hp) as (_ & _ & _ & _ & Hl).
  cbn zeta in Hl.
  destruct (Z.gtb_spec (drag_area (start_point self) p) (min_rect_area self)); [| lia].
  split; [exact Hl |].
  unfold undoLastRectangle. rewrite Hl.
  rewrite length_app, Nat.add_comm. cbn [length Nat.add Nat.ltb Nat.leb].
  cbn. unfold pop. rewrite removelast_last. split; reflexivity.
Qed.

(** ** Zoom *)

(** X13.  The zoom is absolute, not cumulative.  Moving the slider to one
    value and then to another leaves the object as moving it to the second
    value at once does: the scaled pixmap is always made from the original
    pixmap and the current factor, never from the pixmap shown before.
    The slider writes neither the original pixmap, its size nor the stored
    image. *)
Theorem zoom_last_value_wins (v1 v2 : Z) (self : ImageLabeler) :
  post (scaleImage v2 (post (scaleImage v1 self))) = post (scaleImage v2 self)
  /\ raised (scaleImage v2 (post (scaleImage v1 self))) = raised (scaleImage v2 self)
  /\ current_scale (post (scaleImage v2 self)) = (float_of_Z v2 / 100)%float
  /\ original_img (post (scaleImage v2 self)) = original_img self
  /\ original_img_size (post (scaleImage v2 self)) = original_img_size self
  /\ meta_img (post (scaleImage v2 self)) = meta_img self.
Proof.
  unfold scaleImage, displayImage. cbn.
  destruct (original_img self) as [o |] eqn:Ho; cbn; rewrite ?Ho;
    [| repeat split; reflexivity].
  destruct (scaled_img self) as [s |] eqn:Hs; cbn; rewrite ?Ho, ?Hs;
    [| cbn; rewrite ?Ho, ?Hs; repeat split; reflexivity].
  destruct (original_img_size self) as [sz |] eqn:Hz; cbn; rewrite ?Ho, ?Hs, ?Hz; cbn;
    rewrite ?Ho, ?Hs, ?Hz; repeat split; reflexivity.
Qed.


(** ** Saving *)

Lemma endswith_last (s suffix : string) (p : nat) :
  endswith s suffix = true ->
  (p < String.length suffix)%nat ->
  get p suffix = get (p + (String.length s - String.length suffix)) s.
Proof.
  unfold endswith. intros H Hp. apply andb_true_iff in H. destruct H as [_ H].
  apply String.eqb_eq in H. rewrite <- H at 1.
  apply substring_correct1. exact Hp.
Qed.

Lemma endswith_length (s suffix : string) :
  endswith s suffix = true -> (String.length suffix <= String.length s)%nat.
Proof.
  unfold endswith. intros H. apply andb_true_iff in H. destruct H as [H _].
  apply Nat.leb_le. exact H.
Qed.

Lemma json_is_not_txt (fileName : string) :
  endswith fileName ".json" = true -> endswith fileName ".txt" = false.
Proof.
  intros Hj. destruct (endswith fileName ".txt") eqn:Ht; [| reflexivity].
  pose proof (endswith_length _ _ Hj) as Lj. cbn in Lj.
  pose proof (endswith_last _ _ 4 Hj ltac:(cbn; lia)) as Gj.
  pose proof (endswith_last _ _ 3 Ht ltac:(cbn; lia)) as Gt.
  cbn [String.length] in Gj, Gt.
  replace (3 + (String.length fileName - 4))%nat
    with (4 + (String.length fileName - 5))%nat in Gt by lia.
  rewrite <- Gj in Gt. cbn in Gt. discriminate.
Qed.

(** X14.  A save writes at most one file, under the name the dialog
    returned and in the format its ending selects: the JSON entries for a
    name that ends in .json, the text lines for one that ends in .txt, and
    never both.  For any other name, the empty name of a cancelled dialog
    among them, no file is written and the object is unchanged.  A save
    changes nothing of the object but the message log and, failures of the
    file system aside, raises nothing. *)
Theorem save_writes_one_format (fileName : string) (self : ImageLabeler) :
  (endswith fileName ".json" = true ->
   written (saveRectangles fileName self)
   = [(fileName, JsonDump (rects_data (rectangles self)))])
  /\ (endswith fileName ".txt" = true ->
      written (saveRectangles fileName self)
      = [(fileName, Text (String.concat "" (map txt_line (rectangles self))))])
  /\ (endswith fileName ".json" = false ->
      endswith fileName ".txt" = false ->
      saveRectangles fileName self = returning self)
  /\ saveRectangles "" self = returning self
  /\ (length (written (saveRectangles fileName self)) <= 1)%nat
  /\ raised (saveRectangles fileName self) = None
  /\ set_messageText (messageText self) (post (saveRectangles fileName self)) = self.
Proof.
  assert (Hself : set_messageText (messageText self) self = self) by (destruct self; reflexivity).
  split; [| split; [| split; [| split; [| split; [| split]]]]].
  - intros Hj. unfold saveRectangles. rewrite Hj, (json_is_not_txt _ Hj). reflexivity.
  - intros Ht. unfold saveRectangles. rewrite Ht.
    destruct (endswith fileName ".json") eqn:Hj; [| reflexivity].
    rewrite (json_is_not_txt _ Hj) in Ht. discriminate.
  - intros Hj Ht. unfold saveRectangles. rewrite Hj, Ht. reflexivity.
  - reflexivity.
  - unfold saveRectangles.
    destruct (endswith fileName ".json") eqn:Hj.
    + rewrite (json_is_not_txt _ Hj). cbn. lia.
    + destruct (endswith fileName ".txt"); cbn; lia.
  - apply saveRectangles_frame.
  - unfold saveRectangles.
    destruct (endswith fileName ".json"); destruct (endswith fileName ".txt");
      cbn; destruct self; reflexivity.
Qed.

(** ** The message log *)

(** X15.  The message log only grows.  Every handler leaves the lines the
    log held in place and in order and adds at most one line at its end;
    no event clears or rewrites the log. *)
Theorem message_log_only_grows (ev : event) (self : ImageLabeler) :
  exists added,
    messageText (post (handle ev self)) = messageText self ++ added
    /\ (length added <= 1)%nat.
Proof.
  assert (Hnil : messageText self = messageText self ++ []) by (rewrite app_nil_r; reflexivity).
  destruct ev; cbn [handle].
  - destruct (loadImage_cases filePath lines self)
      as [E | [[e E] | (a & mn & mx & _ & _ & _ & _ & _ & _ & _ & E)]].
    + rewrite E. exists []. split; [exact Hnil | cbn; lia].
    + rewrite E. exists []. split; [exact Hnil | cbn; lia].
    + cbn zeta in E. rewrite E. exists []. split; [exact Hnil | cbn; lia].
  - unfold undoLastRectangle. destruct (0 <? _)%nat;
      exists []; (split; [exact Hnil | cbn; lia]).
  - unfold saveRectangles.
    destruct (endswith fileName ".json") eqn:Hj.
    + rewrite (json_is_not_txt _ Hj). eexists. split; [reflexivity | cbn; lia].
    + destruct (endswith fileName ".txt").
      * eexists. split; [reflexivity | cbn; lia].
      * exists []. split; [exact Hnil | cbn; lia].
  - unfold scaleImage, displayImage. cbn. case_split;
      exists []; (split; [exact Hnil | cbn; lia]).
  - unfold mouseMoveEvent. case_split;
      exists []; (split; [exact Hnil | cbn; lia]).
  - unfold mousePressEvent. case_split;
      first [ exists []; split; [exact Hnil | cbn; lia]
            | eexists; split; [reflexivity | cbn; lia] ].
  - unfold mouseReleaseEvent. case_split;
      first [ exists []; split; [exact Hnil | cbn; lia]
            | eexists; split; [reflexivity | cbn; lia] ].
Qed.


(** ** Where the mapping cannot return *)

Lemma convert_refused (vp : Viewport) (self : ImageLabeler) (pos : QPoint) (s : QPixmap) :
  (forall a b, exists e, QPoint_of_floats a b = Raise e) ->
  scaled_img self = Some s ->
  exists e, convertToOriginalImageCoords vp self pos = Raise e.
Proof.
  intros Hq Hs. unfold convertToOriginalImageCoords. rewrite Hs.
  match goal with
  | |- context [QPoint_of_floats ?a ?b] => destruct (Hq a b) as [e ->]
  end.
  exists e. reflexivity.
Qed.

Lemma toOriginal_raises (vp : Viewport) (self : ImageLabeler) (pos : QPoint) :
  (exists e, convertToOriginalImageCoords vp self pos = Raise e) ->
  exists e, toOriginal vp self pos = Raise e.
Proof.
  intros [e He]. exists e. unfold toOriginal. rewrite He. reflexivity.
Qed.

(** What the three mouse handlers do when the mapping of their position
    raises. *)
Lemma mouse_handlers_raise (vp : Viewport) (pos : QPoint) (self : ImageLabeler) :
  scaled_img self <> None ->
  (exists e, toOriginal vp self (offset_cursor pos) = Raise e) ->
  (rect_contains (label_width vp) (label_height vp) pos = true ->
   raised (mouseMoveEvent vp pos self) <> None
   /\ raised (mousePressEvent vp LeftButton pos self) <> None
   /\ is_drawing (post (mousePressEvent vp LeftButton pos self)) = true)
  /\ (is_drawing self = true ->
      raised (mouseReleaseEvent vp LeftButton pos self) <> None
      /\ is_drawing (post (mouseReleaseEvent vp LeftButton pos self)) = false
      /\ rectangles (post (mouseReleaseEvent vp LeftButton pos self)) = rectangles self).
Proof.
  intros Hs [e He]. split.
  - intros Hc. rewrite (mouseMove_raises vp pos e self Hs Hc He).
    destruct (mousePress_raises vp pos e self Hs Hc He) as (Hr & Hd & _).
    cbn zeta in *. rewrite Hr. repeat split; try discriminate. exact Hd.
  - intros Hd. destruct (mouseRelease_raises vp pos e self Hd He) as (Hr & _ & Hf & Hl).
    cbn zeta in *. rewrite Hr. repeat split; try discriminate; assumption.
Qed.

(** X24.  Where the constructor of points refuses every pair of floats, as
    PyQt5 does from Python 3.10 on, no rectangle can be drawn: after any
    sequence of events the committed list is empty, and on an object with
    an image every move and every press on the label raises, the press
    with the drawing flag set, and every release that ends a drag raises
    and commits nothing. *)
Theorem refused_floats_commit_nothing (evs : list event) :
  (forall a b, exists e, QPoint_of_floats a b = Raise e) ->
  rectangles (run evs init) = []
  /\ (forall vp pos self,
        scaled_img self <> None ->
        (rect_contains (label_width vp) (label_height vp) pos = true ->
         raised (mouseMoveEvent vp pos self) <> None
         /\ raised (mousePressEvent vp LeftButton pos self) <> None
         /\ is_drawing (post (mousePressEvent vp LeftButton pos self)) = true)
        /\ (is_drawing self = true ->
            raised (mouseReleaseEvent vp LeftButton pos self) <> None
            /\ is_drawing (post (mouseReleaseEvent vp LeftButton pos self)) = false
            /\ rectangles (post (mouseReleaseEvent vp LeftButton pos self))
               = rectangles self)).
Proof.
  intros Hq.
  assert (Hall : forall vp pos self,
             scaled_img self <> None ->
             exists e, toOriginal vp self (offset_cursor pos) = Raise e).
  { intros vp pos self Hs. apply toOriginal_raises.
    destruct (scaled_img self) as [s |] eqn:E; [| contradiction].
    exact (convert_refused vp self _ s Hq E). }
  split.
  - induction evs as [| ev evs IH] using rev_ind; [reflexivity |].
    rewrite run_app. change (run [ev] (run evs init)) with (post (handle ev (run evs init))).
    destruct (reachable_consistent evs) as [_ (Hd & _)].
    set (self := run evs init) in *.
    destruct ev; cbn [handle].
    + rewrite (proj1 (loadImage_frame filePath lines self)). exact IH.
    + rewrite undo_rectangles, IH. reflexivity.
    + rewrite (proj1 (proj2 (saveRectangles_frame fileName self))). exact IH.
    + rewrite (proj1 (scaleImage_frame value self)). exact IH.
    + rewrite (proj1 (mouseMove_frame vp pos self)). exact IH.
    + rewrite (proj1 (mousePress_frame vp button pos self)). exact IH.
    + destruct button, (is_drawing self) eqn:Hdr;
        try (unfold mouseReleaseEvent; rewrite Hdr; cbn; exact IH).
      destruct (Hall vp pos self (Hd eq_refl)) as [e He].
      destruct (mouseRelease_raises vp pos e self Hdr He) as (_ & _ & _ & Hl).
      cbn zeta in Hl. rewrite Hl. exact IH.
  - intros vp pos self Hs. apply mouse_handlers_raise; [exact Hs | apply Hall, Hs].
Qed.

(** X25.  An empty scaled pixmap stops the drawing, whatever the
    constructor of points does.  While both pixmaps exist and the scaled
    one has a side of 0 (the zoom slider at 10 per cent over an image of
    four pixels), the mapping raises for every position: every move and
    every press on the label raises, the press with the drawing flag set,
    and a release that ends a drag raises and commits nothing, however far
    the pointer travelled. *)
Theorem empty_pixmap_stops_drawing (vp : Viewport) (pos : QPoint) (self : ImageLabeler)
    (o s : QPixmap) :
  original_img self = Some o ->
  scaled_img self = Some s ->
  width s = 0 \/ height s = 0 ->
  (exists e, toOriginal vp self pos = Raise e)
  /\ (rect_contains (label_width vp) (label_height vp) pos = true ->
      raised (mouseMoveEvent vp pos self) <> None
      /\ raised (mousePressEvent vp LeftButton pos self) <> None
      /\ is_drawing (post (mousePressEvent vp LeftButton pos self)) = true)
  /\ (is_drawing self = true ->
      raised (mouseReleaseEvent vp LeftButton pos self) <> None
      /\ is_drawing (post (mouseReleaseEvent vp LeftButton pos self)) = false
      /\ rectangles (post (mouseReleaseEvent vp LeftButton pos self)) = rectangles self).
Proof.
  intros Ho Hs Hz.
  assert (Hall : forall q, exists e, toOriginal vp self q = Raise e).
  { intros q. apply toOriginal_raises. exact (convert_empty_side vp self q o s Ho Hs Hz). }
  split; [apply Hall |].
  apply mouse_handlers_raise; [rewrite Hs; discriminate | apply Hall].
Qed.

(** ** The overlay *)

(** X17.  Painting draws the overlay and nothing else.  Without an image
    [paintEvent] leaves the event to the base class.  With one, whenever it
    returns it has drawn one rectangle for each committed rectangle, in
    commit order, then one for the drag while a drag is in progress, each
    with the two corners [convertToScaledImageCoords] returned for the
    corners of the rectangle; and when it raises, the conversion of a
    corner of one of these rectangles raised. *)
Theorem paint_draws_every_rectangle (self : ImageLabeler) :
  (scaled_img self = None -> paintEvent self = Ok None)
  /\ (forall drawn,
        paintEvent self = Ok drawn ->
        scaled_img self <> None ->
        exists rects,
          drawn = Some rects
          /\ Forall2 (fun rect d => scaled_rect self (fst rect) (snd rect) = Ok d)
               (overlay self) rects
          /\ length rects = length (overlay self))
  /\ (forall e,
        paintEvent self = Raise e ->
        exists rect,
          In rect (overlay self)
          /\ scaled_rect self (fst rect) (snd rect) = Raise e).
Proof.
  unfold paintEvent, overlay. split; [| split].
  - intros ->. reflexivity.
  - intros drawn Hp Hs. destruct (scaled_img self) as [s |]; [| contradiction].
    destruct (traverse _ (rectangles self)) as [committed | e] eqn:Hc; cbn [bind] in Hp;
      [| discriminate].
    apply traverse_length in Hc.
    destruct (is_drawing self).
    + destruct (scaled_rect self (start_point self) (end_point self)) as [r | e] eqn:Hr;
        cbn [bind] in Hp; [| discriminate].
      injection Hp as <-. eexists. split; [reflexivity |].
      assert (H2 : Forall2 (fun rect d => scaled_rect self (fst rect) (snd rect) = Ok d)
                     (rectangles self ++ [(start_point self, end_point self)])
                     (committed ++ [r])).
      { apply Forall2_app; [exact Hc |]. constructor; [exact Hr | constructor]. }
      split; [exact H2 |]. symmetry. exact (Forall2_length H2).
    + cbn [bind] in Hp. injection Hp as <-. eexists. split; [reflexivity |].
      rewrite !app_nil_r. split; [exact Hc |]. symmetry. exact (Forall2_length Hc).
  - intros e Hp. destruct (scaled_img self) as [s |]; [| discriminate].
    destruct (traverse _ (rectangles self)) as [committed | e'] eqn:Hc; cbn [bind] in Hp.
    + destruct (is_drawing self); cbn [bind] in Hp; [| discriminate].
      destruct (scaled_rect self (start_point self) (end_point self)) as [r | e''] eqn:Hr;
        cbn [bind] in Hp; [discriminate |].
      injection Hp as ->. exists (start_point self, end_point self).
      split; [apply in_or_app; right; left; reflexivity | exact Hr].
    + injection Hp as ->. apply traverse_raises in Hc.
      destruct Hc as (rect & Hin & Hr). exists rect.
      split; [apply in_or_app; left; exact Hin | exact Hr].
Qed.

(** ** A matrix whose values are all equal *)

(** X21.  A matrix whose values are all equal loads without an exception.
    Its maximum equals its minimum, the division by their difference is
    NumPy's and raises nothing: every normalized value is [nan], and the
    load goes on to store and show an image. *)
Theorem constant_matrix_loads (a : list (list float64)) (mn mx : float64)
    (self : ImageLabeler) :
  np_min (Array2 a) = Ok mn ->
  np_max (Array2 a) = Ok mx ->
  (mn =? mx)%float = true ->
  normalize (Array2 a) = Ok (Array2 (map (map (fun _ => nan)) a))
  /\ raised (loadImage_matrix (Array2 a) self) = None
  /\ meta_img (post (loadImage_matrix (Array2 a) self)) <> None.
Proof.
  intros Hmn Hmx Heq.
  assert (Hc : concat a <> []).
  { unfold np_min, reduce in Hmn. cbn [ravel] in Hmn.
    destruct (concat a); [discriminate | discriminate]. }
  destruct (normalize_rank2 a Hc) as (mn' & mx' & Hmn' & Hmx' & Hn).
  rewrite Hmn in Hmn'. injection Hmn' as <-.
  rewrite Hmx in Hmx'. injection Hmx' as <-.
  destruct (loadImage_matrix_rank2 a _ self Hn) as [Hr Hm]. cbn zeta in Hm.
  split; [| split; [exact Hr | rewrite Hm; discriminate]].
  destruct (eqb_leb mn mx Heq) as [Hle Hge].
  destruct (extremes_bound a mn mx Hmn Hmx) as [Hfin Hnan].
  assert (Hall : Forall (fun v => is_nan v = false) (concat a)).
  { destruct (nan_or_not (concat a)) as [H | H]; [exact H |].
    destruct (Hnan H) as [Hn1 _]. destruct (leb_not_nan mn mx Hle). congruence. }
  destruct (Hfin Hall) as [[_ Hlo] [_ Hhi]].
  rewrite Forall_forall in Hlo, Hhi.
  rewrite Hn. do 2 f_equal. apply map_ext_in. intros row Hrow.
  apply map_ext_in. intros v Hv.
  assert (Hin : In v (concat a)) by (apply in_concat; exists row; split; assumption).
  apply normalized_constant; [apply Hlo, Hin | apply Hhi, Hin | exact Hge].
Qed.


(** ** The record text and the direction of a drag *)

Lemma enumerate_app {A : Type} (l1 l2 : list A) (start : Z) :
  enumerate start (l1 ++ l2)
  = enumerate start l1 ++ enumerate (start + Z.of_nat (length l1)) l2.
Proof.
  revert start. induction l1 as [| a l1 IH]; intros start; cbn [enumerate app length].
  - rewrite Z.add_0_r. reflexivity.
  - rewrite IH. do 3 f_equal. lia.
Qed.

(** X22.  The record text has one line per committed rectangle, in commit
    order and numbered from 1: it is empty for the empty list, and a
    rectangle added at the end of the list adds the line
    "Area n: x, y, x, y" with n the new length of the list and leaves the
    lines before it as they were. *)
Theorem record_text_line_per_rectangle (rects : list (QPoint * QPoint))
    (rect : QPoint * QPoint) :
  rect2Text [] = ""
  /\ rect2Text (rects ++ [rect])
     = String.append (rect2Text rects) (record_line (Z.of_nat (length rects)) rect)
  /\ rect2Text rects
     = String.concat ""
         (map (fun ir => record_line (fst ir) (snd ir)) (enumerate 0 rects)).
Proof.
  split; [reflexivity |]. split.
  - unfold rect2Text. rewrite enumerate_app, fold_left_app. reflexivity.
  - unfold rect2Text.
    assert (G : forall (l : list (Z * (QPoint * QPoint))) acc,
               fold_left
                 (fun text ir =>
                    let i := fst ir in
                    let rect := snd ir in
                    String.append text
                      ("Area " ++ str (i + 1) ++ ": " ++ str (x (fst rect)) ++ ", "
                       ++ str (y (fst rect)) ++ ", " ++ str (x (snd rect)) ++ ", "
                       ++ str (y (snd rect)) ++ String "010" "")%string) l acc
               = String.append acc
                   (String.concat "" (map (fun ir => record_line (fst ir) (snd ir)) l))).
    { induction l as [| ir l IH]; intros acc; cbn [fold_left map].
      - cbn. rewrite append_empty_r. reflexivity.
      - rewrite IH. cbn zeta. rewrite append_assoc. f_equal.
        destruct l as [| ir' l']; cbn [map String.concat].
        + rewrite append_empty_r. reflexivity.
        + reflexivity. }
    rewrite G. reflexivity.
Qed.

(** X23.  The direction of a drag does not matter.  [toTLBR] gives the
    same rectangle for a drag from p to q as for the drag from q to p, the
    area the release compares with the threshold is the same for both, and
    a pair that is normalized already is stored as it is. *)
Theorem drag_direction_does_not_matter (p q : QPoint) :
  toTLBR p q = toTLBR q p
  /\ drag_area p q = drag_area q p
  /\ rect_area (toTLBR p q) = drag_area p q
  /\ (normalized (p, q) -> toTLBR p q = (p, q)).
Proof.
  split; [| split; [| split]].
  - unfold toTLBR. cbn. rewrite (Z.min_comm (x p)), (Z.min_comm (y p)),
      (Z.max_comm (x p)), (Z.max_comm (y p)). reflexivity.
  - unfold drag_area.
    replace (x p - x q) with (- (x q - x p)) by lia.
    replace (y p - y q) with (- (y q - y p)) by lia.
    rewrite !Z.abs_opp. reflexivity.
  - apply toTLBR_area.
  - unfold normalized, toTLBR. cbn. intros [Hx Hy].
    rewrite (Z.min_l _ _ Hx), (Z.min_l _ _ Hy), (Z.max_r _ _ Hx), (Z.max_r _ _ Hy).
    destruct p, q. reflexivity.
Qed.

End Labeler.

(** ** The statements at concrete inputs

    The parser is [float_decimal], the scaler [scaled_nearest].  The
    constructor of points is [QPoint_converting], with which a drag can be
    carried out, and [QPoint_refusing] where it is named. *)

Lemma scenario_well_formed : well_formed float_decimal scenario_lines.
Proof.
  split.
  - repeat constructor; eexists; reflexivity.
  - intros l1 l2 H1 H2. cbn in H1, H2.
    repeat match goal with
           | H : _ \/ _ |- _ => destruct H as [<- | H]
           | H : False |- _ => contradiction
           end; reflexivity.
Qed.


(** C1 fails as stated: a release that ends a drag does not always get to
    the test of the area.  The button goes down on the top-left pixel of
    the 4x4 image, the pointer moves to the bottom-right corner, the zoom
    slider is moved to 10 per cent and the button is released: the drag
    has the area 16, above the threshold of 10, the handler raises on the
    division by the width of the empty scaled pixmap, and nothing is
    committed. *)
Lemma release_raises_without_commit :
  let self :=
    run float_decimal scaled_nearest QPoint_converting
      (press_events ++ [MouseMove example_viewport (mkQPoint 34 34); SliderMoved 10])
      init in
  let o := mouseReleaseEvent QPoint_converting example_viewport LeftButton
             (mkQPoint 34 34) self in
  is_drawing self = true
  /\ start_point self = mkQPoint 0 0
  /\ end_point self = mkQPoint 4 4
  /\ drag_area (start_point self) (end_point self) = 16
  /\ min_rect_area self = 10
  /\ scaled_img self = Some (mkQPixmap 0 0)
  /\ raised o = Some ZeroDivisionError
  /\ is_drawing (post o) = false
  /\ rectangles (post o) = [].
Proof.
  cbv zeta. repeat split; vm_compute; reflexivity.
Qed.

Lemma release_commits_iff_area_exceeds_witness :
  let self := run float_decimal scaled_nearest QPoint_converting press_events init in
  let o := mouseReleaseEvent QPoint_converting example_viewport LeftButton
             (mkQPoint 34 34) self in
  is_drawing self = true
  /\ toOriginal QPoint_converting example_viewport self (offset_cursor (mkQPoint 34 34))
     = Ok (mkQPoint 4 4)
  /\ raised o = None
  /\ end_point (post o) = mkQPoint 4 4
  /\ (rectangles (post o) = rectangles self ++ [toTLBR (start_point self) (mkQPoint 4 4)]
      <-> Z.abs (4 - x (start_point self)) * Z.abs (4 - y (start_point self))
          > min_rect_area self)
  /\ rectangles (post o) = [(mkQPoint 0 0, mkQPoint 4 4)]
  /\ end_point (run float_decimal scaled_nearest QPoint_converting ten_events init)
     = mkQPoint 5 2
  /\ rectangles (run float_decimal scaled_nearest QPoint_converting ten_events init)
     = []
  /\ end_point (run float_decimal scaled_nearest QPoint_converting eleven_events init)
     = mkQPoint 11 1
  /\ rectangles (run float_decimal scaled_nearest QPoint_converting eleven_events init)
     = [(mkQPoint 0 0, mkQPoint 11 1)].
Proof.
  cbv zeta.
  pose proof (release_commits_iff_area_exceeds float_decimal scaled_nearest
                QPoint_converting example_viewport (mkQPoint 34 34)
                (run float_decimal scaled_nearest QPoint_converting press_events init)
                eq_refl) as H.
  cbv zeta in H. destruct H as (_ & H & _).
  assert (Hp : toOriginal QPoint_converting example_viewport
                 (run float_decimal scaled_nearest QPoint_converting press_events init)
                 (offset_cursor (mkQPoint 34 34)) = Ok (mkQPoint 4 4))
    by (vm_compute; reflexivity).
  rewrite Hp in H. destruct H as (Hr & He & Hiff & _).
  split; [reflexivity |]. split; [exact Hp |]. split; [exact Hr |].
  split; [exact He |]. split; [exact Hiff |].
  repeat split; vm_compute; reflexivity.
Defined.


Lemma committed_rectangles_normalized_witness :
  let self := run float_decimal scaled_nearest QPoint_converting commit_events init in
  Forall normalized (rectangles self)
  /\ Forall normalized
       (rectangles (post (handle float_decimal scaled_nearest QPoint_converting UndoClicked self))).
Proof.
  cbv zeta.
  assert (H : Forall normalized
                (rectangles
                   (run float_decimal scaled_nearest QPoint_converting commit_events init))).
  { vm_compute. repeat constructor; discriminate. }
  split; [exact H |].
  exact (proj1 (proj2 (committed_rectangles_normalized float_decimal scaled_nearest
                         QPoint_converting))
           UndoClicked _ H).
Defined.

Lemma undo_removes_most_recent_witness :
  let self := run float_decimal scaled_nearest QPoint_converting commit_events init in
  rectangles self = [] ++ [(mkQPoint 0 0, mkQPoint 4 4)]
  /\ rectangles (post (undoLastRectangle self)) = []
  /\ length (rectangles (post (undoLastRectangle self)))
     = (length (rectangles self) - 1)%nat.
Proof.
  cbv zeta. split; [reflexivity |].
  exact (proj1 (proj2 (proj2
           (undo_removes_most_recent
              (run float_decimal scaled_nearest QPoint_converting commit_events init))))
           [] (mkQPoint 0 0, mkQPoint 4 4) eq_refl).
Defined.

(** C4 fails as stated: a second load completes and the rectangle
    committed before it is still in the list. *)
Lemma load_does_not_clear_rectangles :
  let self := run float_decimal scaled_nearest QPoint_converting commit_events init in
  let o := loadImage float_decimal scaled_nearest "m.txt" scenario_lines self in
  rectangles self = [(mkQPoint 0 0, mkQPoint 4 4)]
  /\ raised o = None
  /\ meta_img (post o) = Some scenario_image
  /\ rectangles (post o) = [(mkQPoint 0 0, mkQPoint 4 4)]
  /\ rectangles (post o) <> [].
Proof.
  cbv zeta. repeat split; try (vm_compute; reflexivity).
  vm_compute. discriminate.
Qed.

(** C5 fails as stated: for the committed rectangle with top 0, left 0,
    bottom 3, right 4 the JSON entry holds [0, 0, 3, 4] and the line of the
    text export holds 0 0 4 3. *)
Lemma exports_differ_in_order :
  let self := run float_decimal scaled_nearest QPoint_converting wide_commit_events init in
  rectangles self = wide_rectangles
  /\ written (saveRectangles "out.json" self)
     = [("out.json", JsonDump [mk_rect_dict 1 [0; 0; 3; 4]])]
  /\ written (saveRectangles "out.txt" self)
     = [("out.txt", Text (String.append "0 0 4 3" (String "010" "")))]
  /\ map tlbw (rects_data (rectangles self)) = [[0; 0; 3; 4]]
  /\ map line_fields (map txt_line (rectangles self))
     = [[Some 0; Some 0; Some 4; Some 3]]
  /\ map (map Some) (map tlbw (rects_data (rectangles self)))
     <> map line_fields (map txt_line (rectangles self)).
Proof.
  cbv zeta. repeat split; try (vm_compute; reflexivity).
  vm_compute. discriminate.
Qed.

Lemma exports_same_integers_other_order_witness :
  Forall normalized wide_rectangles
  /\ nth_error wide_rectangles 0 = Some (mkQPoint 0 0, mkQPoint 4 3)
  /\ nth_error (rects_data wide_rectangles) 0
     = Some (mk_rect_dict 1 [0; 0; 3; 4])
  /\ option_map line_fields (nth_error (map txt_line wide_rectangles) 0)
     = Some [Some 0; Some 0; Some 4; Some 3].
Proof.
  assert (H : Forall normalized wide_rectangles).
  { repeat constructor; cbn; lia. }
  split; [exact H |]. split; [reflexivity |].
  pose proof (exports_same_integers_other_order wide_rectangles 0
                (mkQPoint 0 0, mkQPoint 4 3) H eq_refl) as (H1 & H2 & _).
  split; [exact H1 | exact H2].
Defined.

Lemma load_normalizes_and_promotes_witness :
  concat shifted_matrix <> []
  /\ (exists mn mx,
        np_min (Array2 shifted_matrix) = Ok mn
        /\ np_max (Array2 shifted_matrix) = Ok mx
        /\ meta_img (post (loadImage_matrix scaled_nearest (Array2 shifted_matrix) init))
           = Some (map (map (fun v =>
                               [astype_uint8 ((v - mn) / (mx - mn) * 255)%float;
                                0; 0])) shifted_matrix))
  /\ np_min (Array2 shifted_matrix) = Ok 2%float
  /\ np_max (Array2 shifted_matrix) = Ok 10%float
  /\ meta_img (post (loadImage_matrix scaled_nearest (Array2 shifted_matrix) init))
     = Some shifted_image
  /\ meta_img (post (loadImage_matrix scaled_nearest (Array2 rounding_matrix) init))
     = Some rounding_image
  /\ meta_img
       (post (loadImage float_decimal scaled_nearest "m.txt" scenario_lines init))
     = Some scenario_image.
Proof.
  assert (H : concat shifted_matrix <> []) by (cbn; discriminate).
  split; [exact H |]. split.
  - destruct (proj1 (load_normalizes_and_promotes float_decimal scaled_nearest
                       shifted_matrix init H))
      as (mn & mx & Hmn & Hmx & _ & _ & _ & _ & Hm).
    exists mn, mx. repeat split; assumption.
  - repeat split; vm_compute; reflexivity.
Defined.

(** C9 fails as stated: the drag has its end at (2, 2), the button is
    released outside the label, and the end becomes (4, 4): the position of
    the release, put on the border of the image.  The rectangle is
    committed with that end; with the end the last move set, the area would
    be 4 and nothing would be committed. *)
Lemma release_outside_updates_end :
  let self := run float_decimal scaled_nearest QPoint_converting drag_events init in
  let o := mouseReleaseEvent QPoint_converting example_viewport LeftButton outside_position self in
  is_drawing self = true
  /\ rect_contains (label_width example_viewport) (label_height example_viewport)
       outside_position = false
  /\ end_point self = mkQPoint 2 2
  /\ drag_area (start_point self) (end_point self) = 4
  /\ raised o = None
  /\ end_point (post o) = mkQPoint 4 4
  /\ end_point (post o) <> end_point self
  /\ rectangles (post o) = [(mkQPoint 0 0, mkQPoint 4 4)].
Proof.
  cbv zeta. repeat split; try (vm_compute; reflexivity).
  vm_compute. discriminate.
Qed.

Lemma move_outside_ignored_release_recomputes_witness :
  let self := run float_decimal scaled_nearest QPoint_converting drag_events init in
  is_drawing self = true
  /\ rect_contains (label_width example_viewport) (label_height example_viewport)
       outside_position = false
  /\ raised (mouseMoveEvent QPoint_converting example_viewport outside_position self)
     = None
  /\ end_point (post (mouseMoveEvent QPoint_converting example_viewport
                        outside_position self))
     = end_point self
  /\ toOriginal QPoint_converting example_viewport self (offset_cursor outside_position)
     = Ok (mkQPoint 4 4)
  /\ raised (mouseReleaseEvent QPoint_converting example_viewport LeftButton
               outside_position self)
     = None
  /\ end_point
       (post (mouseReleaseEvent QPoint_converting example_viewport LeftButton
                outside_position self))
     = mkQPoint 4 4.
Proof.
  cbv zeta.
  pose proof (move_outside_ignored_release_recomputes QPoint_converting example_viewport
                outside_position outside_position
                (run float_decimal scaled_nearest QPoint_converting drag_events init)
                eq_refl eq_refl) as [(Hr & He & _) (_ & H & _)].
  assert (Hp : toOriginal QPoint_converting example_viewport
                 (run float_decimal scaled_nearest QPoint_converting drag_events init)
                 (offset_cursor outside_position) = Ok (mkQPoint 4 4))
    by (vm_compute; reflexivity).
  rewrite Hp in H. destruct H as [Hr' He'].
  repeat split; try reflexivity; assumption.
Defined.

(** C10 fails as stated: a file without lines is well formed, the loader
    returns for it the array of shape (0,), which is of rank one, and
    [loadImage] ends in ValueError before it looks at the shape. *)
Lemma empty_file_is_rank_one :
  let o := loadImage float_decimal scaled_nearest "m.txt" [] init in
  well_formed float_decimal []
  /\ load_matrix_from_txt float_decimal [] = Ok (Array1 [])
  /\ shape (Array1 []) = [0%nat]
  /\ length (shape (Array1 [])) <> 2%nat
  /\ branch_of (Array1 []) = InvalidShape
  /\ raised o = Some ValueError
  /\ meta_img (post o) = None.
Proof.
  cbv zeta. split.
  - split; [constructor | intros l1 l2 []].
  - repeat split; try reflexivity. cbn. discriminate.
Qed.

Lemma file_load_takes_rank2_branch_witness :
  well_formed float_decimal scenario_lines
  /\ scenario_lines <> []
  /\ exists a,
      load_matrix_from_txt float_decimal scenario_lines = Ok (Array2 a)
      /\ length (shape (Array2 a)) = 2%nat
      /\ length a = length scenario_lines.
Proof.
  assert (Hne : scenario_lines <> []) by discriminate.
  split; [exact scenario_well_formed |]. split; [exact Hne |].
  destruct (proj1 (file_load_takes_rank2_branch float_decimal scaled_nearest
                     scenario_lines scenario_well_formed Hne))
    as (a & H1 & H2 & H3 & _).
  exists a. repeat split; assumption.
Defined.


(** ** The further statements at concrete inputs *)

Lemma float_decimal_raises_ValueError : raises_ValueError_only float_decimal.
Proof.
  intros token e. unfold float_decimal.
  destruct token; [intros E; injection E as <-; reflexivity |].
  destruct (NilZero.uint_of_string _); [discriminate |].
  intros E. injection E as <-. reflexivity.
Qed.

Lemma reachable_exceptions_witness :
  raises_ValueError_only float_decimal
  /\ raised
       (handle float_decimal scaled_nearest QPoint_converting
          (MousePress example_viewport LeftButton (mkQPoint 30 30))
          (run float_decimal scaled_nearest QPoint_converting zoomed_out_events init))
     = Some ZeroDivisionError
  /\ mapping_exception QPoint_converting ZeroDivisionError.
Proof.
  split; [exact float_decimal_raises_ValueError |]. split; [reflexivity |].
  exact (reachable_exceptions float_decimal scaled_nearest QPoint_converting
           zoomed_out_events
           (MousePress example_viewport LeftButton (mkQPoint 30 30))
           ZeroDivisionError float_decimal_raises_ValueError eq_refl).
Defined.

Lemma failed_load_changes_nothing_witness :
  raised (loadImage float_decimal scaled_nearest "m.txt" []
            (run float_decimal scaled_nearest QPoint_converting commit_events init))
  <> None
  /\ post (loadImage float_decimal scaled_nearest "m.txt" []
             (run float_decimal scaled_nearest QPoint_converting commit_events init))
     = run float_decimal scaled_nearest QPoint_converting commit_events init.
Proof.
  assert (H : raised (loadImage float_decimal scaled_nearest "m.txt" []
                        (run float_decimal scaled_nearest QPoint_converting commit_events init))
              <> None) by (vm_compute; discriminate).
  split; [exact H |].
  exact (proj1 (failed_load_changes_nothing float_decimal scaled_nearest "m.txt" []
                  (run float_decimal scaled_nearest QPoint_converting commit_events init)
                  (or_intror H))).
Defined.

Lemma loaded_image_has_matrix_dimensions_witness :
  well_formed float_decimal scenario_lines
  /\ original_img (post (loadImage float_decimal scaled_nearest "m.txt"
                           scenario_lines init))
     = Some (mkQPixmap 4 4).
Proof.
  split; [exact scenario_well_formed |].
  exact (proj1 (proj2
           (loaded_image_has_matrix_dimensions float_decimal scaled_nearest "m.txt"
              (String.append "0 0 0 0" (String "010" "")) (tl scenario_lines) init
              ltac:(discriminate) scenario_well_formed ltac:(vm_compute; discriminate)))).
Defined.

Lemma commit_needs_load_and_press_witness :
  forallb (fun ev => negb (is_load ev)) imageless_events = true
  /\ is_drawing (run float_decimal scaled_nearest QPoint_converting imageless_events init) = false
  /\ rectangles (run float_decimal scaled_nearest QPoint_converting imageless_events init) = [].
Proof.
  split; [reflexivity |].
  exact (commit_needs_load_and_press float_decimal scaled_nearest QPoint_converting
           imageless_events
           (or_introl eq_refl)).
Defined.

Lemma loaded_displayed :
  displayed (run float_decimal scaled_nearest QPoint_converting [scenario_load] init).
Proof. vm_compute. repeat split; discriminate. Qed.

Lemma press_starts_drag_witness :
  scaled_img (run float_decimal scaled_nearest QPoint_converting [scenario_load] init)
  <> None
  /\ is_drawing
       (post (mousePressEvent QPoint_converting example_viewport LeftButton
                (mkQPoint 30 30)
                (run float_decimal scaled_nearest QPoint_converting [scenario_load]
                   init)))
     = true
  /\ is_drawing
       (post (mousePressEvent QPoint_refusing example_viewport LeftButton
                (mkQPoint 30 30)
                (run float_decimal scaled_nearest QPoint_refusing [scenario_load]
                   init)))
     = true
  /\ raised
       (mousePressEvent QPoint_refusing example_viewport LeftButton (mkQPoint 30 30)
          (run float_decimal scaled_nearest QPoint_refusing [scenario_load] init))
     = Some TypeError.
Proof.
  assert (Hs : scaled_img
                 (run float_decimal scaled_nearest QPoint_converting [scenario_load] init)
               <> None) by (vm_compute; discriminate).
  assert (Hs' : scaled_img
                  (run float_decimal scaled_nearest QPoint_refusing [scenario_load] init)
                <> None) by (vm_compute; discriminate).
  split; [exact Hs |]. split; [| split].
  - exact (proj1 (proj1 (press_starts_drag QPoint_converting example_viewport LeftButton
                           (mkQPoint 30 30) _ Hs) (conj eq_refl eq_refl))).
  - exact (proj1 (proj1 (press_starts_drag QPoint_refusing example_viewport LeftButton
                           (mkQPoint 30 30) _ Hs') (conj eq_refl eq_refl))).
  - vm_compute. reflexivity.
Defined.

Lemma move_inside_tracks_pointer_witness :
  scaled_img (run float_decimal scaled_nearest QPoint_converting press_events init)
  <> None
  /\ rect_contains (label_width example_viewport) (label_height example_viewport)
       (mkQPoint 32 32) = true
  /\ toOriginal QPoint_converting example_viewport
       (run float_decimal scaled_nearest QPoint_converting press_events init)
       (offset_cursor (mkQPoint 32 32)) = Ok (mkQPoint 2 2)
  /\ end_point
       (post (mouseMoveEvent QPoint_converting example_viewport (mkQPoint 32 32)
                (run float_decimal scaled_nearest QPoint_converting press_events init)))
     = mkQPoint 2 2.
Proof.
  assert (Hs : scaled_img
                 (run float_decimal scaled_nearest QPoint_converting press_events init)
               <> None) by (vm_compute; discriminate).
  assert (Hp : toOriginal QPoint_converting example_viewport
                 (run float_decimal scaled_nearest QPoint_converting press_events init)
                 (offset_cursor (mkQPoint 32 32)) = Ok (mkQPoint 2 2))
    by (vm_compute; reflexivity).
  split; [exact Hs |]. split; [reflexivity |]. split; [exact Hp |].
  pose proof (move_inside_tracks_pointer QPoint_converting example_viewport
                (mkQPoint 32 32) _ Hs eq_refl) as (_ & _ & _ & H).
  rewrite Hp in H. destruct H as (_ & _ & He). exact He.
Defined.

Lemma click_commits_nothing_witness :
  displayed (run float_decimal scaled_nearest QPoint_converting [scenario_load] init)
  /\ 0 <= min_rect_area (run float_decimal scaled_nearest QPoint_converting [scenario_load] init)
  /\ rectangles
       (post (mouseReleaseEvent QPoint_converting example_viewport LeftButton (mkQPoint 31 31)
                (post (mousePressEvent QPoint_converting example_viewport LeftButton
                         (mkQPoint 31 31)
                         (run float_decimal scaled_nearest QPoint_converting
                            [scenario_load] init)))))
     = rectangles (run float_decimal scaled_nearest QPoint_converting [scenario_load] init).
Proof.
  assert (Hm : 0 <= min_rect_area
                      (run float_decimal scaled_nearest QPoint_converting
                         [scenario_load] init))
    by (vm_compute; discriminate).
  split; [exact loaded_displayed |]. split; [exact Hm |].
  exact (proj2 (proj2 (proj1
           (click_commits_nothing QPoint_converting example_viewport (mkQPoint 31 31)
              (run float_decimal scaled_nearest QPoint_converting [scenario_load] init)
              loaded_displayed Hm eq_refl)))).
Defined.

Lemma undo_reverts_commit_witness :
  is_drawing (run float_decimal scaled_nearest QPoint_converting press_events init)
  = true
  /\ toOriginal QPoint_converting example_viewport
       (run float_decimal scaled_nearest QPoint_converting press_events init)
       (offset_cursor (mkQPoint 34 34)) = Ok (mkQPoint 4 4)
  /\ rectangles
       (post (undoLastRectangle
                (post (mouseReleaseEvent QPoint_converting example_viewport LeftButton
                         (mkQPoint 34 34)
                         (run float_decimal scaled_nearest QPoint_converting
                            press_events init)))))
     = rectangles (run float_decimal scaled_nearest QPoint_converting press_events init).
Proof.
  assert (Hp : toOriginal QPoint_converting example_viewport
                 (run float_decimal scaled_nearest QPoint_converting press_events init)
                 (offset_cursor (mkQPoint 34 34)) = Ok (mkQPoint 4 4))
    by (vm_compute; reflexivity).
  split; [reflexivity |]. split; [exact Hp |].
  exact (proj1 (proj2
           (undo_reverts_commit QPoint_converting example_viewport (mkQPoint 34 34)
              (mkQPoint 4 4)
              (run float_decimal scaled_nearest QPoint_converting press_events init)
              eq_refl Hp eq_refl))).
Defined.

Lemma save_writes_one_format_witness :
  endswith "out.json" ".json" = true
  /\ written (saveRectangles "out.json"
                (run float_decimal scaled_nearest QPoint_converting wide_commit_events init))
     = [("out.json",
         JsonDump
           (rects_data
              (rectangles
                 (run float_decimal scaled_nearest QPoint_converting wide_commit_events
                    init))))].
Proof.
  split; [reflexivity |].
  exact (proj1 (save_writes_one_format "out.json"
                  (run float_decimal scaled_nearest QPoint_converting wide_commit_events init))
           eq_refl).
Defined.


Lemma constant_matrix_loads_witness :
  np_min (Array2 constant_matrix) = Ok 7%float
  /\ np_max (Array2 constant_matrix) = Ok 7%float
  /\ normalize (Array2 constant_matrix)
     = Ok (Array2 (map (map (fun _ => nan)) constant_matrix))
  /\ raised (loadImage_matrix scaled_nearest (Array2 constant_matrix) init) = None.
Proof.
  split; [reflexivity |]. split; [reflexivity |].
  destruct (constant_matrix_loads scaled_nearest constant_matrix
              7%float 7%float init eq_refl eq_refl eq_refl)
    as (Hn & Hr & _).
  split; assumption.
Defined.

Lemma refused_floats_commit_nothing_witness :
  (forall a b, exists e, QPoint_refusing a b = Raise e)
  /\ rectangles (run float_decimal scaled_nearest QPoint_refusing commit_events init)
     = []
  /\ raised
       (mousePressEvent QPoint_refusing example_viewport LeftButton (mkQPoint 30 30)
          (run float_decimal scaled_nearest QPoint_refusing [scenario_load] init))
     <> None.
Proof.
  assert (Hq : forall a b, exists e, QPoint_refusing a b = Raise e)
    by (intros a b; exists TypeError; reflexivity).
  split; [exact Hq |].
  destruct (refused_floats_commit_nothing float_decimal scaled_nearest QPoint_refusing
              commit_events Hq) as [Hl Hm].
  split; [exact Hl |].
  refine (proj1 (proj2 (proj1
            (Hm example_viewport (mkQPoint 30 30)
               (run float_decimal scaled_nearest QPoint_refusing [scenario_load] init) _)
            eq_refl))).
  vm_compute. discriminate.
Defined.

Lemma empty_pixmap_stops_drawing_witness :
  let self :=
    run float_decimal scaled_nearest QPoint_converting
      (press_events ++ [MouseMove example_viewport (mkQPoint 34 34); SliderMoved 10])
      init in
  original_img self = Some (mkQPixmap 4 4)
  /\ scaled_img self = Some (mkQPixmap 0 0)
  /\ is_drawing self = true
  /\ raised (mouseReleaseEvent QPoint_converting example_viewport LeftButton
               (mkQPoint 34 34) self)
     <> None
  /\ rectangles
       (post (mouseReleaseEvent QPoint_converting example_viewport LeftButton
                (mkQPoint 34 34) self))
     = rectangles self.
Proof.
  cbv zeta. split; [reflexivity |]. split; [reflexivity |]. split; [reflexivity |].
  destruct (proj2 (proj2
              (empty_pixmap_stops_drawing QPoint_converting example_viewport
                 (mkQPoint 34 34)
                 (run float_decimal scaled_nearest QPoint_converting
                    (press_events
                     ++ [MouseMove example_viewport (mkQPoint 34 34); SliderMoved 10])
                    init)
                 (mkQPixmap 4 4) (mkQPixmap 0 0) eq_refl eq_refl (or_introl eq_refl)))
              eq_refl) as (Hr & _ & Hl).
  split; assumption.
Defined.
